(** * BehaviorGuard: the behavioural core of [main.js]

    A shallow embedding of the main process of BehaviorGuard Desktop: the raw
    event buffers ([RAW]), the session state ([SESSION]), the key handlers,
    the feature extractors, the bot scorer, the trust scorer, the training
    state machine, the reset and the profile import handler.

    Conventions of the embedding.
    - Millisecond timestamps, key codes and pixel coordinates are integers
      ([Z]).  Every other number that the code computes from its own
      buffers is a rational ([Q]): arithmetic is exact, so IEEE rounding and
      infinities are outside the model.  [NaN] is modelled where a parsed
      document can bring it in: the metrics of a profile document and the
      trust score are rationals or [NaN] ([jsnum]).
    - [Date.now()], [new Date().getHours()], [crypto.randomBytes] and the
      file dialog are inputs of the function that reads them.
    - [Math.sqrt], [Math.atan2] and [Math.log2] are not rational functions:
      they are variables of the section that holds the extractors.
    - [null]/[undefined] are [None]; JavaScript truthiness is written out
      ([None] and [0] are falsy).
    - Windows, tray, notifications and messages to the renderer write
      neither [RAW] nor [SESSION]; they are left out. *)

From Stdlib Require Import ZArith QArith Qminmax Qabs Qround Lqa Lia List Bool.
From stdpp Require Import gmap strings pretty.
From Stdlib Require Import Sorted Permutation.
Import ListNotations.

Local Open Scope Z_scope.

(** ** JavaScript helpers *)

(** An insertion-ordered [Map] with string keys. *)
Definition jsmap (V : Type) : Type := list (string * V).

Fixpoint map_get {V} (k : string) (m : jsmap V) : option V :=
  match m with
  | [] => None
  | (k', x) :: m' => if String.eqb k k' then Some x else map_get k m'
  end.

(** [Map.prototype.set]: an existing key keeps its place, a new one goes last. *)
Fixpoint map_set {V} (k : string) (x : V) (m : jsmap V) : jsmap V :=
  match m with
  | [] => [(k, x)]
  | (k', y) :: m' =>
      if String.eqb k k' then (k', x) :: m' else (k', y) :: map_set k x m'
  end.

Definition map_size {V} (m : jsmap V) : Z := Z.of_nat (length m).

(** [a.push(x); if (a.length > cap) a.shift()]. *)
Definition push_bounded {A} (cap : Z) (a : list A) (x : A) : list A :=
  let a' := a ++ [x] in
  if cap <? Z.of_nat (length a') then tl a' else a'.

(** [a.slice(-k)]. *)
Definition slice_last {A} (k : nat) (a : list A) : list A :=
  skipn (length a - k)%nat a.

(** Truthiness of a number-or-null slot. *)
Definition truthyZ (x : option Z) : bool :=
  match x with Some t => negb (t =? 0) | None => false end.

Definition Qltb (a b : Q) : bool := negb (Qle_bool b a).

(** A number that may be [NaN].  The numbers that the extractors compute are
    rationals; [NaN] enters through a property of a parsed document that is
    missing or does not convert to a number (a property read gives
    [undefined], and arithmetic converts its operands with [ToNumber]).
    [NaN] propagates through [+ - * /], [Math.abs], [Math.min] and
    [Math.max], and every comparison with [NaN] is false.  Divisions by zero
    do not occur where these operations are used: each one is guarded. *)
Inductive jsnum := num (q : Q) | NaN.

Definition js_lift2 (f : Q -> Q -> Q) (a b : jsnum) : jsnum :=
  match a, b with
  | num x, num y => num (f x y)
  | _, _ => NaN
  end.

Definition js_add : jsnum -> jsnum -> jsnum := js_lift2 Qplus.
Definition js_sub : jsnum -> jsnum -> jsnum := js_lift2 Qminus.
Definition js_mul : jsnum -> jsnum -> jsnum := js_lift2 Qmult.
Definition js_div : jsnum -> jsnum -> jsnum := js_lift2 Qdiv.
Definition js_min : jsnum -> jsnum -> jsnum := js_lift2 Qmin.
Definition js_max : jsnum -> jsnum -> jsnum := js_lift2 Qmax.

Definition js_abs (a : jsnum) : jsnum :=
  match a with num x => num (Qabs x) | NaN => NaN end.

(** [a < b]. *)
Definition js_ltb (a b : jsnum) : bool :=
  match a, b with
  | num x, num y => Qltb x y
  | _, _ => false
  end.

Declare Scope js_scope.
Delimit Scope js_scope with js.
Bind Scope js_scope with jsnum.
Infix "+" := js_add : js_scope.
Infix "-" := js_sub : js_scope.
Infix "*" := js_mul : js_scope.
Infix "/" := js_div : js_scope.

(** ** Utilities *)

Definition _hashPair (a b : string) : string := a +:+ "_" +:+ b.

Definition num_str (n : Z) : string := pretty n.

Definition _mean (a : list Q) : Q :=
  match a with
  | [] => 0%Q
  | _ => (fold_left Qplus a 0%Q / inject_Z (Z.of_nat (length a)))%Q
  end.

(** [[...a].sort((x,y)=>x-y)]: a stable ascending sort. *)
Fixpoint sort_insert (x : Q) (s : list Q) : list Q :=
  match s with
  | [] => [x]
  | y :: s' => if Qltb x y then x :: y :: s' else y :: sort_insert x s'
  end.

Definition sort_num (a : list Q) : list Q := fold_left (fun s x => sort_insert x s) a [].

Definition _med (a : list Q) : Q :=
  match a with
  | [] => 0%Q
  | _ =>
      let s := sort_num a in
      let m := (length s / 2)%nat in
      if Nat.odd (length s) then nth m s 0%Q
      else ((nth (m - 1) s 0 + nth m s 0) / 2)%Q
  end.

Definition _mad (a : list Q) : Q :=
  let m := _med a in
  (_med (map (fun x => Qabs (x - m)) a) * (14826 # 10000))%Q.

(** [i % 1] for a non-negative [i]. *)
Definition frac (i : Q) : Q := (i - inject_Z (Qfloor i))%Q.

Definition _pct (a : list Q) (p : Q) : Q :=
  match a with
  | [] => 0%Q
  | _ =>
      let s := sort_num a in
      let i := ((p / 100) * inject_Z (Z.of_nat (length s) - 1))%Q in
      let lo := Z.to_nat (Qfloor i) in
      let hi := nth (Z.to_nat (Qceiling i)) s 0%Q in
      (nth lo s 0 * (1 - frac i)
       + (if Qeq_bool hi 0 then nth lo s 0 else hi) * frac i)%Q
  end.

Definition _iqr (a : list Q) : Q := (_pct a 75 - _pct a 25)%Q.

(** ** Data model *)

Record KeyEvent := {
  k_kc : Z; k_dwell : Z; k_flight : option Z; k_ts : Z; k_nonce : string }.

Record MouseSample := {
  m_x : Z; m_y : Z; m_t : Z; m_v : option Q; m_acc : option Q; m_nonce : string }.

Record JitterSample := { j_t : Z; j_acc : Q; j_v : Q }.

Record ClickSample := { c_x : Z; c_y : Z; c_t : Z; c_btn : Z; c_nonce : string }.

Record ScrollSample := { s_amount : Z; s_t : Z }.

Record Raw := {
  keydowns : gmap Z Z;
  ksEvents : list KeyEvent;
  mouseEvts : list MouseSample;
  clicks : list ClickSample;
  scrolls : list ScrollSample;
  digraphs : jsmap (list Z);
  trigraphs : jsmap (list Z);
  jitterBuf : list JitterSample;
  lastRelease : option Z;
  nonce : string;
  salt : option string }.

(** The feature objects.  The same property names occur on two sides: in
    what the extractors return, where a metric is a rational ([N := Q]) and a
    sample count an integer ([C := Z]), and in the [features] of a profile
    document, where a property holds whatever the document holds
    ([N := C := jsnum], see [ProfileDoc]). *)
Record KSFeatOf (N C : Type) := {
  medDwell : N; madDwell : N; p25Dwell : N; p75Dwell : N; iqrDwell : N;
  avgDwell : N; stdDwell : N;
  medFlight : N; madFlight : N;
  medIv : N; madIv : N; iqrIv : N;
  wpm : N; digVar : N; ks_n : C }.

Record MouseFeatOf (N C : Type) := {
  avgVel : N; stdVel : N; curvature : N; entropy : N;
  jitterFreq : N; jitterAmp : N; mouse_n : C }.

Record ClickFeatOf (N C : Type) := {
  avgIv : N; stdIv : N; avgDist : N; cpm : N; click_n : C }.

Record FeatureVectorOf (N C : Type) := {
  ks : option (KSFeatOf N C); mouse : option (MouseFeatOf N C);
  click : option (ClickFeatOf N C) }.

Arguments medDwell {N C} _.
Arguments madDwell {N C} _.
Arguments p25Dwell {N C} _.
Arguments p75Dwell {N C} _.
Arguments iqrDwell {N C} _.
Arguments avgDwell {N C} _.
Arguments stdDwell {N C} _.
Arguments medFlight {N C} _.
Arguments madFlight {N C} _.
Arguments medIv {N C} _.
Arguments madIv {N C} _.
Arguments iqrIv {N C} _.
Arguments wpm {N C} _.
Arguments digVar {N C} _.
Arguments ks_n {N C} _.
Arguments avgVel {N C} _.
Arguments stdVel {N C} _.
Arguments curvature {N C} _.
Arguments entropy {N C} _.
Arguments jitterFreq {N C} _.
Arguments jitterAmp {N C} _.
Arguments mouse_n {N C} _.
Arguments avgIv {N C} _.
Arguments stdIv {N C} _.
Arguments avgDist {N C} _.
Arguments cpm {N C} _.
Arguments click_n {N C} _.
Arguments ks {N C} _.
Arguments mouse {N C} _.
Arguments click {N C} _.

(** What [extractKS], [extractMouse] and [extractClick] return. *)
Abbreviation KSFeat := (KSFeatOf Q Z).
Abbreviation MouseFeat := (MouseFeatOf Q Z).
Abbreviation ClickFeat := (ClickFeatOf Q Z).
Abbreviation FeatureVector := (FeatureVectorOf Q Z).

(** What the [features] of a profile document hold. *)
Abbreviation KSDoc := (KSFeatOf jsnum jsnum).
Abbreviation MouseDoc := (MouseFeatOf jsnum jsnum).
Abbreviation ClickDoc := (ClickFeatOf jsnum jsnum).
Abbreviation FeatureDoc := (FeatureVectorOf jsnum jsnum).

(** The feature objects as a document holds them once the extractors have
    made them: every property is a number. *)
Definition ks_doc (f : KSFeat) : KSDoc :=
  {| medDwell := num (medDwell f); madDwell := num (madDwell f);
     p25Dwell := num (p25Dwell f); p75Dwell := num (p75Dwell f);
     iqrDwell := num (iqrDwell f);
     avgDwell := num (avgDwell f); stdDwell := num (stdDwell f);
     medFlight := num (medFlight f); madFlight := num (madFlight f);
     medIv := num (medIv f); madIv := num (madIv f); iqrIv := num (iqrIv f);
     wpm := num (wpm f); digVar := num (digVar f);
     ks_n := num (inject_Z (ks_n f)) |}.

Definition mouse_doc (f : MouseFeat) : MouseDoc :=
  {| avgVel := num (avgVel f); stdVel := num (stdVel f);
     curvature := num (curvature f); entropy := num (entropy f);
     jitterFreq := num (jitterFreq f); jitterAmp := num (jitterAmp f);
     mouse_n := num (inject_Z (mouse_n f)) |}.

Definition click_doc (f : ClickFeat) : ClickDoc :=
  {| avgIv := num (avgIv f); stdIv := num (stdIv f);
     avgDist := num (avgDist f); cpm := num (cpm f);
     click_n := num (inject_Z (click_n f)) |}.

Definition features_doc (f : FeatureVector) : FeatureDoc :=
  {| ks := option_map ks_doc (ks f); mouse := option_map mouse_doc (mouse f);
     click := option_map click_doc (click f) |}.

Record SizeSummary := {
  sz_keystrokes : Z; sz_mouse : Z; sz_clicks : Z; sz_digraphs : Z }.

(** A profile document as the main process reads it.  [completeTraining]
    makes such documents, and [JSON.parse] of an imported file yields any
    value at all; the record holds what the reads of the main process see
    of that value.
    - A property that is missing, or whose value is falsy, is [None]: the
      code tests [features], [features.ks], [features.mouse],
      [features.click], [digraphs] and [trigraphs] for truthiness before it
      uses them.  A value that is not an object has no properties.
    - A metric of [features.ks], [features.mouse] and [features.click] is
      only read inside arithmetic and comparisons, which convert it with
      [ToNumber]: the record holds the result, [NaN] for a missing property
      and for a value that is not numeric.
    - [uid], [createdAt], [size] and [v] are never read back by the code
      modelled here; the digraph and trigraph tables, when present, are
      tables of integer arrays as [completeTraining] writes them. *)
Record ProfileDoc := {
  uid : option string;
  createdAt : option Z;
  features : option FeatureDoc;
  p_digraphs : option (jsmap (list Z));
  p_trigraphs : option (jsmap (list Z));
  size : option SizeSummary;
  v : option string }.

Inductive Phase := quick | intermediate | complete.

Definition Phase_eqb (a b : Phase) : bool :=
  match a, b with
  | quick, quick | intermediate, intermediate | complete, complete => true
  | _, _ => false
  end.

Record Session := {
  start : Z; activeTime : Z; lastActive : option Z; lastTick : Z;
  isTraining : bool; phase : Phase; trainStart : option Z;
  profile : option ProfileDoc; trustScore : option jsnum;
  consecutive : Z; lastCalc : Z }.

Inductive Sensitivity := low | medium | high.

Record Settings := {
  enabled : bool; sensitivity : Sensitivity; privacyMode : bool;
  notifications : bool; autoBlock : bool; autoStart : bool;
  launchAtLogin : bool }.

Inductive AlertType := bot | replay | anomaly.
Inductive Severity := sev_high | sev_critical.

Record Alert := {
  a_type : AlertType; a_severity : Severity; a_msg : string; a_ts : Z }.

Record TrainingSnapshot := {
  tr_ksEvents : list KeyEvent; tr_activeTime : Z; tr_phase : Phase;
  tr_digs : jsmap (list Z); tr_saved : Z }.

(** The documents of the key-value store that the core reads and writes. *)
Record Store := {
  store_profile : option ProfileDoc;
  store_training : option TrainingSnapshot;
  store_alerts : list Alert }.

Record State := {
  RAW : Raw; SESSION : Session; SETTINGS : Settings;
  ALERTS : list Alert; isMonitoring : bool; store : Store }.

Definition QUICK_TARGET : Z := 30 * 60 * 1000.
Definition FULL_TARGET : Z := 120 * 60 * 1000.

(** The module-level initialisers of [RAW] and [SESSION]: [nonce0] is the
    value of [_nonce()], [now] and [now'] those of the two [Date.now()]. *)
Definition RAW_init (nonce0 : string) : Raw :=
  {| keydowns := ∅; ksEvents := []; mouseEvts := []; clicks := []; scrolls := [];
     digraphs := []; trigraphs := []; jitterBuf := [];
     lastRelease := None; nonce := nonce0; salt := None |}.

Definition SESSION_init (now now' : Z) : Session :=
  {| start := now; activeTime := 0; lastActive := None; lastTick := now';
     isTraining := true; phase := quick; trainStart := None;
     profile := None; trustScore := None; consecutive := 0; lastCalc := 0 |}.

(** ** Activity tracking *)

Definition markActivity (now : Z) (s : Session) : Session :=
  if isTraining s then
    {| start := start s;
       activeTime :=
         (if truthyZ (lastActive s) && (now - default 0 (lastActive s) <? 10000)
          then activeTime s + (now - default 0 (lastActive s))
          else activeTime s);
       lastActive := Some now;
       lastTick := lastTick s;
       isTraining := isTraining s; phase := phase s;
       trainStart := (if truthyZ (trainStart s) then trainStart s else Some now);
       profile := profile s; trustScore := trustScore s;
       consecutive := consecutive s; lastCalc := lastCalc s |}
  else s.

Definition with_SESSION (s : Session) (st : State) : State :=
  {| RAW := RAW st; SESSION := s; SETTINGS := SETTINGS st;
     ALERTS := ALERTS st; isMonitoring := isMonitoring st; store := store st |}.

Definition with_RAW (r : Raw) (st : State) : State :=
  {| RAW := r; SESSION := SESSION st; SETTINGS := SETTINGS st;
     ALERTS := ALERTS st; isMonitoring := isMonitoring st; store := store st |}.

(** ** Raw event handlers *)

(** Whether a handler runs at all: [isMonitoring && SETTINGS.enabled]. *)
Definition capturing (st : State) : bool :=
  isMonitoring st && enabled (SETTINGS st).

Definition onKeyDown (now t : Z) (kc : Z) (st : State) : State :=
  if negb (capturing st) then st else
  let st := with_SESSION (markActivity now (SESSION st)) st in
  let r := RAW st in
  match keydowns r !! kc with
  | Some _ => st
  | None =>
      with_RAW
        {| keydowns := <[kc := t]> (keydowns r);
           ksEvents := ksEvents r; mouseEvts := mouseEvts r; clicks := clicks r;
           scrolls := scrolls r; digraphs := digraphs r; trigraphs := trigraphs r;
           jitterBuf := jitterBuf r; lastRelease := lastRelease r;
           nonce := nonce r; salt := salt r |} st
  end.

(** [if(!m.has(h)) m.set(h,[]); const arr=m.get(h); arr.push(x);
    if(arr.length>30) arr.shift();] *)
Definition record_interval (h : string) (x : Z) (m : jsmap (list Z)) : jsmap (list Z) :=
  map_set h (push_bounded 30 (default [] (map_get h m)) x) m.

Definition digraph_step (evs : list KeyEvent) (kc dn : Z) (m : jsmap (list Z)) : jsmap (list Z) :=
  if (2 <=? length evs)%nat then
    match nth_error evs (length evs - 2) with
    | Some prev =>
        record_interval (_hashPair (num_str (k_kc prev)) (num_str kc)) (dn - k_ts prev) m
    | None => m
    end
  else m.

Definition trigraph_step (evs : list KeyEvent) (kc dn : Z) (m : jsmap (list Z)) : jsmap (list Z) :=
  if (3 <=? length evs)%nat then
    match slice_last 3 evs with
    | a :: b :: _ =>
        record_interval
          (_hashPair (_hashPair (num_str (k_kc a)) (num_str (k_kc b))) (num_str kc))
          (dn - k_ts a) m
    | _ => m
    end
  else m.

Definition onKeyUp (now t : Z) (kc : Z) (st : State) : State :=
  if negb (capturing st) then st else
  let st := with_SESSION (markActivity now (SESSION st)) st in
  let r := RAW st in
  match keydowns r !! kc with
  | None => st
  | Some dn =>
      let dwell := t - dn in
      let flight :=
        if truthyZ (lastRelease r) then Some (dn - default 0 (lastRelease r))
        else None in
      if (dwell <? 1) || (1000 <? dwell) then
        with_RAW
          {| keydowns := delete kc (keydowns r);
             ksEvents := ksEvents r; mouseEvts := mouseEvts r; clicks := clicks r;
             scrolls := scrolls r; digraphs := digraphs r; trigraphs := trigraphs r;
             jitterBuf := jitterBuf r; lastRelease := Some t;
             nonce := nonce r; salt := salt r |} st
      else
        let ev := {| k_kc := kc; k_dwell := dwell; k_flight := flight;
                     k_ts := dn; k_nonce := nonce r |} in
        let evs := push_bounded 3000 (ksEvents r) ev in
        with_RAW
          {| keydowns := delete kc (keydowns r);
             ksEvents := evs; mouseEvts := mouseEvts r; clicks := clicks r;
             scrolls := scrolls r;
             digraphs := digraph_step evs kc dn (digraphs r);
             trigraphs := trigraph_step evs kc dn (trigraphs r);
             jitterBuf := jitterBuf r; lastRelease := Some t;
             nonce := nonce r; salt := salt r |} st
  end.

(** ** Reset and import *)

(** [resetProfile]; [fresh] is the value of the new [_nonce()]. *)
Definition resetProfile (fresh : string) (st : State) : State :=
  let s := SESSION st in
  let r := RAW st in
  {| RAW :=
       {| keydowns := keydowns r;
          ksEvents := []; mouseEvts := []; clicks := []; scrolls := [];
          digraphs := []; trigraphs := []; jitterBuf := [];
          lastRelease := None; nonce := fresh; salt := salt r |};
     SESSION :=
       {| start := start s; activeTime := 0; lastActive := None;
          lastTick := lastTick s;
          isTraining := true; phase := quick; trainStart := None;
          profile := None; trustScore := None;
          consecutive := 0; lastCalc := lastCalc s |};
     SETTINGS := SETTINGS st;
     ALERTS := [];
     isMonitoring := isMonitoring st;
     store := {| store_profile := None; store_training := None; store_alerts := [] |} |}.

(** What the [import-profile] handler hands back to its caller. *)
Inductive Outcome := Returned (b : bool) | Threw.

(** The [import-profile] handler.  [filePaths] is the answer of the open
    dialog; [parsed] is the result of reading and [JSON.parse]-ing its first
    file: [None] when that throws, [Some None] for a falsy value ([null],
    [0], [false], the empty string), [Some (Some doc)] for any other value,
    as [ProfileDoc] describes it.  The handler does not look at the value. *)
Definition import_profile (filePaths : list string)
    (parsed : option (option ProfileDoc)) (st : State) : Outcome * State :=
  match filePaths with
  | [] => (Returned false, st)
  | _ :: _ =>
      match parsed with
      | None => (Threw, st)
      | Some raw =>
          let s := SESSION st in
          (Returned true,
           {| RAW := RAW st;
              SESSION :=
                {| start := start s; activeTime := activeTime s;
                   lastActive := lastActive s; lastTick := lastTick s;
                   isTraining := false; phase := phase s;
                   trainStart := trainStart s;
                   profile := raw; trustScore := trustScore s;
                   consecutive := consecutive s; lastCalc := lastCalc s |};
              SETTINGS := SETTINGS st; ALERTS := ALERTS st;
              isMonitoring := isMonitoring st;
              store := {| store_profile := raw;
                          store_training := store_training (store st);
                          store_alerts := store_alerts (store st) |} |})
      end
  end.

(** The persisted profile schema
    [{uid, createdAt, features:{ks,mouse,click}, digraphs, trigraphs, size, v:"3.0"}]
    as the specification words it: every property present, version "3.0". *)
Definition schema_valid (doc : option ProfileDoc) : bool :=
  match doc with
  | None => false
  | Some d =>
      match uid d, createdAt d, features d, p_digraphs d, p_trigraphs d, size d, v d with
      | Some _, Some _, Some _, Some _, Some _, Some _, Some ver => String.eqb ver "3.0"
      | _, _, _, _, _, _, _ => false
      end
  end.

(** ** Rational stand-ins for the real-valued primitives

    Used only to run the extractors on concrete buffers. *)

(** Square root, rounded down to six decimals. *)
Definition sqrt_6 (x : Q) : Q :=
  Z.sqrt (Qnum x * 10 ^ 12 / Z.pos (Qden x)) # (10 ^ 6).

(** [Math.PI] as the double it is. *)
Definition PI : Q := 884279719003555 # 281474976710656.

(** Arc tangent on [[-1,1]] by [z(pi/4 + 0.273(1-|z|))], extended to the
    four quadrants as [atan2] does. *)
Definition atan_unit (z : Q) : Q := (z * (PI / 4 + (273 # 1000) * (1 - Qabs z)))%Q.

Definition atan2_approx (y x : Q) : Q :=
  if Qeq_bool x 0 && Qeq_bool y 0 then 0%Q
  else if Qle_bool (Qabs y) (Qabs x) then
    let a := atan_unit (y / x) in
    if Qle_bool 0 x then a
    else if Qle_bool 0 y then (a + PI)%Q else (a - PI)%Q
  else
    let a := atan_unit (x / y) in
    if Qle_bool 0 y then (PI / 2 - a)%Q else (- (PI / 2) - a)%Q.

(** Base-2 logarithm, rounded down to an integer. *)
Definition log2_floor (p : Q) : Q :=
  if Qle_bool 1 p then inject_Z (Z.log2 (Qfloor p))
  else if Qle_bool p 0 then 0%Q
  else inject_Z (- Z.log2_up (Qceiling (/ p))).

Section Core.

(** [Math.sqrt], [Math.atan2] (first argument [y]) and [Math.log2]. *)
Variable sqrt : Q -> Q.
Variable atan2 : Q -> Q -> Q.
Variable log2 : Q -> Q.

Definition _std (a : list Q) : Q :=
  let m := _mean a in
  match a with
  | [] => 0%Q
  | _ => sqrt (_mean (map (fun x => (x - m) ^ 2)%Q a))
  end.

(** ** Feature extraction *)

(** [k.dwell && k.dwell < 1000]. *)
Definition qualifying (k : KeyEvent) : bool :=
  negb (k_dwell k =? 0) && (k_dwell k <? 1000).

(** [k.flight && k.flight>0 && k.flight<2000]. *)
Definition valid_flight (k : KeyEvent) : bool :=
  match k_flight k with
  | Some f => negb (f =? 0) && (0 <? f) && (f <? 2000)
  | None => false
  end.

(** [v[i].ts - v[i-1].ts] for [i = 1 .. v.length-1]. *)
Fixpoint ts_deltas (ev : list KeyEvent) : list Z :=
  match ev with
  | a :: (b :: _) as rest => (k_ts b - k_ts a) :: ts_deltas rest
  | _ => []
  end.

Definition extractKS (r : Raw) : option KSFeat :=
  let ev := List.filter qualifying (ksEvents r) in
  if (length ev <? 50)%nat then None else
  let dw := map (fun k => inject_Z (k_dwell k)) ev in
  let fl := map (fun k => inject_Z (default 0 (k_flight k))) (List.filter valid_flight ev) in
  let iv := map inject_Z (List.filter (fun d => (0 <? d) && (d <? 2000)) (ts_deltas ev)) in
  let digVars :=
    map (fun t => _std (map inject_Z t))
        (List.filter (fun t => (3 <=? length t)%nat) (map snd (digraphs r))) in
  Some
    {| medDwell := _med dw; madDwell := _mad dw;
       p25Dwell := _pct dw 25; p75Dwell := _pct dw 75; iqrDwell := _iqr dw;
       avgDwell := _mean dw; stdDwell := _std dw;
       medFlight := (match fl with [] => 0%Q | _ => _med fl end);
       madFlight := (match fl with [] => 0%Q | _ => _mad fl end);
       medIv := (match iv with [] => 0%Q | _ => _med iv end);
       madIv := (match iv with [] => 0%Q | _ => _mad iv end);
       iqrIv := (match iv with [] => 0%Q | _ => _iqr iv end);
       wpm :=
         (if (length ev <? 10)%nat then 0%Q else
          match ev with
          | first :: _ =>
              let dur := (inject_Z (k_ts (List.last ev first) - k_ts first) / 60000)%Q in
              if Qltb 0 dur then (inject_Z (Z.of_nat (length ev)) / 5 / dur)%Q else 0%Q
          | [] => 0%Q
          end);
       digVar := (match digVars with [] => 0%Q | _ => _med digVars end);
       ks_n := Z.of_nat (length ev) |}.


(** One turn of the loop of [extractMouse] at index [i >= 1]: the speed, and
    for [i > 1] the turning angle, when the gap to the previous sample lies
    in (0, 0.5 s). *)
Definition mouse_step (m : list MouseSample) (i : nat) : option (Q * option Q) :=
  match nth_error m (i - 1), nth_error m i with
  | Some a, Some b =>
      let dt := (inject_Z (m_t b - m_t a) / 1000)%Q in
      if Qltb 0 dt && Qltb dt (1 # 2) then
        let dx := m_x b - m_x a in
        let dy := m_y b - m_y a in
        Some
          ((sqrt (inject_Z (dx * dx + dy * dy)) / dt)%Q,
           if (1 <? i)%nat then
             match nth_error m (i - 2) with
             | Some c =>
                 Some (Qabs (atan2 (inject_Z dy) (inject_Z dx)
                             - atan2 (inject_Z (m_y a - m_y c)) (inject_Z (m_x a - m_x c))))
             | None => None
             end
           else None)
      else None
  | _, _ => None
  end.

Definition mouse_steps (m : list MouseSample) : list (Q * option Q) :=
  omap (mouse_step m) (seq 1 (length m - 1)).

(** [bins[Math.min(9,Math.floor(x/bs))]++] over all angles, [bs = PI/10]. *)
Definition angle_bin (x : Q) : Z := Z.min 9 (Qfloor (x / (PI / 10))).

Definition angle_bins (angles : list Q) : list Z :=
  map (fun k => Z.of_nat (length (List.filter (fun x => angle_bin x =? Z.of_nat k) angles)))
      (seq 0 10).

Definition angle_entropy (angles : list Q) : Q :=
  if (length angles <? 10)%nat then 0%Q else
  let e :=
    fold_left
      (fun e c =>
         if 0 <? c then
           let p := (inject_Z c / inject_Z (Z.of_nat (length angles)))%Q in
           (e - p * log2 p)%Q
         else e)
      (angle_bins angles) 0%Q in
  Qmin 1 (Qabs e / (332 # 100)).

(** Sign changes of [acc[i]-m2] between neighbours. *)
Fixpoint zero_crossings (m2 : Q) (acc : list Q) : Z :=
  match acc with
  | a :: (b :: _) as rest =>
      (if Qltb ((b - m2) * (a - m2)) 0 then 1 else 0) + zero_crossings m2 rest
  | _ => 0
  end.

Definition jitter_stats (jb : list JitterSample) : Q * Q :=
  if (20 <=? length jb)%nat then
    let acc := map j_acc jb in
    if (10 <=? length acc)%nat then
      match jb with
      | first :: _ =>
          let m2 := _mean acc in
          let zc := zero_crossings m2 acc in
          let dur := (inject_Z (j_t (List.last jb first) - j_t first) / 1000)%Q in
          ((if Qltb 0 dur then (inject_Z zc / 2 / dur)%Q else 0%Q), _std acc)
      | [] => (0%Q, 0%Q)
      end
    else (0%Q, 0%Q)
  else (0%Q, 0%Q).

Definition extractMouse (r : Raw) : option MouseFeat :=
  let m := mouseEvts r in
  if (length m <? 30)%nat then None else
  let steps := mouse_steps m in
  let vels := map fst steps in
  let angles := omap snd steps in
  let j := jitter_stats (jitterBuf r) in
  Some
    {| avgVel := _mean vels; stdVel := _std vels;
       curvature := (match angles with [] => 0%Q | _ => (_mean angles / PI)%Q end);
       entropy := angle_entropy angles;
       jitterFreq := fst j; jitterAmp := snd j;
       mouse_n := Z.of_nat (length m) |}.

(** Successive click pairs: interval and distance. *)
Fixpoint click_pairs (c : list ClickSample) : list (Q * Q) :=
  match c with
  | a :: (b :: _) as rest =>
      let dx := c_x b - c_x a in
      let dy := c_y b - c_y a in
      (inject_Z (c_t b - c_t a), sqrt (inject_Z (dx * dx + dy * dy))) :: click_pairs rest
  | _ => []
  end.

Definition extractClick (r : Raw) : option ClickFeat :=
  let c := clicks r in
  if (length c <? 5)%nat then None else
  match c with
  | [] => None
  | first :: _ =>
      let ivs := map fst (click_pairs c) in
      let dists := map snd (click_pairs c) in
      let dur := (inject_Z (c_t (List.last c first) - c_t first) / 60000)%Q in
      Some
        {| avgIv := _mean ivs; stdIv := _std ivs; avgDist := _mean dists;
           cpm := (if Qltb 0 dur then (inject_Z (Z.of_nat (length c)) / dur)%Q else 0%Q);
           click_n := Z.of_nat (length c) |}
  end.

(** A keystroke vector with its [digVar] blanked: all that [extractKS]
    computes from the key events themselves. *)
Definition without_digVar (f : KSFeat) : KSFeat :=
  {| medDwell := medDwell f; madDwell := madDwell f;
     p25Dwell := p25Dwell f; p75Dwell := p75Dwell f; iqrDwell := iqrDwell f;
     avgDwell := avgDwell f; stdDwell := stdDwell f;
     medFlight := medFlight f; madFlight := madFlight f;
     medIv := medIv f; madIv := madIv f; iqrIv := iqrIv f;
     wpm := wpm f; digVar := 0%Q; ks_n := ks_n f |}.

(** ** Bot detection *)

Inductive BotReason :=
| MouseEntropyLow
| JitterOutOfBand (hz : Q)
| PerfectPaths
| SuperhumanSpeed
| TooConsistent (cv : Q)
| DigraphVarianceLow
| NoMicroCorrections.

Record BotVerdict := {
  isBot : bool; confidence : Z; reason : list BotReason }.

(** [if (c) { score += pts; reasons.push(why); }] *)
Definition award (c : bool) (pts : Z) (why : BotReason)
    (acc : Z * list BotReason) : Z * list BotReason :=
  if c then (fst acc + pts, snd acc ++ [why]) else acc.

(** Whether the path turns at its middle sample by more than 0.1 and less
    than PI - 0.1 radians. *)
Definition turns (p q s : MouseSample) : bool :=
  let a1 := atan2 (inject_Z (m_y q - m_y p)) (inject_Z (m_x q - m_x p)) in
  let a2 := atan2 (inject_Z (m_y s - m_y q)) (inject_Z (m_x s - m_x q)) in
  Qltb (1 # 10) (Qabs (a1 - a2)) && Qltb (Qabs (a1 - a2)) (PI - (1 # 10)).

(** The counter [changes] after the loop [for (i = 2; i < r.length; i++)]. *)
Fixpoint direction_changes (r : list MouseSample) : Z :=
  match r with
  | p :: rest =>
      match rest with
      | q :: s :: _ => (if turns p q s then 1 else 0) + direction_changes rest
      | _ => 0
      end
  | [] => 0
  end.

(** [changes / (r.length - 2)] for [r] the last 50 mouse samples. *)
Definition change_fraction (m : list MouseSample) : Q :=
  let r := slice_last 50 m in
  (inject_Z (direction_changes r) / inject_Z (Z.of_nat (length r) - 2))%Q.

(** [ks.medIv>0 ? ks.iqrIv/ks.medIv : 0]. *)
Definition interval_cv (k : KSFeat) : Q :=
  if Qltb 0 (medIv k) then (iqrIv k / medIv k)%Q else 0%Q.

Definition bot_score (ks : option KSFeat) (mouse : option MouseFeat) (r : Raw)
    : Z * list BotReason :=
  let acc := (0, []) in
  let acc :=
    match mouse with
    | Some m =>
        let acc := award (Qltb (entropy m) (2 # 100)) 40 MouseEntropyLow acc in
        let human := Qle_bool 3 (jitterFreq m) && Qle_bool (jitterFreq m) 12 in
        let acc := award (negb human && Qltb 0 (jitterFreq m)) 30
                         (JitterOutOfBand (jitterFreq m)) acc in
        award (Qltb (curvature m) (1 # 100)) 25 PerfectPaths acc
    | None => acc
    end in
  let acc :=
    match ks with
    | Some k =>
        let acc := award (Qltb (medIv k) 30) 50 SuperhumanSpeed acc in
        let cv := interval_cv k in
        let acc := award (Qltb cv (15 # 100) && (30 <? ks_n k)) 25 (TooConsistent cv) acc in
        award (Qltb (digVar k) 3 && (10 <? map_size (digraphs r))) 20
              DigraphVarianceLow acc
    | None => acc
    end in
  if (20 <=? length (mouseEvts r))%nat then
    award (Qltb (change_fraction (mouseEvts r)) (15 # 100)) 30 NoMicroCorrections acc
  else acc.

Definition detectBot (ks : option KSFeat) (mouse : option MouseFeat) (r : Raw)
    : BotVerdict :=
  let acc := bot_score ks mouse r in
  {| isBot := 85 <=? fst acc; confidence := Z.min 100 (fst acc); reason := snd acc |}.

(** ** Risk calculation *)

(** The closure [cmp] of [calcTrustScore], with its captured [d] and [n]
    passed in and out.  [cv] comes from the extractors, [bv] from the
    profile document. *)
Definition cmp (cv : Q) (bv : jsnum) (tol : Q) (dn : jsnum * Z) : jsnum * Z :=
  if js_ltb (num 0) bv
  then ((fst dn
         + js_min (num 1) (js_abs (num cv - bv) / bv / num tol) * num 100)%js,
        snd dn + 1)
  else dn.

(** [n ? d/n : 0]. *)
Definition part_r (dn : jsnum * Z) : jsnum :=
  if snd dn =? 0 then num 0 else (fst dn / num (inject_Z (snd dn)))%js.

Definition ks_part (c : KSFeat) (b : KSDoc) : jsnum * Q :=
  let dn := (num 0, 0) in
  let dn := cmp (medDwell c) (medDwell b) (6 # 10) dn in
  let dn := cmp (madDwell c) (madDwell b) (7 # 10) dn in
  let dn := cmp (medFlight c) (medFlight b) (7 # 10) dn in
  let dn := cmp (medIv c) (medIv b) (65 # 100) dn in
  let dn := cmp (wpm c) (wpm b) (6 # 10) dn in
  (part_r dn, 5 # 10).

Definition mouse_part (c : MouseFeat) (b : MouseDoc) : jsnum * Q :=
  let dn := (num 0, 0) in
  let dn :=
    if js_ltb (num 0) (avgVel b)
    then ((fst dn
           + js_min (num 1) (js_abs (num (avgVel c) - avgVel b) / avgVel b)
             * num 100)%js,
          snd dn + 1)
    else dn in
  let dn :=
    ((fst dn + js_min (num 1) (js_abs (num (curvature c) - curvature b)) * num 100)%js,
     snd dn + 1) in
  let dn :=
    ((fst dn + js_min (num 1) (js_abs (num (entropy c) - entropy b)) * num 100)%js,
     snd dn + 1) in
  (part_r dn, 3 # 10).

Definition click_part (c : ClickFeat) (b : ClickDoc) : jsnum * Q :=
  let dn := (num 0, 0) in
  let dn :=
    if js_ltb (num 0) (cpm b)
    then ((fst dn
           + js_min (num 1) (js_abs (num (cpm c) - cpm b) / cpm b / num (12 # 10))
             * num 100)%js,
          snd dn + 1)
    else dn in
  let dn :=
    if js_ltb (num 0) (avgDist b)
    then ((fst dn
           + js_min (num 1)
               (js_abs (num (avgDist c) - avgDist b) / avgDist b / num (12 # 10))
             * num 100)%js,
          snd dn + 1)
    else dn in
  (part_r dn, 2 # 10).

(** The array [parts] of pairs [(r, w)], in the order it is pushed. *)
Definition score_parts (cur : FeatureVector) (base : FeatureDoc) : list (jsnum * Q) :=
  (match ks cur, ks base with Some c, Some b => [ks_part c b] | _, _ => [] end)
  ++ (match mouse cur, mouse base with Some c, Some b => [mouse_part c b] | _, _ => [] end)
  ++ (match click cur, click base with Some c, Some b => [click_part c b] | _, _ => [] end).

Definition risk_of (parts : list (jsnum * Q)) : jsnum :=
  let tw := fold_left (fun s x => (s + snd x)%Q) parts 0%Q in
  (fold_left (fun s x => (s + fst x * num (snd x))%js) parts (num 0) / num tw)%js.

(** The time-context factor for hour [h] and week day [day]. *)
Definition time_adj (h day : Z) : Q :=
  let adj := 1%Q in
  let adj := if (h <? 5) || (22 <=? h) then (adj * (85 # 100))%Q else adj in
  let adj := if (day =? 0) || (day =? 6) then (adj * (90 # 100))%Q else adj in
  if (5 <=? h) && (h <? 12) then (adj * (92 # 100))%Q else adj.

Definition current_features (r : Raw) : FeatureVector :=
  {| ks := extractKS r; mouse := extractMouse r; click := extractClick r |}.

(** [calcTrustScore]; [h] and [day] are [getHours()] and [getDay()].
    [None] is JavaScript's [null]. *)
Definition calcTrustScore (h day : Z) (st : State) : option jsnum :=
  match profile (SESSION st) with
  | None => None
  | Some p =>
      match features p with
      | None => None
      | Some base =>
          let cur := current_features (RAW st) in
          match ks cur, mouse cur with
          | None, None => trustScore (SESSION st)
          | _, _ =>
              match score_parts cur base with
              | [] => trustScore (SESSION st)
              | parts =>
                  Some (js_max (num 0)
                          (js_min (num 100)
                             (num 100 - risk_of parts * num (time_adj h day))%js))
              end
          end
      end
  end.

(** ** Training *)

(** [completeTraining]; [rnd] is the hex string of [crypto.randomBytes(6)],
    [now] is [Date.now()].  The profile takes the digraph and trigraph
    tables as they are at that moment. *)
Definition completeTraining (rnd : string) (now : Z) (st : State) : State :=
  let r := RAW st in
  let s := SESSION st in
  let cur := current_features r in
  match ks cur, mouse cur with
  | None, None => st
  | _, _ =>
      let p :=
        {| uid := Some ("user_" +:+ rnd); createdAt := Some now;
           features := Some (features_doc cur);
           p_digraphs := Some (digraphs r); p_trigraphs := Some (trigraphs r);
           size := Some {| sz_keystrokes := Z.of_nat (length (ksEvents r));
                           sz_mouse := Z.of_nat (length (mouseEvts r));
                           sz_clicks := Z.of_nat (length (clicks r));
                           sz_digraphs := map_size (digraphs r) |};
           v := Some "3.0" |} in
      {| RAW := r;
         SESSION :=
           {| start := start s; activeTime := activeTime s;
              lastActive := lastActive s; lastTick := lastTick s;
              isTraining := false; phase := complete; trainStart := trainStart s;
              profile := Some p; trustScore := trustScore s;
              consecutive := consecutive s; lastCalc := lastCalc s |};
         SETTINGS := SETTINGS st; ALERTS := ALERTS st;
         isMonitoring := isMonitoring st;
         store := {| store_profile := Some p; store_training := None;
                     store_alerts := store_alerts (store st) |} |}
  end.

(** [Math.min(100,(SESSION.activeTime/target)*100)]. *)
Definition training_pct (s : Session) : Q :=
  let target := if Phase_eqb (phase s) quick then QUICK_TARGET else FULL_TARGET in
  Qmin 100 (inject_Z (activeTime s) / inject_Z target * 100).

Definition checkTrainingProgress (rnd : string) (now : Z) (st : State) : State :=
  let s := SESSION st in
  if Qle_bool 100 (training_pct s) then
    if Phase_eqb (phase s) quick then
      with_SESSION
        {| start := start s; activeTime := 0; lastActive := Some now;
           lastTick := lastTick s;
           isTraining := isTraining s; phase := intermediate;
           trainStart := trainStart s;
           profile := profile s; trustScore := trustScore s;
           consecutive := consecutive s; lastCalc := lastCalc s |} st
    else completeTraining rnd now st
  else st.

End Core.

(** ** The scorers in the words of the specification *)

(** [min(1, |current - baseline| / baseline / tolerance) x 100]. *)
Definition deviation (cv bv tol : Q) : Q :=
  (Qmin 1 (Qabs (cv - bv) / bv / tol) * 100)%Q.

(** The channel deviation as claimed: the mean, over the metrics
    [(current, baseline, tolerance)] whose baseline is nonzero, of their
    deviations. *)
Definition claimed_channel_deviation (metrics : list (Q * Q * Q)) : Q :=
  _mean (map (fun m => deviation (fst (fst m)) (snd (fst m)) (snd m))
             (List.filter (fun m => negb (Qeq_bool (snd (fst m)) 0)) metrics)).

(** The deviation of a metric [(current, baseline, tolerance)] that is
    counted: its baseline is a number greater than zero. *)
Definition counted (m : Q * jsnum * Q) : option Q :=
  match snd (fst m) with
  | num bv => if Qltb 0 bv then Some (deviation (fst (fst m)) bv (snd m)) else None
  | NaN => None
  end.

(** The same mean over the metrics whose baseline is positive. *)
Definition channel_deviation (metrics : list (Q * jsnum * Q)) : Q :=
  _mean (omap counted metrics).

(** A part [(r, w)] whose deviation is the number [r]. *)
Definition num_part (x : Q * Q) : jsnum * Q := (num (fst x), snd x).

(** The mean of the [(r, w)] pairs with the weights renormalised to sum 1. *)
Definition weighted_mean (parts : list (Q * Q)) : Q :=
  let tw := fold_left (fun s x => (s + snd x)%Q) parts 0%Q in
  fold_left (fun s x => (s + fst x * (snd x / tw))%Q) parts 0%Q.

Definition pts (c : bool) (n : Z) : Z := if c then n else 0.

(** The bot score as claimed, rule by rule. *)
Definition claimed_bot_score (atan2 : Q -> Q -> Q)
    (ks : option KSFeat) (mouse : option MouseFeat) (r : Raw) : Z :=
  match mouse with
  | Some m =>
      pts (Qltb (entropy m) (2 # 100)) 40
      + pts (negb (Qle_bool 3 (jitterFreq m) && Qle_bool (jitterFreq m) 12)
             && Qltb 0 (jitterFreq m)) 30
      + pts (Qltb (curvature m) (1 # 100)) 25
  | None => 0
  end
  + match ks with
    | Some k =>
        pts (Qltb (medIv k) 30) 50
        + pts (Qltb (interval_cv k) (15 # 100) && (30 <=? ks_n k)) 25
        + pts (Qltb (digVar k) 3 && (10 <=? map_size (digraphs r))) 20
    | None => 0
    end
  + pts ((3 <=? length (slice_last 50 (mouseEvts r)))%nat
         && Qltb (change_fraction atan2 (mouseEvts r)) (15 # 100)) 30.

(** The bot score of the code, rule by rule. *)
Definition bot_points (atan2 : Q -> Q -> Q)
    (ks : option KSFeat) (mouse : option MouseFeat) (r : Raw) : Z :=
  match mouse with
  | Some m =>
      pts (Qltb (entropy m) (2 # 100)) 40
      + pts (negb (Qle_bool 3 (jitterFreq m) && Qle_bool (jitterFreq m) 12)
             && Qltb 0 (jitterFreq m)) 30
      + pts (Qltb (curvature m) (1 # 100)) 25
  | None => 0
  end
  + match ks with
    | Some k =>
        pts (Qltb (medIv k) 30) 50
        + pts (Qltb (interval_cv k) (15 # 100) && (30 <? ks_n k)) 25
        + pts (Qltb (digVar k) 3 && (10 <? map_size (digraphs r))) 20
    | None => 0
    end
  + pts ((20 <=? length (mouseEvts r))%nat
         && Qltb (change_fraction atan2 (mouseEvts r)) (15 # 100)) 30.

(** ** Invariants of the trust score *)

(** A number equal to the rational [q]. *)
Definition js_eq (a : jsnum) (q : Q) : Prop :=
  match a with num x => (x == q)%Q | NaN => False end.

(** A number within [[lo, hi]]. *)
Definition within (lo hi : Q) (a : jsnum) : Prop :=
  match a with num x => (lo <= x)%Q /\ (x <= hi)%Q | NaN => False end.

(** The accumulators [(d, n)] of a channel: [n] terms, each within [0,100]. *)
Definition acc_ok (dn : jsnum * Z) : Prop :=
  0 <= snd dn /\ within 0 (100 * inject_Z (snd dn)) (fst dn).

(** A part [(r, w)] with [r] within [0,100] and a positive weight. *)
Definition part_ok (x : jsnum * Q) : Prop :=
  within 0 100 (fst x) /\ (0 < snd x)%Q.

(** A trust score slot holds [null] or a number within [0,100]. *)
Definition score_ok (o : option jsnum) : Prop :=
  match o with Some s => within 0 100 s | None => True end.

(** The metrics of a baseline that [calcTrustScore] uses without testing
    them first, the curvature and the entropy of the mouse channel, are
    numbers. *)
Definition mouse_numeric (b : MouseDoc) : bool :=
  match curvature b, entropy b with
  | num _, num _ => true
  | _, _ => false
  end.

Definition baseline_numeric (base : FeatureDoc) : bool :=
  match mouse base with Some b => mouse_numeric b | None => true end.

Definition doc_numeric (p : option ProfileDoc) : bool :=
  match p with
  | Some d => match features d with Some base => baseline_numeric base | None => true end
  | None => true
  end.

(** ** Concrete states for the examples *)

Definition default_settings : Settings :=
  {| enabled := true; sensitivity := medium; privacyMode := true;
     notifications := true; autoBlock := false; autoStart := true;
     launchAtLogin := false |}.

Definition empty_store : Store :=
  {| store_profile := None; store_training := None; store_alerts := [] |}.

(** Process start at time [now] with nonce [nonce0]; [mon] is [isMonitoring]. *)
Definition cold_start (nonce0 : string) (now : Z) (mon : bool) : State :=
  {| RAW := RAW_init nonce0; SESSION := SESSION_init now now;
     SETTINGS := default_settings; ALERTS := [];
     isMonitoring := mon; store := empty_store |}.

Definition st_on : State := cold_start "a1" 1000 true.

(** Key [65 + i mod 10] pressed at [2000 + 20 i] and released 10 ms later,
    for [i = 0 .. n-1]. *)
Definition type_keys (n : nat) (st : State) : State :=
  fold_left
    (fun st i =>
       let t := 2000 + 20 * Z.of_nat i in
       let kc := 65 + Z.of_nat i mod 10 in
       onKeyUp (t + 10) (t + 10) kc (onKeyDown t t kc st))
    (seq 0 n) st.

Definition st_typed : State := type_keys 60 st_on.

(** Thirty mouse samples 20 ms apart on a zigzag. *)
Definition zigzag : list MouseSample :=
  map (fun i =>
         {| m_x := 10 * Z.of_nat i; m_y := 7 * (Z.of_nat i mod 2);
            m_t := 5000 + 20 * Z.of_nat i; m_v := None; m_acc := None;
            m_nonce := "a1" |})
      (seq 0 30).

Definition st_mouse : State :=
  with_RAW
    {| keydowns := ∅; ksEvents := []; mouseEvts := zigzag; clicks := [];
       scrolls := []; digraphs := []; trigraphs := []; jitterBuf := [];
       lastRelease := None; nonce := "a1"; salt := None |} st_on.

(** Key 65 is down and not yet released. *)
Definition st_pending : State := onKeyDown 2000 2000 65 st_on.

(** The document [{}]. *)
Definition doc_empty : ProfileDoc :=
  {| uid := None; createdAt := None; features := None; p_digraphs := None;
     p_trigraphs := None; size := None; v := None |}.

(** A session that has a score of 80 and then imported the document [{}]. *)
Definition st_scored : State :=
  snd (import_profile ["profile.json"] (Some (Some doc_empty))
         (with_SESSION
            {| start := 1000; activeTime := 0; lastActive := None; lastTick := 1000;
               isTraining := false; phase := complete; trainStart := None;
               profile := None; trustScore := Some (num 80);
               consecutive := 0; lastCalc := 0 |} st_on)).

(** [st] with its active time and phase set. *)
Definition at_progress (a : Z) (ph : Phase) (st : State) : State :=
  let s := SESSION st in
  with_SESSION
    {| start := start s; activeTime := a; lastActive := lastActive s;
       lastTick := lastTick s; isTraining := isTraining s; phase := ph;
       trainStart := trainStart s; profile := profile s;
       trustScore := trustScore s; consecutive := consecutive s;
       lastCalc := lastCalc s |} st.

(** Training completed on the zigzag buffer: the baseline is what the
    buffers still hold. *)
Definition st_trained : State :=
  completeTraining sqrt_6 atan2_approx log2_floor "00ff00ff00ff" 9000 st_mouse.

(** A mouse baseline of a path whose angle entropy is 0, and a current
    vector that differs from it in entropy only. *)
Definition base_mouse : MouseFeat :=
  {| avgVel := 610%Q; stdVel := 0%Q; curvature := (386 # 1000)%Q; entropy := 0%Q;
     jitterFreq := 0%Q; jitterAmp := 0%Q; mouse_n := 30 |}.

Definition cur_mouse : MouseFeat :=
  {| avgVel := 610%Q; stdVel := 0%Q; curvature := (386 # 1000)%Q; entropy := (1 # 2)%Q;
     jitterFreq := 0%Q; jitterAmp := 0%Q; mouse_n := 30 |}.

(** The profile made by that training. *)
Definition p_trained : ProfileDoc := default doc_empty (profile (SESSION st_trained)).

(** The trained session later on: a score of 80 stored, the buffers empty. *)
Definition st_idle : State :=
  with_SESSION
    {| start := 1000; activeTime := 0; lastActive := None; lastTick := 1000;
       isTraining := false; phase := complete; trainStart := None;
       profile := Some p_trained; trustScore := Some (num 80);
       consecutive := 0; lastCalc := 0 |}
    (with_RAW (RAW_init "a1") st_trained).

(** Forty-nine keys typed as in [type_keys], then key 90 held for exactly
    1000 ms. *)
Definition st_49_and_1000 : State :=
  onKeyUp 5000 5000 90 (onKeyDown 4000 4000 90 (type_keys 49 st_on)).

(** Feature vectors of a scripted input: keys 20 ms apart without spread,
    a mouse path without turns. *)
Definition ks_scripted : KSFeat :=
  {| medDwell := 10%Q; madDwell := 0%Q; p25Dwell := 10%Q; p75Dwell := 10%Q;
     iqrDwell := 0%Q; avgDwell := 10%Q; stdDwell := 0%Q;
     medFlight := 10%Q; madFlight := 0%Q;
     medIv := 20%Q; madIv := 0%Q; iqrIv := 0%Q;
     wpm := 600%Q; digVar := 0%Q; ks_n := 60 |}.

Definition mouse_straight : MouseFeat :=
  {| avgVel := 500%Q; stdVel := 0%Q; curvature := 0%Q; entropy := 0%Q;
     jitterFreq := 0%Q; jitterAmp := 0%Q; mouse_n := 30 |}.

(** Keys 65 and 66 in turn, pressed at [2000 + 20 i] and released 10 ms
    later, for [i = 0 .. n-1]. *)
Definition type_two_keys (n : nat) (st : State) : State :=
  fold_left
    (fun st i =>
       let t := 2000 + 20 * Z.of_nat i in
       let kc := 65 + Z.of_nat i mod 2 in
       onKeyUp (t + 10) (t + 10) kc (onKeyDown t t kc st))
    (seq 0 n) st.

(** Sixty such keys, then key 65 pressed at 3700 and released after exactly
    1000 ms, or after 1001 ms. *)
Definition st_two_keys : State := type_two_keys 60 st_on.

Definition st_held_1000 : State :=
  onKeyUp 4700 4700 65 (onKeyDown 3700 3700 65 st_two_keys).

Definition st_held_1001 : State :=
  onKeyUp 4701 4701 65 (onKeyDown 3700 3700 65 st_two_keys).




(** A run of key presses, each given as [(now, t, kc)]. *)
Definition press_keys (presses : list (Z * Z * Z)) (st : State) : State :=
  fold_left (fun st p => onKeyDown (fst (fst p)) (snd (fst p)) (snd p) st) presses st.

(** The event that a retained key-up of [kc] at time [t] appends, for a
    press pending since [dn]. *)
Definition key_event_of (r : Raw) (kc dn t : Z) : KeyEvent :=
  {| k_kc := kc; k_dwell := t - dn;
     k_flight := (if truthyZ (lastRelease r)
                  then Some (dn - default 0 (lastRelease r)) else None);
     k_ts := dn; k_nonce := nonce r |}.

(** * The rest of the main process *)

(** ** Mouse, click and wheel handlers *)

Section Handlers.

Variable sqrt : Q -> Q.

(** [onMouseMove]; [now] is the [Date.now()] of [markActivity], [t] the
    handler's own. *)
Definition onMouseMove (now t : Z) (x y : Z) (st : State) : State :=
  if negb (capturing st) then st else
  let st := with_SESSION (markActivity now (SESSION st)) st in
  let r := RAW st in
  let ev0 := {| m_x := x; m_y := y; m_t := t; m_v := None; m_acc := None;
                m_nonce := nonce r |} in
  let '(ev, jb) :=
    match last (mouseEvts r) with
    | Some p =>
        let dt := (inject_Z (t - m_t p) / 1000)%Q in
        if Qltb 0 dt && Qltb dt (1 # 2) then
          let dx := x - m_x p in
          let dy := y - m_y p in
          let vel := (sqrt (inject_Z (dx * dx + dy * dy)) / dt)%Q in
          match m_v p with
          | Some pv =>
              let acc := (Qabs (vel - pv) / dt)%Q in
              ({| m_x := x; m_y := y; m_t := t; m_v := Some vel; m_acc := Some acc;
                  m_nonce := nonce r |},
               push_bounded 200 (jitterBuf r) {| j_t := t; j_acc := acc; j_v := vel |})
          | None =>
              ({| m_x := x; m_y := y; m_t := t; m_v := Some vel; m_acc := None;
                  m_nonce := nonce r |},
               jitterBuf r)
          end
        else (ev0, jitterBuf r)
    | None => (ev0, jitterBuf r)
    end in
  with_RAW
    {| keydowns := keydowns r; ksEvents := ksEvents r;
       mouseEvts := push_bounded 2000 (mouseEvts r) ev;
       clicks := clicks r; scrolls := scrolls r;
       digraphs := digraphs r; trigraphs := trigraphs r;
       jitterBuf := jb; lastRelease := lastRelease r;
       nonce := nonce r; salt := salt r |} st.

End Handlers.

(** [onClick]; [t] is the [Date.now()] of the pushed sample. *)
Definition onClick (now t : Z) (x y button : Z) (st : State) : State :=
  if negb (capturing st) then st else
  let st := with_SESSION (markActivity now (SESSION st)) st in
  let r := RAW st in
  with_RAW
    {| keydowns := keydowns r; ksEvents := ksEvents r; mouseEvts := mouseEvts r;
       clicks := push_bounded 500 (clicks r)
                   {| c_x := x; c_y := y; c_t := t; c_btn := button;
                      c_nonce := nonce r |};
       scrolls := scrolls r; digraphs := digraphs r; trigraphs := trigraphs r;
       jitterBuf := jitterBuf r; lastRelease := lastRelease r;
       nonce := nonce r; salt := salt r |} st.

(** [onWheel]. *)
Definition onWheel (now t : Z) (rotation : Z) (st : State) : State :=
  if negb (capturing st) then st else
  let st := with_SESSION (markActivity now (SESSION st)) st in
  let r := RAW st in
  with_RAW
    {| keydowns := keydowns r; ksEvents := ksEvents r; mouseEvts := mouseEvts r;
       clicks := clicks r;
       scrolls := push_bounded 300 (scrolls r) {| s_amount := rotation; s_t := t |};
       digraphs := digraphs r; trigraphs := trigraphs r;
       jitterBuf := jitterBuf r; lastRelease := lastRelease r;
       nonce := nonce r; salt := salt r |} st.

(** The events of the input hook, each with the clock readings of its
    handler, as [startMonitoring] wires them. *)
Inductive InputEvent :=
| EvKeyDown (now t kc : Z)
| EvKeyUp (now t kc : Z)
| EvMouseMove (now t x y : Z)
| EvClick (now t x y button : Z)
| EvWheel (now t rotation : Z).

Definition dispatch (sqrt : Q -> Q) (st : State) (e : InputEvent) : State :=
  match e with
  | EvKeyDown now t kc => onKeyDown now t kc st
  | EvKeyUp now t kc => onKeyUp now t kc st
  | EvMouseMove now t x y => onMouseMove sqrt now t x y st
  | EvClick now t x y b => onClick now t x y b st
  | EvWheel now t rot => onWheel now t rot st
  end.

(** The capacities of the raw buffers. *)
Definition buffers_bounded (r : Raw) : Prop :=
  (length (ksEvents r) <= 3000)%nat
  /\ (length (mouseEvts r) <= 2000)%nat
  /\ (length (clicks r) <= 500)%nat
  /\ (length (scrolls r) <= 300)%nat
  /\ (length (jitterBuf r) <= 200)%nat
  /\ Forall (fun e => (length (snd e) <= 30)%nat) (digraphs r)
  /\ Forall (fun e => (length (snd e) <= 30)%nat) (trigraphs r).

(** Every buffered key event has a dwell within [1,1000] and carries the
    current session nonce. *)
Definition key_events_clean (r : Raw) : Prop :=
  Forall (fun k => 1 <= k_dwell k <= 1000 /\ k_nonce k = nonce r) (ksEvents r).

(** Whether a string holds the separator of [_hashPair]. *)
Fixpoint has_sep (s : string) : bool :=
  match s with
  | EmptyString => false
  | String c s' => String.eqb (String c EmptyString) "_" || has_sep s'
  end.

(** ** Replay detection *)

Record ReplayVerdict := { isReplay : bool; replay_reason : option string }.

(** [detectReplay].  A nonce is truthy when it is not the empty string. *)
Definition detectReplay (r : Raw) : ReplayVerdict :=
  let recent := slice_last 20 (ksEvents r) in
  let nonces : gset string :=
    list_to_set (List.filter (fun n => negb (String.eqb n "")) (map k_nonce recent)) in
  if (1 <? base.size nonces)%nat
  then {| isReplay := true; replay_reason := Some "Multiple session nonces" |}
  else
    let ivs := ts_deltas recent in
    if (5 <? length ivs)%nat && (base.size (list_to_set ivs : gset Z) =? 1)%nat
    then {| isReplay := true; replay_reason := Some "Identical intervals" |}
    else {| isReplay := false; replay_reason := None |}.

(** ** Number formatting *)

(** [Math.round]: the nearest integer, halves upwards. *)
Definition js_round (x : Q) : Z := Qfloor (x + (1 # 2)).

(** [`${Math.round(x)}`]. *)
Definition round_text (x : jsnum) : string :=
  match x with num q => pretty (js_round q) | NaN => "NaN" end.

Fixpoint zeros (n : nat) : string :=
  match n with O => "" | S n' => "0" +:+ zeros n' end.

(** [x.toFixed(f)] below 1e21: the nearest multiple of [10^-f], halves away
    from zero, with exactly [f] decimals. *)
Definition toFixed (f : nat) (x : Q) : string :=
  let n := Qfloor (Qabs x * inject_Z (10 ^ Z.of_nat f) + (1 # 2)) in
  let d := pretty n in
  let d := zeros (S f - String.length d) +:+ d in
  let k := (String.length d - f)%nat in
  (if Qltb x 0 then "-" else "")
  +:+ String.substring 0 k d
  +:+ (match f with O => "" | S _ => "." +:+ String.substring k f d end).

Definition reason_text (why : BotReason) : string :=
  match why with
  | MouseEntropyLow => "Mouse entropy < 0.02"
  | JitterOutOfBand hz => "Jitter " +:+ toFixed 1 hz +:+ "Hz"
  | PerfectPaths => "Perfect geometric paths"
  | SuperhumanSpeed => "Superhuman speed <30ms"
  | TooConsistent cv => "CV=" +:+ toFixed 3 cv +:+ " too consistent"
  | DigraphVarianceLow => "Digraph variance too low"
  | NoMicroCorrections => "No micro-corrections"
  end.

(** [reasons.join('; ')]. *)
Fixpoint join_reasons (l : list BotReason) : string :=
  match l with
  | [] => ""
  | [why] => reason_text why
  | why :: rest => reason_text why +:+ "; " +:+ join_reasons rest
  end.

(** ** Alerts and lock screen *)

(** [addAlert]; [ts] is its [Date.now()].  The [id] of the alert, which the
    main process never reads, and the notification are not kept. *)
Definition addAlert (ts : Z) (ty : AlertType) (sev : Severity) (msg : string)
    (st : State) : State :=
  let l := {| a_type := ty; a_severity := sev; a_msg := msg; a_ts := ts |} :: ALERTS st in
  let l := if (200 <? length l)%nat then removelast l else l in
  {| RAW := RAW st; SESSION := SESSION st; SETTINGS := SETTINGS st;
     ALERTS := l; isMonitoring := isMonitoring st;
     store := {| store_profile := store_profile (store st);
                 store_training := store_training (store st);
                 store_alerts := firstn 100 l |} |}.

(** The lock screen: the flag [isLocked] and whether [lockWindow] is set. *)
Record Lock := { isLocked : bool; lockWindow : bool }.

Definition showLockScreen (lk : Lock) : Lock :=
  if isLocked lk || lockWindow lk then lk
  else {| isLocked := true; lockWindow := true |}.

(** [{low:15,medium:30,high:50}[SETTINGS.sensitivity]]. *)
Definition threshold (s : Sensitivity) : Q :=
  match s with low => 15%Q | medium => 30%Q | high => 50%Q end.

Definition set_score (score : option jsnum) (c : Z) (st : State) : State :=
  let s := SESSION st in
  with_SESSION
    {| start := start s; activeTime := activeTime s; lastActive := lastActive s;
       lastTick := lastTick s; isTraining := isTraining s; phase := phase s;
       trainStart := trainStart s; profile := profile s;
       trustScore := score; consecutive := c; lastCalc := lastCalc s |} st.

(** ** Storage *)

(** [saveTrainingProgress]; [now] is [Date.now()]. *)
Definition saveTrainingProgress (now : Z) (st : State) : State :=
  if negb (isTraining (SESSION st)) then st else
  {| RAW := RAW st; SESSION := SESSION st; SETTINGS := SETTINGS st;
     ALERTS := ALERTS st; isMonitoring := isMonitoring st;
     store :=
       {| store_profile := store_profile (store st);
          store_training :=
            Some {| tr_ksEvents := slice_last 500 (ksEvents (RAW st));
                    tr_activeTime := activeTime (SESSION st);
                    tr_phase := phase (SESSION st);
                    tr_digs := digraphs (RAW st);
                    tr_saved := now |};
          store_alerts := store_alerts (store st) |} |}.

(** [loadProfile]; [now] is [Date.now()]. *)
Definition loadProfile (now : Z) (st : State) : State :=
  let st1 :=
    match store_profile (store st) with
    | Some p =>
        let s := SESSION st in
        let r := RAW st in
        {| RAW :=
             {| keydowns := keydowns r; ksEvents := ksEvents r;
                mouseEvts := mouseEvts r; clicks := clicks r; scrolls := scrolls r;
                digraphs := (match p_digraphs p with Some d => d | None => digraphs r end);
                trigraphs := (match p_trigraphs p with Some d => d | None => trigraphs r end);
                jitterBuf := jitterBuf r; lastRelease := lastRelease r;
                nonce := nonce r; salt := salt r |};
           SESSION :=
             {| start := start s; activeTime := activeTime s;
                lastActive := lastActive s; lastTick := lastTick s;
                isTraining := false; phase := complete; trainStart := trainStart s;
                profile := Some p; trustScore := trustScore s;
                consecutive := consecutive s; lastCalc := lastCalc s |};
           SETTINGS := SETTINGS st; ALERTS := ALERTS st;
           isMonitoring := isMonitoring st; store := store st |}
    | None => st
    end in
  match store_training (store st1) with
  | Some tr =>
      if isTraining (SESSION st1) then
        let s := SESSION st1 in
        let r := RAW st1 in
        {| RAW :=
             {| keydowns := keydowns r; ksEvents := tr_ksEvents tr;
                mouseEvts := mouseEvts r; clicks := clicks r; scrolls := scrolls r;
                digraphs := tr_digs tr; trigraphs := trigraphs r;
                jitterBuf := jitterBuf r; lastRelease := lastRelease r;
                nonce := nonce r; salt := salt r |};
           SESSION :=
             {| start := start s; activeTime := tr_activeTime tr;
                lastActive := Some now; lastTick := lastTick s;
                isTraining := isTraining s; phase := tr_phase tr;
                trainStart := trainStart s;
                profile := profile s; trustScore := trustScore s;
                consecutive := consecutive s; lastCalc := lastCalc s |};
           SETTINGS := SETTINGS st1; ALERTS := ALERTS st1;
           isMonitoring := isMonitoring st1; store := store st1 |}
      else st1
  | None => st1
  end.

(** The process started anew over the store of [st]: the module-level
    initialisers run again, the settings and the alerts are read back from
    the store (every change of the settings is saved at once). *)
Definition restart (nonce0 : string) (now now' : Z) (st : State) : State :=
  {| RAW := RAW_init nonce0; SESSION := SESSION_init now now';
     SETTINGS := SETTINGS st; ALERTS := store_alerts (store st);
     isMonitoring := false; store := store st |}.

(** ** Statistics payload *)

Record StatsPayload := {
  sp_ks : Z; sp_mouse : Z; sp_clicks : Z; sp_digs : Z;
  sp_isTraining : bool; sp_phase : Phase; sp_activeTime : Z; sp_trainPct : Z;
  sp_trustScore : option jsnum; sp_hasProfile : bool; sp_sessionStart : Z;
  sp_isMonitoring : bool }.

Definition buildStatsPayload (st : State) : StatsPayload :=
  let s := SESSION st in
  let r := RAW st in
  let pct := if isTraining s then training_pct s else 100%Q in
  {| sp_ks := Z.of_nat (length (ksEvents r));
     sp_mouse := Z.of_nat (length (mouseEvts r));
     sp_clicks := Z.of_nat (length (clicks r));
     sp_digs := map_size (digraphs r);
     sp_isTraining := isTraining s; sp_phase := phase s;
     sp_activeTime := activeTime s / 1000;
     sp_trainPct := js_round pct;
     sp_trustScore := trustScore s;
     sp_hasProfile := (match profile s with Some _ => true | None => false end);
     sp_sessionStart := start s;
     sp_isMonitoring := isMonitoring st |}.

(** ** Analysis loop *)

(** What one run of [tick] reads from outside: its own [Date.now()], the
    random bytes and the clock of a training step, the hour and week day of
    the scorer, and the [Date.now()] of each alert it may add. *)
Record TickInput := {
  tk_now : Z; tk_rnd : string; tk_train_now : Z; tk_h : Z; tk_day : Z;
  tk_bot_ts : Z; tk_replay_ts : Z; tk_anomaly_ts : Z }.

Section Loop.

Variable sqrt : Q -> Q.
Variable atan2 : Q -> Q -> Q.
Variable log2 : Q -> Q.

(** The head of [tick]: active time and [lastTick]. *)
Definition tick_clock (now : Z) (s : Session) : Session :=
  {| start := start s;
     activeTime :=
       (if isTraining s && truthyZ (lastActive s)
           && (now - default 0 (lastActive s) <? 10000)
        then activeTime s + (now - lastTick s) else activeTime s);
     lastActive := lastActive s; lastTick := now;
     isTraining := isTraining s; phase := phase s; trainStart := trainStart s;
     profile := profile s; trustScore := trustScore s;
     consecutive := consecutive s; lastCalc := lastCalc s |}.

(** [tick], on the state and the lock screen. *)
Definition tick (i : TickInput) (st : State) (lk : Lock) : State * Lock :=
  if negb (isMonitoring st) then (st, lk) else
  let st := with_SESSION (tick_clock (tk_now i) (SESSION st)) st in
  if isTraining (SESSION st)
  then (checkTrainingProgress sqrt atan2 log2 (tk_rnd i) (tk_train_now i) st, lk)
  else
    match calcTrustScore sqrt atan2 log2 (tk_h i) (tk_day i) st with
    | None => (st, lk)
    | Some score =>
        let st := set_score (Some score) (consecutive (SESSION st)) st in
        let bv := detectBot atan2 (extractKS sqrt (RAW st))
                     (extractMouse sqrt atan2 log2 (RAW st)) (RAW st) in
        let rv := detectReplay (RAW st) in
        let st :=
          if isBot bv
          then addAlert (tk_bot_ts i) bot sev_critical
                 ("Bot activity: " +:+ join_reasons (reason bv)) st
          else st in
        let st :=
          if isReplay rv
          then addAlert (tk_replay_ts i) replay sev_high
                 ("Replay attack: " +:+ default "" (replay_reason rv)) st
          else st in
        if js_ltb score (num (threshold (sensitivity (SETTINGS st)))) then
          let c := consecutive (SESSION st) + 1 in
          if 3 <=? c then
            let st :=
              addAlert (tk_anomaly_ts i) anomaly
                (if js_ltb score (num 20) then sev_critical else sev_high)
                ("Trust score at " +:+ round_text score +:+ "% for 3+ cycles")
                st in
            (set_score (Some score) 0 st,
             if autoBlock (SETTINGS st) && js_ltb score (num 20) && negb (isLocked lk)
             then showLockScreen lk else lk)
          else (set_score (Some score) c st, lk)
        else (set_score (Some score) 0 st, lk)
    end.

End Loop.

(** ** Monitoring *)

Definition with_isMonitoring (b : bool) (st : State) : State :=
  {| RAW := RAW st; SESSION := SESSION st; SETTINGS := SETTINGS st;
     ALERTS := ALERTS st; isMonitoring := b; store := store st |}.

(** [startMonitoring]; [hook_ok] tells whether loading and starting the
    input hook succeeds (otherwise the [catch] branch runs). *)
Definition startMonitoring (hook_ok : bool) (st : State) : State :=
  if isMonitoring st then st else with_isMonitoring hook_ok st.

(** [stopMonitoring]; [now] is the [Date.now()] of the snapshot. *)
Definition stopMonitoring (now : Z) (st : State) : State :=
  if negb (isMonitoring st) then st
  else saveTrainingProgress now (with_isMonitoring false st).

(** ** Runs of the application *)

Definition unlocked : Lock := {| isLocked := false; lockWindow := false |}.

(** What can happen to the application: an input event, a turn of the
    analysis timer, a turn of the snapshot timer, monitoring started or
    stopped, the reset and import requests of the user interface, and a
    restart of the process followed by [loadProfile]. *)
Inductive Action :=
| ActInput (e : InputEvent)
| ActTick (i : TickInput)
| ActSave (now : Z)
| ActStart (hook_ok : bool)
| ActStop (now : Z)
| ActReset (fresh : string)
| ActImport (filePaths : list string) (parsed : option (option ProfileDoc))
| ActRestart (nonce0 : string) (now now' load_now : Z).

Definition is_restart (act : Action) : bool :=
  match act with ActRestart _ _ _ _ => true | _ => false end.

Section Runs.

Variable sqrt : Q -> Q.
Variable atan2 : Q -> Q -> Q.
Variable log2 : Q -> Q.

Definition step (a : State * Lock) (act : Action) : State * Lock :=
  match act with
  | ActInput e => (dispatch sqrt (fst a) e, snd a)
  | ActTick i => tick sqrt atan2 log2 i (fst a) (snd a)
  | ActSave now => (saveTrainingProgress now (fst a), snd a)
  | ActStart hook_ok => (startMonitoring hook_ok (fst a), snd a)
  | ActStop now => (stopMonitoring now (fst a), snd a)
  | ActReset fresh => (resetProfile fresh (fst a), snd a)
  | ActImport paths parsed => (snd (import_profile paths parsed (fst a)), snd a)
  | ActRestart nonce0 now now' load_now =>
      (loadProfile load_now (restart nonce0 now now' (fst a)), unlocked)
  end.

Definition run (acts : list Action) (a : State * Lock) : State * Lock :=
  fold_left step acts a.

End Runs.


(** What the scores of a run satisfy as long as every imported document has
    such a baseline. *)
Record scored (st : State) : Prop := {
  sc_score : score_ok (trustScore (SESSION st));
  sc_profile : doc_numeric (profile (SESSION st)) = true;
  sc_store : doc_numeric (store_profile (store st)) = true }.

(** What every state of a run satisfies. *)
Record healthy (st : State) : Prop := {
  h_counter : 0 <= consecutive (SESSION st) <= 2;
  h_alerts : (length (ALERTS st) <= 200)%nat
             /\ (length (store_alerts (store st)) <= 100)%nat;
  h_training : isTraining (SESSION st) = true ->
               profile (SESSION st) = None
               /\ store_profile (store st) = None }.

(** What the raw state satisfies as long as the process is not restarted. *)
Definition tidy (r : Raw) : Prop := buffers_bounded r /\ key_events_clean r.



(** The session fields that [markActivity] and [tick_clock] leave alone. *)
Definition same_verdict (s s' : Session) : Prop :=
  trustScore s' = trustScore s /\ consecutive s' = consecutive s
  /\ isTraining s' = isTraining s /\ profile s' = profile s
  /\ phase s' = phase s.

(** ** Password helpers

    SHA-256 with hex output is a parameter.  The recovery data of the
    setup window is stored as it is given, so its type is a parameter too.
    Passwords are strings. *)

Section Password.

Variable sha256_hex : string -> string.
Variable Recovery : Type.

(** The [passwordData] entry of the store; a key that the object does not
    have is [None]; [pw_createdAt] and [pw_updatedAt] are its [createdAt]
    and [updatedAt]. *)
Record PasswordData := {
  passwordHash : string; recovery : option Recovery;
  pw_createdAt : option Z; pw_updatedAt : option Z }.

Definition hashPassword (pw : string) : string :=
  sha256_hex (pw +:+ "bg-salt-2024").

Definition checkPassword (attempt : string) (stored : option PasswordData) : bool :=
  match stored with
  | None => false
  | Some s => String.eqb (hashPassword attempt) (passwordHash s)
  end.

Definition hasSetup (stored : option PasswordData) : bool :=
  match stored with Some _ => true | None => false end.

(** The [save-password] handler, on [data = {password, recovery}]. *)
Definition save_password (now : Z) (password : string) (rec : option Recovery)
    (stored : option PasswordData) : option PasswordData :=
  Some {| passwordHash := hashPassword password; recovery := rec;
          pw_createdAt := Some now; pw_updatedAt := None |}.

(** The [reset-password] handler: [{...existing, passwordHash, pw_updatedAt}]
    with [existing = {}] when nothing is stored. *)
Definition reset_password (now : Z) (newPw : string)
    (stored : option PasswordData) : option PasswordData :=
  Some {| passwordHash := hashPassword newPw;
          recovery := stored ≫= recovery;
          pw_createdAt := stored ≫= pw_createdAt;
          pw_updatedAt := Some now |}.

End Password.

Arguments passwordHash {Recovery} _.
Arguments recovery {Recovery} _.
Arguments pw_createdAt {Recovery} _.
Arguments pw_updatedAt {Recovery} _.
Arguments checkPassword sha256_hex {Recovery} _ _.
Arguments hasSetup {Recovery} _.
Arguments save_password sha256_hex {Recovery} _ _ _ _.
Arguments reset_password sha256_hex {Recovery} _ _ _.

(** ** Further concrete states *)

(** Monitoring is off. *)
Definition st_off : State := cold_start "a1" 1000 false.

(** [n] clicks 100 ms apart from time 3000 on, along a line. *)
Definition click_times (n : nat) (st : State) : State :=
  fold_left
    (fun st i =>
       let t := 3000 + 100 * Z.of_nat i in
       onClick t t (Z.of_nat i) 5 1 st)
    (seq 0 n) st.

Definition st_clicks : State := click_times 5 st_on.

(** The click buffer is full. *)
Definition st_clicks_full : State := click_times 500 st_on.

(** Key 65 typed, key 66 pressed and not yet released. *)
Definition st_second_down : State :=
  onKeyDown 2020 2020 66 (onKeyUp 2010 2010 65 (onKeyDown 2000 2000 65 st_on)).

(** A key buffer with events of two sessions. *)
Definition raw_two_nonces : Raw :=
  {| keydowns := ∅;
     ksEvents :=
       [{| k_kc := 65; k_dwell := 10; k_flight := None; k_ts := 2000; k_nonce := "a1" |};
        {| k_kc := 66; k_dwell := 10; k_flight := Some 10; k_ts := 2020; k_nonce := "b2" |}];
     mouseEvts := []; clicks := []; scrolls := []; digraphs := []; trigraphs := [];
     jitterBuf := []; lastRelease := Some 2030; nonce := "b2"; salt := None |}.

(** The trained idle session with a stored score of 10 after two low cycles. *)
Definition st_low : State :=
  with_SESSION
    {| start := 1000; activeTime := 0; lastActive := None; lastTick := 1000;
       isTraining := false; phase := complete; trainStart := None;
       profile := Some p_trained; trustScore := Some (num 10);
       consecutive := 2; lastCalc := 0 |} st_idle.

Definition tick_input : TickInput :=
  {| tk_now := 20000; tk_rnd := "0123abcd0123"; tk_train_now := 20000;
     tk_h := 10; tk_day := 3;
     tk_bot_ts := 20001; tk_replay_ts := 20002; tk_anomaly_ts := 20003 |}.

(** * Properties *)

(** ** Key-up handling *)

Lemma last_push_bounded {A} (cap : Z) (a : list A) (x : A) :
  1 <= cap -> last (push_bounded cap a x) = Some x.
Proof.
  intros Hcap. unfold push_bounded.
  destruct (cap <? Z.of_nat (length (a ++ [x]))) eqn:E.
  - apply Z.ltb_lt in E. destruct a as [|y a]; simpl in *.
    + lia.
    + apply last_snoc.
  - apply last_snoc.
Qed.

Lemma markActivity_capturing (now : Z) (st : State) :
  capturing (with_SESSION (markActivity now (SESSION st)) st) = capturing st.
Proof. reflexivity. Qed.

Lemma markActivity_RAW (now : Z) (st : State) :
  RAW (with_SESSION (markActivity now (SESSION st)) st) = RAW st.
Proof. reflexivity. Qed.

Lemma onKeyUp_retained (now t kc dn : Z) (st : State) :
  capturing st = true ->
  keydowns (RAW st) !! kc = Some dn -> 1 <= t - dn <= 1000 ->
  ksEvents (RAW (onKeyUp now t kc st))
    = push_bounded 3000 (ksEvents (RAW st)) (key_event_of (RAW st) kc dn t)
  /\ last (ksEvents (RAW (onKeyUp now t kc st)))
     = Some (key_event_of (RAW st) kc dn t).
Proof.
  intros Hcap Hdn Hd. unfold onKeyUp. rewrite Hcap. simpl negb. cbv iota.
  rewrite markActivity_RAW, Hdn.
  destruct ((t - dn <? 1) || (1000 <? t - dn)) eqn:E.
  - apply orb_true_iff in E. destruct E as [E|E]; apply Z.ltb_lt in E; lia.
  - simpl. split; [reflexivity|]. apply last_push_bounded. lia.
Qed.

Lemma onKeyUp_discarded (now t kc dn : Z) (st : State) :
  capturing st = true ->
  keydowns (RAW st) !! kc = Some dn -> ~ (1 <= t - dn <= 1000) ->
  ksEvents (RAW (onKeyUp now t kc st)) = ksEvents (RAW st)
  /\ digraphs (RAW (onKeyUp now t kc st)) = digraphs (RAW st)
  /\ trigraphs (RAW (onKeyUp now t kc st)) = trigraphs (RAW st).
Proof.
  intros Hcap Hdn Hd. unfold onKeyUp. rewrite Hcap. simpl negb. cbv iota.
  rewrite markActivity_RAW, Hdn.
  destruct ((t - dn <? 1) || (1000 <? t - dn)) eqn:E.
  - simpl. auto.
  - apply orb_false_iff in E. destruct E as [E1 E2].
    apply Z.ltb_ge in E1, E2. lia.
Qed.

Lemma onKeyUp_no_pending (now t kc : Z) (st : State) :
  capturing st = true ->
  keydowns (RAW st) !! kc = None -> RAW (onKeyUp now t kc st) = RAW st.
Proof.
  intros Hcap Hnone. unfold onKeyUp. rewrite Hcap. simpl negb. cbv iota.
  rewrite markActivity_RAW, Hnone. reflexivity.
Qed.

(** C5. A key-up that resolves a pending press (the handler runs: monitoring
    is on and the setting enabled) with dwell [d = t - dn] appends one
    KeyEvent to the keystroke buffer when [1 <= d <= 1000], and leaves the
    buffer and the digraph and trigraph tables as they were when [d] is
    outside that range; a key-up with no pending press for its key code
    always leaves the raw state untouched. *)
Theorem onKeyUp_dwell_filter (now t kc : Z) (st : State) :
  (forall dn, capturing st = true ->
     keydowns (RAW st) !! kc = Some dn -> 1 <= t - dn <= 1000 ->
     ksEvents (RAW (onKeyUp now t kc st))
       = push_bounded 3000 (ksEvents (RAW st)) (key_event_of (RAW st) kc dn t)
     /\ last (ksEvents (RAW (onKeyUp now t kc st)))
        = Some (key_event_of (RAW st) kc dn t))
  /\ (forall dn, capturing st = true ->
        keydowns (RAW st) !! kc = Some dn -> ~ (1 <= t - dn <= 1000) ->
        ksEvents (RAW (onKeyUp now t kc st)) = ksEvents (RAW st)
        /\ digraphs (RAW (onKeyUp now t kc st)) = digraphs (RAW st)
        /\ trigraphs (RAW (onKeyUp now t kc st)) = trigraphs (RAW st))
  /\ (keydowns (RAW st) !! kc = None -> RAW (onKeyUp now t kc st) = RAW st).
Proof.
  split; [|split].
  - intros dn. now apply onKeyUp_retained.
  - intros dn. now apply onKeyUp_discarded.
  - intros Hnone. destruct (capturing st) eqn:Hcap.
    + now apply onKeyUp_no_pending.
    + unfold onKeyUp. rewrite Hcap. reflexivity.
Qed.

Lemma onKeyUp_dwell_filter_witness :
  (ksEvents (RAW (onKeyUp 2010 2010 65 (onKeyDown 2000 2000 65 st_on)))
     = [{| k_kc := 65; k_dwell := 10; k_flight := None; k_ts := 2000; k_nonce := "a1" |}])
  /\ ksEvents (RAW (onKeyUp 3500 3500 65 (onKeyDown 2000 2000 65 st_on))) = []
  /\ RAW (onKeyUp 2010 2010 65 st_on) = RAW st_on.
Proof.
  split; [|split].
  - destruct (onKeyUp_dwell_filter 2010 2010 65 (onKeyDown 2000 2000 65 st_on))
      as [H _].
    destruct (H 2000) as [H1 _]; [reflexivity | reflexivity | lia |].
    rewrite H1. reflexivity.
  - destruct (onKeyUp_dwell_filter 3500 3500 65 (onKeyDown 2000 2000 65 st_on))
      as [_ [H _]].
    destruct (H 2000) as [H1 _]; [reflexivity | reflexivity | lia |].
    rewrite H1. reflexivity.
  - destruct (onKeyUp_dwell_filter 2010 2010 65 st_on) as [_ [_ H]].
    apply H. reflexivity.
Defined.

Lemma onKeyDown_capturing (now t kc : Z) (st : State) :
  capturing (onKeyDown now t kc st) = capturing st.
Proof.
  unfold onKeyDown. destruct (capturing st) eqn:E; simpl; [|exact E].
  destruct (keydowns (RAW st) !! kc); exact E.
Qed.

Lemma onKeyDown_lastRelease (now t kc : Z) (st : State) :
  lastRelease (RAW (onKeyDown now t kc st)) = lastRelease (RAW st).
Proof.
  unfold onKeyDown. destruct (capturing st); simpl; [|reflexivity].
  destruct (keydowns (RAW st) !! kc); reflexivity.
Qed.

Lemma press_keys_keeps (presses : list (Z * Z * Z)) (st : State) :
  capturing (press_keys presses st) = capturing st
  /\ lastRelease (RAW (press_keys presses st)) = lastRelease (RAW st).
Proof.
  revert st. induction presses as [|p ps IH]; intros st; simpl; [auto|].
  destruct (IH (onKeyDown (fst (fst p)) (snd (fst p)) (snd p) st)) as [H1 H2].
  unfold press_keys in *. rewrite H1, H2.
  rewrite onKeyDown_capturing, onKeyDown_lastRelease. auto.
Qed.

Lemma onKeyUp_resolves (now t kc dn : Z) (st : State) :
  capturing st = true ->
  keydowns (RAW st) !! kc = Some dn ->
  keydowns (RAW (onKeyUp now t kc st)) = delete kc (keydowns (RAW st))
  /\ lastRelease (RAW (onKeyUp now t kc st)) = Some t
  /\ capturing (onKeyUp now t kc st) = true.
Proof.
  intros Hcap Hdn. unfold onKeyUp. rewrite Hcap. simpl negb. cbv iota.
  rewrite markActivity_RAW, Hdn.
  destruct ((t - dn <? 1) || (1000 <? t - dn)); simpl; auto.
Qed.

(** C9. While capturing, a key-up that resolves a pending press deletes the
    pending entry and sets the last-release time to its release time
    whatever the dwell.  So when that key-up is discarded for its dwell (at a
    release time [t1 > 0]), the next key-up that is retained, after any
    number of key presses, carries the flight [dn2 - t1]: its press time
    minus the discarded release. *)
Theorem onKeyUp_discarded_release_is_flight_reference
    (now1 t1 kc1 dn1 : Z) (st : State) :
  capturing st = true ->
  keydowns (RAW st) !! kc1 = Some dn1 ->
  keydowns (RAW (onKeyUp now1 t1 kc1 st)) = delete kc1 (keydowns (RAW st))
  /\ lastRelease (RAW (onKeyUp now1 t1 kc1 st)) = Some t1
  /\ (~ (1 <= t1 - dn1 <= 1000) -> 0 < t1 ->
      ksEvents (RAW (onKeyUp now1 t1 kc1 st)) = ksEvents (RAW st)
      /\ forall presses now2 t2 kc2 dn2,
           keydowns (RAW (press_keys presses (onKeyUp now1 t1 kc1 st))) !! kc2 = Some dn2 ->
           1 <= t2 - dn2 <= 1000 ->
           exists ev,
             last (ksEvents (RAW (onKeyUp now2 t2 kc2
                                    (press_keys presses (onKeyUp now1 t1 kc1 st)))))
               = Some ev
             /\ k_ts ev = dn2 /\ k_flight ev = Some (dn2 - t1)).
Proof.
  intros Hcap Hdn.
  destruct (onKeyUp_resolves now1 t1 kc1 dn1 st Hcap Hdn) as [Hk [Hl Hc]].
  split; [exact Hk|]. split; [exact Hl|].
  intros Hout Hpos. split.
  - apply (onKeyUp_discarded now1 t1 kc1 dn1 st Hcap Hdn Hout).
  - intros presses now2 t2 kc2 dn2 Hdn2 Hin.
    destruct (press_keys_keeps presses (onKeyUp now1 t1 kc1 st)) as [Hc2 Hl2].
    rewrite Hc in Hc2. rewrite Hl in Hl2.
    destruct (onKeyUp_retained now2 t2 kc2 dn2 _ Hc2 Hdn2 Hin) as [_ Hlast].
    eexists. split; [exact Hlast|]. unfold key_event_of. simpl.
    rewrite Hl2. simpl.
    destruct (t1 =? 0) eqn:E; [apply Z.eqb_eq in E; lia|]. auto.
Qed.

Lemma onKeyUp_discarded_release_is_flight_reference_witness :
  lastRelease (RAW (onKeyUp 3500 3500 65 (onKeyDown 2000 2000 65 st_on))) = Some 3500
  /\ exists ev,
       last (ksEvents (RAW (onKeyUp 3650 3650 66
                              (press_keys [(3600, 3600, 66)]
                                 (onKeyUp 3500 3500 65 (onKeyDown 2000 2000 65 st_on))))))
         = Some ev
       /\ k_ts ev = 3600 /\ k_flight ev = Some (3600 - 3500).
Proof.
  destruct (onKeyUp_discarded_release_is_flight_reference
              3500 3500 65 2000 (onKeyDown 2000 2000 65 st_on) eq_refl eq_refl)
    as [_ [Hl H]].
  split; [exact Hl|].
  destruct H as [_ H]; [lia | lia |].
  apply (H [(3600, 3600, 66)] 3650 3650 66 3600); [reflexivity | lia].
Defined.

(** ** Reset *)

(** What [resetProfile] does reset: every raw buffer but the pending-press
    map, and the session fields of the cold start. *)
Lemma resetProfile_resets (fresh : string) (st : State) :
  let st' := resetProfile fresh st in
  ksEvents (RAW st') = [] /\ mouseEvts (RAW st') = [] /\ clicks (RAW st') = []
  /\ scrolls (RAW st') = [] /\ jitterBuf (RAW st') = []
  /\ digraphs (RAW st') = [] /\ trigraphs (RAW st') = []
  /\ lastRelease (RAW st') = None /\ nonce (RAW st') = fresh
  /\ profile (SESSION st') = None /\ isTraining (SESSION st') = true
  /\ phase (SESSION st') = quick /\ activeTime (SESSION st') = 0
  /\ consecutive (SESSION st') = 0 /\ lastActive (SESSION st') = None
  /\ trustScore (SESSION st') = None /\ trainStart (SESSION st') = None
  /\ keydowns (RAW st') = keydowns (RAW st).
Proof. simpl. repeat split. Qed.

(** C4. With key 65 held down when the reset runs, [resetProfile] leaves the
    pending press in the pending-keydown map, which is empty at cold start:
    the raw state after the reset is not the cold-start one. *)
Theorem resetProfile_keeps_pending_keydown :
  keydowns (RAW st_pending) !! 65 = Some 2000
  /\ keydowns (RAW (resetProfile "b2" st_pending)) !! 65 = Some 2000
  /\ keydowns (RAW_init "b2") !! 65 = None
  /\ RAW (resetProfile "b2" st_pending) <> RAW_init "b2".
Proof.
  split; [reflexivity|]. split; [reflexivity|]. split; [reflexivity|].
  intros H. apply (f_equal (fun r => keydowns r !! 65)) in H. discriminate H.
Qed.

(** ** Profile import *)

(** C1, counterexample. The document [{}] fails the schema, yet importing it
    returns [true] and makes it the active and the stored profile. *)
Lemma import_profile_accepts_invalid_document :
  schema_valid (Some doc_empty) = false
  /\ fst (import_profile ["profile.json"] (Some (Some doc_empty)) st_on) = Returned true
  /\ profile (SESSION (snd (import_profile ["profile.json"] (Some (Some doc_empty)) st_on)))
     = Some doc_empty
  /\ profile (SESSION st_on) = None.
Proof. repeat split. Qed.

(** C1, amended. The import handler validates nothing.  With a file chosen
    and parsed, the parsed document, whatever its shape, becomes the active
    and the stored profile, training is switched off and the handler returns
    [true].  It fails (throws) only when reading or parsing throws, and it
    returns [false] when the dialog is cancelled; in both cases the state is
    unchanged. *)
Theorem import_profile_unvalidated
    (filePaths : list string) (parsed : option (option ProfileDoc)) (st : State) :
  (filePaths = [] -> import_profile filePaths parsed st = (Returned false, st))
  /\ (filePaths <> [] -> parsed = None ->
        import_profile filePaths parsed st = (Threw, st))
  /\ (forall raw, filePaths <> [] -> parsed = Some raw ->
        fst (import_profile filePaths parsed st) = Returned true
        /\ profile (SESSION (snd (import_profile filePaths parsed st))) = raw
        /\ isTraining (SESSION (snd (import_profile filePaths parsed st))) = false
        /\ store_profile (store (snd (import_profile filePaths parsed st))) = raw
        /\ RAW (snd (import_profile filePaths parsed st)) = RAW st).
Proof.
  split; [|split].
  - intros ->. reflexivity.
  - intros Hne ->. destruct filePaths; [congruence | reflexivity].
  - intros raw Hne ->. destruct filePaths; [congruence | simpl; auto].
Qed.

Lemma import_profile_unvalidated_witness :
  import_profile [] (Some (Some doc_empty)) st_on = (Returned false, st_on)
  /\ import_profile ["profile.json"] None st_on = (Threw, st_on)
  /\ fst (import_profile ["profile.json"] (Some (Some doc_empty)) st_on) = Returned true
  /\ profile (SESSION (snd (import_profile ["profile.json"] (Some (Some doc_empty)) st_on)))
     = Some doc_empty.
Proof.
  split; [|split].
  - apply (import_profile_unvalidated [] (Some (Some doc_empty)) st_on). reflexivity.
  - apply (import_profile_unvalidated ["profile.json"] None st_on); [discriminate | reflexivity].
  - destruct (import_profile_unvalidated ["profile.json"] (Some (Some doc_empty)) st_on)
      as [_ [_ H]].
    destruct (H (Some doc_empty)) as [H1 [H2 _]]; [discriminate | reflexivity |].
    split; [exact H1 | exact H2].
Defined.

Section Facts.

Variable sqrt : Q -> Q.
Variable atan2 : Q -> Q -> Q.
Variable log2 : Q -> Q.

(** ** Keystroke extraction *)

Lemma qualifying_spec (k : KeyEvent) :
  qualifying k = true <-> k_dwell k <> 0 /\ k_dwell k < 1000.
Proof.
  unfold qualifying. rewrite andb_true_iff, negb_true_iff, Z.eqb_neq, Z.ltb_lt.
  reflexivity.
Qed.

Lemma filter_qualifying_without_1000 (evs : list KeyEvent) :
  List.filter qualifying (List.filter (fun k => negb (k_dwell k =? 1000)) evs)
  = List.filter qualifying evs.
Proof.
  induction evs as [|k evs IH]; [reflexivity|].
  simpl. destruct (k_dwell k =? 1000) eqn:E; simpl.
  - apply Z.eqb_eq in E.
    assert (Hq : qualifying k = false) by (unfold qualifying; rewrite E; reflexivity).
    rewrite Hq. exact IH.
  - rewrite IH. reflexivity.
Qed.

Lemma extractKS_events_only (r r' : Raw) :
  List.filter (fun k => negb (k_dwell k =? 1000)) (ksEvents r')
  = List.filter (fun k => negb (k_dwell k =? 1000)) (ksEvents r) ->
  option_map without_digVar (extractKS sqrt r')
  = option_map without_digVar (extractKS sqrt r).
Proof.
  intros H.
  assert (E : List.filter qualifying (ksEvents r')
              = List.filter qualifying (ksEvents r)).
  { rewrite <- (filter_qualifying_without_1000 (ksEvents r')).
    rewrite <- (filter_qualifying_without_1000 (ksEvents r)).
    rewrite H. reflexivity. }
  unfold extractKS. rewrite E.
  destruct (length (List.filter qualifying (ksEvents r)) <? 50)%nat; reflexivity.
Qed.

Lemma extractKS_digVar_table (r r' : Raw) (f f' : KSFeat) :
  digraphs r' = digraphs r ->
  extractKS sqrt r = Some f -> extractKS sqrt r' = Some f' ->
  digVar f' = digVar f.
Proof.
  intros H. unfold extractKS. rewrite H.
  destruct (length (List.filter qualifying (ksEvents r)) <? 50)%nat; [discriminate|].
  destruct (length (List.filter qualifying (ksEvents r')) <? 50)%nat; [discriminate|].
  intros E E'. injection E as <-. injection E' as <-. reflexivity.
Qed.

(** C10, amended. An event qualifies for keystroke extraction exactly when
    its dwell is nonzero and strictly below 1000 ms; an event of dwell
    exactly 1000 ms does not qualify.  Two buffers that agree once their
    events of dwell exactly 1000 ms are removed give the same minimum-sample
    decision and the same dwell, flight, interval and WPM statistics and
    the same [n], whatever their digraph tables.  [digVar] is the one
    statistic computed from the digraph table instead: two states with the
    same table have the same [digVar].  The vector is absent whenever fewer
    than 50 qualifying events are buffered, and otherwise present with [n]
    the number of qualifying events. *)
Theorem extractKS_qualifying_events (r : Raw) :
  (forall k, qualifying k = true <-> k_dwell k <> 0 /\ k_dwell k < 1000)
  /\ (forall k, k_dwell k = 1000 -> qualifying k = false)
  /\ (forall r',
        List.filter (fun k => negb (k_dwell k =? 1000)) (ksEvents r')
        = List.filter (fun k => negb (k_dwell k =? 1000)) (ksEvents r) ->
        option_map without_digVar (extractKS sqrt r')
        = option_map without_digVar (extractKS sqrt r))
  /\ (forall r' f f',
        digraphs r' = digraphs r ->
        extractKS sqrt r = Some f -> extractKS sqrt r' = Some f' ->
        digVar f' = digVar f)
  /\ ((length (List.filter qualifying (ksEvents r)) < 50)%nat ->
       extractKS sqrt r = None)
  /\ ((50 <= length (List.filter qualifying (ksEvents r)))%nat ->
       exists f, extractKS sqrt r = Some f
                 /\ ks_n f = Z.of_nat (length (List.filter qualifying (ksEvents r)))).
Proof.
  split; [exact qualifying_spec|].
  split; [intros k E; unfold qualifying; rewrite E; reflexivity|].
  split; [intros r'; apply extractKS_events_only|].
  split; [intros r' f f'; apply extractKS_digVar_table|].
  split.
  - intros H. unfold extractKS.
    destruct (length (List.filter qualifying (ksEvents r)) <? 50)%nat eqn:E;
      [reflexivity|].
    apply Nat.ltb_ge in E. lia.
  - intros H. unfold extractKS.
    destruct (length (List.filter qualifying (ksEvents r)) <? 50)%nat eqn:E.
    + apply Nat.ltb_lt in E. lia.
    + eexists. split; reflexivity.
Qed.

(** ** Trust score without inputs *)

(** C3, counterexample. After a score of 80 and the import of [{}], the
    profile has no features and the scorer returns [null], not the previous
    score 80. *)
Lemma calcTrustScore_returns_null_not_previous :
  profile (SESSION st_scored) = Some doc_empty
  /\ features doc_empty = None
  /\ trustScore (SESSION st_scored) = Some (num 80)
  /\ calcTrustScore sqrt_6 atan2_approx log2_floor 10 3 st_scored = None.
Proof. repeat split. Qed.

(** C3, amended. With no profile, or a profile without features, the scorer
    returns [null]; with a profile that has features but neither a keystroke
    nor a mouse vector extractable from the buffers, it returns the previous
    trust score unchanged. *)
Theorem calcTrustScore_without_inputs (h day : Z) (st : State) :
  (profile (SESSION st) = None -> calcTrustScore sqrt atan2 log2 h day st = None)
  /\ (forall p, profile (SESSION st) = Some p -> features p = None ->
        calcTrustScore sqrt atan2 log2 h day st = None)
  /\ (forall p base, profile (SESSION st) = Some p -> features p = Some base ->
        extractKS sqrt (RAW st) = None ->
        extractMouse sqrt atan2 log2 (RAW st) = None ->
        calcTrustScore sqrt atan2 log2 h day st = trustScore (SESSION st)).
Proof.
  unfold calcTrustScore. split; [|split].
  - intros ->. reflexivity.
  - intros p -> ->. reflexivity.
  - intros p base -> -> Hk Hm. cbn [current_features ks mouse].
    rewrite Hk, Hm. reflexivity.
Qed.

(** ** Training *)

Lemma training_pct_full (s : Session) :
  Qle_bool 100 (training_pct s) = true
  <-> (if Phase_eqb (phase s) quick then QUICK_TARGET else FULL_TARGET) <= activeTime s.
Proof.
  unfold training_pct. rewrite Qle_bool_iff, Q.min_glb_iff.
  destruct (Phase_eqb (phase s) quick); unfold QUICK_TARGET, FULL_TARGET;
    unfold Qle; simpl; split.
  - intros [_ H]. lia.
  - intros H. split; lia.
  - intros [_ H]. lia.
  - intros H. split; lia.
Qed.

Lemma completeTraining_deferred (rnd : string) (now : Z) (st : State) :
  extractKS sqrt (RAW st) = None ->
  extractMouse sqrt atan2 log2 (RAW st) = None ->
  completeTraining sqrt atan2 log2 rnd now st = st.
Proof.
  intros Hk Hm. unfold completeTraining. cbn [current_features ks mouse].
  rewrite Hk, Hm. reflexivity.
Qed.

Lemma completeTraining_completes (rnd : string) (now : Z) (st : State) :
  extractKS sqrt (RAW st) <> None \/ extractMouse sqrt atan2 log2 (RAW st) <> None ->
  exists p,
    profile (SESSION (completeTraining sqrt atan2 log2 rnd now st)) = Some p
    /\ v p = Some "3.0"
    /\ features p = Some (features_doc (current_features sqrt atan2 log2 (RAW st)))
    /\ schema_valid (Some p) = true
    /\ store_profile (store (completeTraining sqrt atan2 log2 rnd now st)) = Some p
    /\ isTraining (SESSION (completeTraining sqrt atan2 log2 rnd now st)) = false
    /\ phase (SESSION (completeTraining sqrt atan2 log2 rnd now st)) = complete.
Proof.
  intros H. unfold completeTraining. cbn [current_features ks mouse].
  destruct (extractKS sqrt (RAW st)) as [k|] eqn:Hk.
  - eexists. cbn. repeat split.
  - destruct (extractMouse sqrt atan2 log2 (RAW st)) as [m|] eqn:Hm.
    + eexists. cbn. repeat split.
    + destruct H as [H|H]; congruence.
Qed.

(** C7. At a periodic evaluation of the training state machine: with active
    time at or above 30 minutes in phase [quick], active time is reset to 0
    and the phase becomes [intermediate], with training still on and no
    profile made; with active time at or above 120 minutes in phase
    [intermediate], completion is deferred (the state is unchanged) when both
    the keystroke and the mouse vector are absent, and otherwise a profile of
    schema version "3.0" holding the extracted features is created, training
    is switched off and the phase becomes [complete]. *)
Theorem checkTrainingProgress_transitions (rnd : string) (now : Z) (st : State) :
  (phase (SESSION st) = quick -> QUICK_TARGET <= activeTime (SESSION st) ->
     activeTime (SESSION (checkTrainingProgress sqrt atan2 log2 rnd now st)) = 0
     /\ phase (SESSION (checkTrainingProgress sqrt atan2 log2 rnd now st)) = intermediate
     /\ isTraining (SESSION (checkTrainingProgress sqrt atan2 log2 rnd now st))
        = isTraining (SESSION st)
     /\ profile (SESSION (checkTrainingProgress sqrt atan2 log2 rnd now st))
        = profile (SESSION st))
  /\ (phase (SESSION st) = intermediate -> FULL_TARGET <= activeTime (SESSION st) ->
        extractKS sqrt (RAW st) = None ->
        extractMouse sqrt atan2 log2 (RAW st) = None ->
        checkTrainingProgress sqrt atan2 log2 rnd now st = st)
  /\ (phase (SESSION st) = intermediate -> FULL_TARGET <= activeTime (SESSION st) ->
        extractKS sqrt (RAW st) <> None
        \/ extractMouse sqrt atan2 log2 (RAW st) <> None ->
        exists p,
          profile (SESSION (checkTrainingProgress sqrt atan2 log2 rnd now st)) = Some p
          /\ v p = Some "3.0"
          /\ features p = Some (features_doc (current_features sqrt atan2 log2 (RAW st)))
          /\ isTraining (SESSION (checkTrainingProgress sqrt atan2 log2 rnd now st)) = false
          /\ phase (SESSION (checkTrainingProgress sqrt atan2 log2 rnd now st)) = complete).
Proof.
  unfold checkTrainingProgress. split; [|split].
  - intros Hph Ha.
    assert (E : Qle_bool 100 (training_pct (SESSION st)) = true).
    { apply training_pct_full. rewrite Hph. exact Ha. }
    rewrite E, Hph. cbn. auto.
  - intros Hph Ha Hk Hm.
    assert (E : Qle_bool 100 (training_pct (SESSION st)) = true).
    { apply training_pct_full. rewrite Hph. exact Ha. }
    rewrite E, Hph. cbn [Phase_eqb]. now apply completeTraining_deferred.
  - intros Hph Ha H.
    assert (E : Qle_bool 100 (training_pct (SESSION st)) = true).
    { apply training_pct_full. rewrite Hph. exact Ha. }
    rewrite E, Hph. cbn [Phase_eqb].
    destruct (completeTraining_completes rnd now st H)
      as [p [H1 [H2 [H3 [_ [_ [H6 H7]]]]]]].
    exists p. auto.
Qed.

(** Below the target of the phase, an evaluation changes nothing. *)
Lemma checkTrainingProgress_below (rnd : string) (now : Z) (st : State) :
  activeTime (SESSION st)
    < (if Phase_eqb (phase (SESSION st)) quick then QUICK_TARGET else FULL_TARGET) ->
  checkTrainingProgress sqrt atan2 log2 rnd now st = st.
Proof.
  intros H. unfold checkTrainingProgress.
  destruct (Qle_bool 100 (training_pct (SESSION st))) eqn:E; [|reflexivity].
  apply training_pct_full in E. lia.
Qed.

(** ** Channel deviations and risk *)

Lemma risk_fold_renormalised (tw : Q) (parts : list (Q * Q)) (a b : Q) :
  (a == b / tw)%Q ->
  (fold_left (fun s x => s + fst x * (snd x / tw)) parts a
   == fold_left (fun s x => s + fst x * snd x) parts b / tw)%Q.
Proof.
  revert a b. induction parts as [|x ps IH]; intros a b Hab; simpl; [exact Hab|].
  apply IH. rewrite Hab. unfold Qdiv. ring.
Qed.

Lemma weighted_sum_num (parts : list (Q * Q)) (s : Q) :
  fold_left (fun s x => (s + fst x * num (snd x))%js) (map num_part parts) (num s)
  = num (fold_left (fun s x => s + fst x * snd x)%Q parts s).
Proof.
  revert s. induction parts as [|x ps IH]; intros s; [reflexivity|].
  cbn [map fold_left]. exact (IH (s + fst x * snd x)%Q).
Qed.

Lemma weights_num (parts : list (Q * Q)) (tw : Q) :
  fold_left (fun s x => s + snd x)%Q (map num_part parts) tw
  = fold_left (fun s x => s + snd x)%Q parts tw.
Proof.
  revert tw. induction parts as [|x ps IH]; intros tw; [reflexivity|].
  cbn [map fold_left]. exact (IH (tw + snd x)%Q).
Qed.

Lemma risk_of_num (parts : list (Q * Q)) :
  risk_of (map num_part parts)
  = num (fold_left (fun s x => s + fst x * snd x) parts 0
         / fold_left (fun s x => s + snd x) parts 0)%Q.
Proof.
  unfold risk_of. rewrite weighted_sum_num, weights_num. reflexivity.
Qed.

Lemma risk_of_weighted_mean (parts : list (Q * Q)) :
  exists r, risk_of (map num_part parts) = num r /\ (r == weighted_mean parts)%Q.
Proof.
  eexists. split; [apply risk_of_num|].
  unfold weighted_mean. symmetry.
  apply risk_fold_renormalised. unfold Qdiv. ring.
Qed.

Lemma cmp_num (cv b tol d : Q) (n : Z) :
  cmp cv (num b) tol (num d, n)
  = if Qltb 0 b
    then (num (d + Qmin 1 (Qabs (cv - b) / b / tol) * 100), n + 1)
    else (num d, n).
Proof. unfold cmp. cbn [js_ltb fst snd]. destruct (Qltb 0 b); reflexivity. Qed.

Lemma cmp_NaN (cv tol : Q) (dn : jsnum * Z) : cmp cv NaN tol dn = dn.
Proof. reflexivity. Qed.

Lemma cmp_counted (cv : Q) (bv : jsnum) (tol d : Q) (n : Z) :
  cmp cv bv tol (num d, n)
  = match counted (cv, bv, tol) with
    | Some t => (num (d + t), n + 1)
    | None => (num d, n)
    end.
Proof.
  unfold cmp, counted, deviation. cbn [fst snd].
  destruct bv as [b|]; cbn [js_ltb]; [destruct (Qltb 0 b)|]; reflexivity.
Qed.

Lemma ks_part_mean (c : KSFeat) (b : KSDoc) :
  ks_part c b
  = num_part
      (channel_deviation
         [(medDwell c, medDwell b, 6 # 10); (madDwell c, madDwell b, 7 # 10);
          (medFlight c, medFlight b, 7 # 10); (medIv c, medIv b, 65 # 100);
          (wpm c, wpm b, 6 # 10)],
       5 # 10).
Proof.
  unfold ks_part, channel_deviation, num_part. cbn [omap list_omap fst snd].
  do 5 (rewrite cmp_counted;
        match goal with |- context [counted ?m] => destruct (counted m) end);
    reflexivity.
Qed.

Lemma click_part_mean (c : ClickFeat) (b : ClickDoc) :
  click_part c b
  = num_part
      (channel_deviation
         [(cpm c, cpm b, 12 # 10); (avgDist c, avgDist b, 12 # 10)],
       2 # 10).
Proof.
  change (click_part c b)
    with (part_r (cmp (avgDist c) (avgDist b) (12 # 10)
                    (cmp (cpm c) (cpm b) (12 # 10) (num 0, 0))), 2 # 10).
  unfold channel_deviation, num_part. cbn [omap list_omap fst snd].
  do 2 (rewrite cmp_counted;
        match goal with |- context [counted ?m] => destruct (counted m) end);
    reflexivity.
Qed.

Lemma mouse_part_mean (c : MouseFeat) (b : MouseDoc) (kb eb : Q) :
  curvature b = num kb -> entropy b = num eb ->
  mouse_part c b
  = num_part
      (_mean
         (match avgVel b with
          | num vb =>
              if Qltb 0 vb
              then [(Qmin 1 (Qabs (avgVel c - vb) / vb) * 100)%Q] else []
          | NaN => []
          end
          ++ [(Qmin 1 (Qabs (curvature c - kb)) * 100)%Q;
              (Qmin 1 (Qabs (entropy c - eb)) * 100)%Q]),
       3 # 10).
Proof.
  intros Hk He. unfold mouse_part, num_part. rewrite Hk, He.
  destruct (avgVel b) as [vb|]; cbn [js_ltb];
    [destruct (Qltb 0 vb)|]; reflexivity.
Qed.

Lemma mouse_part_NaN (c : MouseFeat) (b : MouseDoc) :
  mouse_numeric b = false -> mouse_part c b = (NaN, 3 # 10).
Proof.
  unfold mouse_numeric, mouse_part. intros H.
  destruct (curvature b) as [kb|], (entropy b) as [eb|]; try discriminate H;
    destruct (avgVel b) as [vb|]; cbn [js_ltb];
    try destruct (Qltb 0 vb); reflexivity.
Qed.

Lemma mouse_numeric_spec (b : MouseDoc) :
  mouse_numeric b = true -> exists kb eb, curvature b = num kb /\ entropy b = num eb.
Proof.
  unfold mouse_numeric.
  destruct (curvature b) as [kb|], (entropy b) as [eb|]; try discriminate.
  intros _. now exists kb, eb.
Qed.

Lemma score_parts_num (cur : FeatureVector) (base : FeatureDoc) :
  baseline_numeric base = true ->
  exists qs, score_parts cur base = map num_part qs.
Proof.
  unfold baseline_numeric, score_parts. intros H.
  assert (Hk : exists qk,
             match ks cur, ks base with
             | Some c, Some b => [ks_part c b] | _, _ => [] end = map num_part qk).
  { destruct (ks cur) as [c|], (ks base) as [b|]; try (now exists []).
    eexists [_]. cbn [map]. now rewrite ks_part_mean. }
  assert (Hm : exists qm,
             match mouse cur, mouse base with
             | Some c, Some b => [mouse_part c b] | _, _ => [] end = map num_part qm).
  { destruct (mouse cur) as [c|], (mouse base) as [b|]; try (now exists []).
    destruct (mouse_numeric_spec b H) as [kb [eb [Ek Ee]]].
    eexists [_]. cbn [map]. now rewrite (mouse_part_mean c b kb eb Ek Ee). }
  assert (Hc : exists qc,
             match click cur, click base with
             | Some c, Some b => [click_part c b] | _, _ => [] end = map num_part qc).
  { destruct (click cur) as [c|], (click base) as [b|]; try (now exists []).
    eexists [_]. cbn [map]. now rewrite click_part_mean. }
  destruct Hk as [qk ->], Hm as [qm ->], Hc as [qc ->].
  exists (qk ++ qm ++ qc). now rewrite !map_app.
Qed.

Lemma calcTrustScore_scores (h day : Z) (st : State) (p : ProfileDoc)
    (base : FeatureDoc) :
  profile (SESSION st) = Some p -> features p = Some base ->
  extractKS sqrt (RAW st) <> None \/ extractMouse sqrt atan2 log2 (RAW st) <> None ->
  score_parts (current_features sqrt atan2 log2 (RAW st)) base <> [] ->
  calcTrustScore sqrt atan2 log2 h day st
  = Some (js_max (num 0)
            (js_min (num 100)
               (num 100
                - risk_of (score_parts (current_features sqrt atan2 log2 (RAW st)) base)
                  * num (time_adj h day))%js)).
Proof.
  intros Hp Hf Hcur Hparts. unfold calcTrustScore. rewrite Hp, Hf.
  set (cur := current_features sqrt atan2 log2 (RAW st)) in *.
  assert (Hk : ks cur = extractKS sqrt (RAW st)) by reflexivity.
  assert (Hm : mouse cur = extractMouse sqrt atan2 log2 (RAW st)) by reflexivity.
  destruct (score_parts cur base) as [|x ps] eqn:E; [congruence|].
  destruct (ks cur), (mouse cur); try reflexivity.
  rewrite <- Hk, <- Hm in Hcur. destruct Hcur; congruence.
Qed.

(** C2, counterexample. Against a mouse baseline of entropy 0, a current
    entropy of 0.5 gives a mouse deviation of 50/3 in the code, where the
    claimed mean over the metrics of nonzero baseline is 0 whatever the
    tolerances. *)
Lemma mouse_deviation_counts_zero_baseline :
  js_eq (fst (mouse_part cur_mouse (mouse_doc base_mouse))) (50 # 3)
  /\ (claimed_channel_deviation
        [(avgVel cur_mouse, avgVel base_mouse, 1%Q);
         (curvature cur_mouse, curvature base_mouse, 1%Q);
         (entropy cur_mouse, entropy base_mouse, 1%Q)] == 0)%Q
  /\ (forall t1 t2 t3 : Q,
        claimed_channel_deviation
          [(avgVel cur_mouse, avgVel base_mouse, t1);
           (curvature cur_mouse, curvature base_mouse, t2);
           (entropy cur_mouse, entropy base_mouse, t3)] == 0)%Q.
Proof.
  split; [reflexivity|]. split; [reflexivity|].
  intros t1 t2 t3.
  assert (H0 : forall b t, (Qabs (b - b) / b / t == 0)%Q).
  { intros b t. assert (E : (b - b == 0)%Q) by ring.
    rewrite E. unfold Qdiv. change (Qabs 0) with 0%Q.
    rewrite !Qmult_0_l. reflexivity. }
  unfold claimed_channel_deviation.
  cbn [avgVel curvature entropy cur_mouse base_mouse].
  cbn [List.filter fst snd].
  change (Qeq_bool 610 0) with false.
  change (Qeq_bool (386 # 1000) 0) with false.
  change (Qeq_bool 0 0) with true.
  cbn [negb map fst snd]. unfold _mean, deviation. cbn [fold_left length].
  rewrite !H0. reflexivity.
Qed.

(** C2, amended. The keystroke deviation is the mean, over the metrics of
    positive baseline among median dwell (tolerance 0.6), dwell MAD (0.7),
    median flight (0.7), median interval (0.65) and WPM (0.6), of
    [min(1, |current - baseline| / baseline / tolerance) x 100]; the click
    deviation is the same mean over cadence and distance (1.2 each).  The
    mouse deviation is the mean of [min(1, |current - baseline| / baseline)
    x 100] for the average speed, counted only when its baseline is positive,
    and of [min(1, |current - baseline|) x 100] for curvature and for entropy,
    both always counted (so that a baseline curvature or entropy that is not
    a number makes the deviation [NaN]).  A channel takes part when it is
    present in both vectors, with weight 0.5, 0.3 or 0.2; the risk is the
    mean of the deviations with the weights renormalised over those
    channels, and the score is [clamp(100 - risk x adjustment, 0, 100)]. *)
Theorem trust_channel_deviations (h day : Z) (st : State)
    (cur : FeatureVector) (base : FeatureDoc) :
  (forall (c : KSFeat) (b : KSDoc),
     ks_part c b
     = num_part
         (channel_deviation
            [(medDwell c, medDwell b, 6 # 10); (madDwell c, madDwell b, 7 # 10);
             (medFlight c, medFlight b, 7 # 10); (medIv c, medIv b, 65 # 100);
             (wpm c, wpm b, 6 # 10)],
          5 # 10))
  /\ (forall (c : MouseFeat) (b : MouseDoc) (kb eb : Q),
        curvature b = num kb -> entropy b = num eb ->
        mouse_part c b
        = num_part
            (_mean
               (match avgVel b with
                | num vb =>
                    if Qltb 0 vb
                    then [(Qmin 1 (Qabs (avgVel c - vb) / vb) * 100)%Q] else []
                | NaN => []
                end
                ++ [(Qmin 1 (Qabs (curvature c - kb)) * 100)%Q;
                    (Qmin 1 (Qabs (entropy c - eb)) * 100)%Q]),
             3 # 10))
  /\ (forall (c : MouseFeat) (b : MouseDoc),
        mouse_numeric b = false -> mouse_part c b = (NaN, 3 # 10))
  /\ (forall (c : ClickFeat) (b : ClickDoc),
        click_part c b
        = num_part
            (channel_deviation
               [(cpm c, cpm b, 12 # 10); (avgDist c, avgDist b, 12 # 10)],
             2 # 10))
  /\ score_parts cur base
     = (match ks cur, ks base with Some c, Some b => [ks_part c b] | _, _ => [] end)
       ++ (match mouse cur, mouse base with
           | Some c, Some b => [mouse_part c b] | _, _ => [] end)
       ++ (match click cur, click base with
           | Some c, Some b => [click_part c b] | _, _ => [] end)
  /\ (baseline_numeric base = true ->
      exists qs r,
        score_parts cur base = map num_part qs
        /\ risk_of (score_parts cur base) = num r
        /\ (r == weighted_mean qs)%Q)
  /\ (forall p b,
        profile (SESSION st) = Some p -> features p = Some b ->
        extractKS sqrt (RAW st) <> None
        \/ extractMouse sqrt atan2 log2 (RAW st) <> None ->
        score_parts (current_features sqrt atan2 log2 (RAW st)) b <> [] ->
        calcTrustScore sqrt atan2 log2 h day st
        = Some (js_max (num 0)
                  (js_min (num 100)
                     (num 100
                      - risk_of (score_parts (current_features sqrt atan2 log2 (RAW st)) b)
                        * num (time_adj h day))%js))).
Proof.
  split; [exact ks_part_mean|]. split; [exact mouse_part_mean|].
  split; [exact mouse_part_NaN|].
  split; [exact click_part_mean|]. split; [reflexivity|].
  split.
  - intros Hn. destruct (score_parts_num cur base Hn) as [qs Eq].
    destruct (risk_of_weighted_mean qs) as [r [Er Hr]].
    exists qs, r. rewrite Eq. auto.
  - intros p b. apply calcTrustScore_scores.
Qed.

(** ** Bounds of the trust score *)

Lemma capped_term_bounds (x : Q) :
  (0 <= x)%Q -> (0 <= Qmin 1 x * 100 /\ Qmin 1 x * 100 <= 100)%Q.
Proof.
  intros Hx. destruct (Q.min_spec 1 x) as [[H E]|[H E]]; rewrite E; lra.
Qed.

Lemma add_term_ok (dn : jsnum * Z) (t : Q) :
  acc_ok dn -> (0 <= t)%Q -> (t <= 100)%Q ->
  acc_ok ((fst dn + num t)%js, snd dn + 1).
Proof.
  destruct dn as [[d|] n]; intros [Hn H] Ht0 Ht1; [|destruct H].
  destruct H as [H0 H1]. cbn [fst snd] in *. unfold acc_ok. cbn [fst snd].
  split; [lia|]. cbn [js_add js_lift2 within].
  rewrite inject_Z_plus. change (inject_Z 1) with 1%Q. split; lra.
Qed.

Lemma quotient_nonneg (a b : Q) : (0 <= a)%Q -> (0 < b)%Q -> (0 <= a / b)%Q.
Proof.
  intros Ha Hb. apply Qle_shift_div_l; [exact Hb|]. lra.
Qed.

Lemma Qltb_lt (a b : Q) : Qltb a b = true -> (a < b)%Q.
Proof.
  unfold Qltb. intros E. apply negb_true_iff in E.
  apply Qnot_le_lt. intros H. apply Qle_bool_iff in H. congruence.
Qed.

Lemma cmp_ok (cv : Q) (bv : jsnum) (tol : Q) (dn : jsnum * Z) :
  (0 < tol)%Q -> acc_ok dn -> acc_ok (cmp cv bv tol dn).
Proof.
  intros Htol Hdn. destruct bv as [b|]; [|exact Hdn].
  unfold cmp. cbn [js_ltb]. destruct (Qltb 0 b) eqn:E; [|exact Hdn].
  apply Qltb_lt in E.
  assert (Hx : (0 <= Qabs (cv - b) / b / tol)%Q).
  { apply quotient_nonneg; [|exact Htol].
    apply quotient_nonneg; [apply Qabs_nonneg | exact E]. }
  destruct (capped_term_bounds _ Hx) as [H0 H1].
  exact (add_term_ok dn _ Hdn H0 H1).
Qed.

Lemma part_r_bounds (dn : jsnum * Z) : acc_ok dn -> within 0 100 (part_r dn).
Proof.
  destruct dn as [[d|] n]; intros [Hn H]; [|destruct H].
  destruct H as [H0 H1]. cbn [fst snd] in *.
  unfold part_r. cbn [fst snd]. destruct (n =? 0) eqn:E; [cbn; lra|].
  apply Z.eqb_neq in E.
  assert (Hpos : (0 < inject_Z n)%Q).
  { change 0%Q with (inject_Z 0). rewrite <- Zlt_Qlt. lia. }
  cbn [js_div js_lift2 within]. split.
  - now apply quotient_nonneg.
  - apply Qle_shift_div_r; [exact Hpos | exact H1].
Qed.

Lemma acc_ok_zero : acc_ok (num 0, 0).
Proof.
  unfold acc_ok. cbn [fst snd within]. change (inject_Z 0) with 0%Q.
  split; [lia|]. split; lra.
Qed.

Lemma ks_part_ok (c : KSFeat) (b : KSDoc) : part_ok (ks_part c b).
Proof.
  unfold ks_part, part_ok. cbn [fst snd]. split; [|reflexivity].
  apply part_r_bounds.
  repeat (apply cmp_ok; [reflexivity|]). apply acc_ok_zero.
Qed.





Lemma weighted_sums_ok (parts : list (jsnum * Q)) :
  Forall part_ok parts ->
  forall s tw : Q, (0 <= s)%Q -> (s <= 100 * tw)%Q ->
    exists S,
      fold_left (fun s x => (s + fst x * num (snd x))%js) parts (num s) = num S
      /\ (0 <= S)%Q
      /\ (S <= 100 * fold_left (fun s x => s + snd x) parts tw)%Q
      /\ (tw <= fold_left (fun s x => s + snd x) parts tw)%Q
      /\ (parts <> [] -> tw < fold_left (fun s x => s + snd x) parts tw)%Q.
Proof.
  induction 1 as [|x ps [Hr Hw] Hps IH]; intros s tw Hs0 Hs1; cbn [fold_left].
  - exists s. repeat split; try lra. congruence.
  - destruct x as [[r|] w]; cbn [fst snd within] in *; [|destruct Hr].
    destruct Hr as [Hr0 Hr1].
    assert (Hrw0 : (0 <= r * w)%Q) by nra.
    assert (Hrw1 : (r * w <= 100 * w)%Q) by nra.
    destruct (IH (s + r * w)%Q (tw + w)%Q) as [S [E [H1 [H2 [H3 _]]]]];
      [lra | lra |].
    exists S. cbn [js_add js_mul js_lift2].
    repeat split; try assumption; try lra.
Qed.






Lemma self_term_zero (c d : Q) : (Qmin 1 (Qabs (c - c) * d) * 100 == 0)%Q.
Proof.
  assert (E : (c - c == 0)%Q) by ring.
  assert (E' : (Qabs (c - c) * d == 0)%Q).
  { rewrite E. change (Qabs 0) with 0%Q. ring. }
  destruct (Q.min_spec 1 (Qabs (c - c) * d)) as [[H Em]|[H Em]]; rewrite Em; lra.
Qed.

Lemma cmp_self (c tol : Q) (dn : jsnum * Z) :
  js_eq (fst dn) 0 -> js_eq (fst (cmp c (num c) tol dn)) 0.
Proof.
  destruct dn as [[d|] n]; intros H; [|destruct H]. cbn [fst js_eq] in H.
  rewrite cmp_num. destruct (Qltb 0 c); cbn [fst js_eq]; [|exact H].
  unfold Qdiv. rewrite <- Qmult_assoc. rewrite self_term_zero. lra.
Qed.

Lemma part_r_zero (dn : jsnum * Z) : js_eq (fst dn) 0 -> js_eq (part_r dn) 0.
Proof.
  destruct dn as [[d|] n]; intros H; [|destruct H]. cbn [fst js_eq] in H.
  unfold part_r. cbn [fst snd]. destruct (n =? 0); [reflexivity|].
  cbn [js_div js_lift2 js_eq]. rewrite H. unfold Qdiv. ring.
Qed.

Lemma ks_part_self (c : KSFeat) : js_eq (fst (ks_part c (ks_doc c))) 0.
Proof.
  unfold ks_part. cbn [fst ks_doc medDwell madDwell medFlight medIv wpm].
  apply part_r_zero. repeat apply cmp_self. reflexivity.
Qed.

Lemma click_part_self (c : ClickFeat) : js_eq (fst (click_part c (click_doc c))) 0.
Proof.
  change (fst (click_part c (click_doc c)))
    with (part_r (cmp (avgDist c) (num (avgDist c)) (12 # 10)
                    (cmp (cpm c) (num (cpm c)) (12 # 10) (num 0, 0)))).
  apply part_r_zero. repeat apply cmp_self. reflexivity.
Qed.

Lemma mouse_part_self (c : MouseFeat) : js_eq (fst (mouse_part c (mouse_doc c))) 0.
Proof.
  unfold mouse_part. cbn [fst mouse_doc avgVel curvature entropy].
  apply part_r_zero.
  pose proof (self_term_zero (curvature c) 1) as Hc.
  pose proof (self_term_zero (entropy c) 1) as He.
  pose proof (self_term_zero (avgVel c) (/ avgVel c)) as Hv.
  rewrite Qmult_1_r in Hc, He.
  cbn [js_ltb]. destruct (Qltb 0 (avgVel c)); cbn [fst snd js_eq js_add js_sub js_mul
    js_div js_min js_abs js_lift2].
  - unfold Qdiv. rewrite Hv, Hc, He. reflexivity.
  - rewrite Hc, He. reflexivity.
Qed.

Lemma score_parts_self (cur : FeatureVector) :
  Forall (fun x => js_eq (fst x) 0) (score_parts cur (features_doc cur)).
Proof.
  unfold score_parts. cbn [features_doc ks mouse click].
  repeat apply Forall_app_2.
  - destruct (ks cur); cbn [option_map]; auto using ks_part_self.
  - destruct (mouse cur); cbn [option_map]; auto using mouse_part_self.
  - destruct (click cur); cbn [option_map]; auto using click_part_self.
Qed.

Lemma weighted_sum_zero (parts : list (jsnum * Q)) (s : Q) :
  Forall (fun x => js_eq (fst x) 0) parts -> (s == 0)%Q ->
  js_eq (fold_left (fun s x => (s + fst x * num (snd x))%js) parts (num s)) 0.
Proof.
  intros H. revert s. induction H as [|x ps Hx Hps IH]; intros s Hs; cbn [fold_left].
  - exact Hs.
  - destruct x as [[r|] w]; cbn [fst snd js_eq] in *; [|destruct Hx].
    cbn [js_add js_mul js_lift2]. apply IH. rewrite Hs, Hx. ring.
Qed.

Lemma risk_of_self (cur : FeatureVector) :
  js_eq (risk_of (score_parts cur (features_doc cur))) 0.
Proof.
  unfold risk_of.
  pose proof (weighted_sum_zero _ 0%Q (score_parts_self cur) (Qeq_refl 0)) as H.
  destruct (fold_left _ (score_parts cur (features_doc cur)) (num 0)) as [x|];
    [|destruct H].
  cbn [js_eq js_div js_lift2] in *. rewrite H. unfold Qdiv. ring.
Qed.



(** The scorer on a baseline whose mouse curvature or entropy is not a
    number: with a mouse vector extractable, the score is [NaN]. *)
Lemma calcTrustScore_NaN (h day : Z) (st : State) (p : ProfileDoc)
    (base : FeatureDoc) (b : MouseDoc) :
  profile (SESSION st) = Some p -> features p = Some base ->
  mouse base = Some b -> mouse_numeric b = false ->
  extractMouse sqrt atan2 log2 (RAW st) <> None ->
  calcTrustScore sqrt atan2 log2 h day st = Some NaN.
Proof.
  intros Hp Hf Hb Hn Hm.
  assert (Hrisk : forall (pre post : list (jsnum * Q)),
            Forall part_ok pre ->
            risk_of (pre ++ (NaN, 3 # 10) :: post) = NaN).
  { intros pre post Hpre. unfold risk_of. rewrite fold_left_app.
    destruct (weighted_sums_ok pre Hpre 0%Q 0%Q) as [S [E _]]; [lra | lra |].
    rewrite E. cbn [fold_left fst snd js_add js_mul js_lift2].
    assert (Hn' : forall l : list (jsnum * Q),
              fold_left (fun s x => (s + fst x * num (snd x))%js) l NaN = NaN)
      by (induction l as [|y l IH]; [reflexivity | exact IH]).
    rewrite Hn'. reflexivity. }
  unfold calcTrustScore. rewrite Hp, Hf.
  set (cur := current_features sqrt atan2 log2 (RAW st)).
  assert (Em : mouse cur = extractMouse sqrt atan2 log2 (RAW st)) by reflexivity.
  destruct (mouse cur) as [m|] eqn:Ec; [|congruence].
  assert (HL : exists pre post,
             Forall part_ok pre
             /\ score_parts cur base = pre ++ (NaN, 3 # 10) :: post).
  { unfold score_parts. rewrite Ec, Hb, (mouse_part_NaN m b Hn).
    destruct (ks cur) as [k|], (ks base) as [kb|].
    - exists [ks_part k kb]. eexists. split; [|reflexivity].
      constructor; [apply ks_part_ok | constructor].
    - exists []. eexists. split; [constructor | reflexivity].
    - exists []. eexists. split; [constructor | reflexivity].
    - exists []. eexists. split; [constructor | reflexivity]. }
  destruct HL as [pre [post [Hpre ->]]].
  destruct (pre ++ (NaN, 3 # 10) :: post) as [|x ps] eqn:E;
    [destruct pre; discriminate|].
  rewrite <- E, (Hrisk pre post Hpre).
  destruct (ks cur); reflexivity.
Qed.

Lemma calcTrustScore_self (h day : Z) (st : State) (p : ProfileDoc) :
  profile (SESSION st) = Some p ->
  features p = Some (features_doc (current_features sqrt atan2 log2 (RAW st))) ->
  extractKS sqrt (RAW st) <> None \/ extractMouse sqrt atan2 log2 (RAW st) <> None ->
  exists s, calcTrustScore sqrt atan2 log2 h day st = Some (num s) /\ (s == 100)%Q.
Proof.
  intros Hp Hf Hcur.
  set (cur := current_features sqrt atan2 log2 (RAW st)) in *.
  pose proof (risk_of_self cur) as Hrisk.
  assert (Hparts : score_parts cur (features_doc cur) <> []).
  { unfold score_parts, cur. cbn [current_features features_doc ks mouse click].
    destruct (extractKS sqrt (RAW st)); [discriminate|].
    destruct (extractMouse sqrt atan2 log2 (RAW st)); [discriminate|].
    destruct Hcur; congruence. }
  rewrite (calcTrustScore_scores h day st p (features_doc cur) Hp Hf Hcur Hparts).
  fold cur.
  destruct (risk_of (score_parts cur (features_doc cur))) as [r|]; [|destruct Hrisk].
  cbn [js_eq] in Hrisk. cbn [js_max js_min js_sub js_mul js_lift2].
  eexists. split; [reflexivity|].
  assert (Hx : (100 - r * time_adj h day == 100)%Q) by (rewrite Hrisk; ring).
  destruct (Q.max_spec 0 (Qmin 100 (100 - r * time_adj h day))) as [[H E]|[H E]];
    destruct (Q.min_spec 100 (100 - r * time_adj h day)) as [[H' E']|[H' E']];
    rewrite E; lra.
Qed.




Lemma extractMouse_present (r : Raw) :
  (30 <= length (mouseEvts r))%nat -> extractMouse sqrt atan2 log2 r <> None.
Proof.
  intros H. unfold extractMouse.
  destruct (length (mouseEvts r) <? 30)%nat eqn:E; [|discriminate].
  apply Nat.ltb_lt in E. lia.
Qed.

Lemma score_parts_mouse (cur : FeatureVector) (base : FeatureDoc) :
  mouse cur <> None -> mouse base <> None -> score_parts cur base <> [].
Proof.
  intros Hc Hb. unfold score_parts.
  destruct (mouse cur); [|congruence]. destruct (mouse base); [|congruence].
  destruct (ks cur), (ks base); discriminate.
Qed.

(** ** Bot scorer *)

Lemma award_fst (c : bool) (n : Z) (why : BotReason) (acc : Z * list BotReason) :
  fst (award c n why acc) = fst acc + pts c n.
Proof. unfold award, pts. destruct c; cbn [fst]; lia. Qed.

Lemma bot_score_points (ks : option KSFeat) (mouse : option MouseFeat) (r : Raw) :
  fst (bot_score atan2 ks mouse r) = bot_points atan2 ks mouse r.
Proof.
  unfold bot_score, bot_points.
  destruct (20 <=? length (mouseEvts r))%nat; cbn [andb];
    rewrite ?award_fst; destruct mouse as [m|], ks as [k|];
    rewrite ?award_fst; cbn [fst pts]; lia.
Qed.

(** C6, amended. The bot score is the sum of: 40 for a mouse entropy below
    0.02, 30 for a positive jitter frequency outside [3,12], 25 for a
    curvature below 0.01 (the three only with a mouse vector); 50 for a
    median interval below 30, 25 for an interval CV below 0.15 with more than
    30 samples, 20 for a digraph variance below 3 with more than 10 distinct
    digraphs (the three only with a keystroke vector); 30 for a fraction of
    direction changes below 0.15 over the last 50 mouse samples when at least
    20 samples are buffered.  [isBot] holds exactly when the score is at
    least 85, and the confidence is the score capped at 100. *)
Theorem detectBot_rules (ks : option KSFeat) (mouse : option MouseFeat) (r : Raw) :
  fst (bot_score atan2 ks mouse r) = bot_points atan2 ks mouse r
  /\ (isBot (detectBot atan2 ks mouse r) = true <-> 85 <= bot_points atan2 ks mouse r)
  /\ confidence (detectBot atan2 ks mouse r) = Z.min 100 (bot_points atan2 ks mouse r)
  /\ confidence (detectBot atan2 ks mouse r) <= 100.
Proof.
  unfold detectBot. cbn [isBot confidence]. rewrite bot_score_points.
  split; [reflexivity|]. split; [apply Z.leb_le|]. split; [reflexivity | lia].
Qed.

End Facts.

(** C6, counterexample. Sixty keys typed 20 ms apart over ten key codes in
    a cycle make exactly ten distinct digraphs of variance 0.  The claimed
    rules give 50 + 25 + 20 = 95 and so a bot; the code gives 75, no bot. *)
Lemma detectBot_ten_digraphs_not_flagged :
  map_size (digraphs (RAW st_typed)) = 10
  /\ claimed_bot_score atan2_approx
       (extractKS sqrt_6 (RAW st_typed))
       (extractMouse sqrt_6 atan2_approx log2_floor (RAW st_typed))
       (RAW st_typed) = 95
  /\ isBot (detectBot atan2_approx
              (extractKS sqrt_6 (RAW st_typed))
              (extractMouse sqrt_6 atan2_approx log2_floor (RAW st_typed))
              (RAW st_typed)) = false
  /\ confidence (detectBot atan2_approx
                   (extractKS sqrt_6 (RAW st_typed))
                   (extractMouse sqrt_6 atan2_approx log2_floor (RAW st_typed))
                   (RAW st_typed)) = 75.
Proof. vm_compute. repeat split. Qed.

(** ** The theorems at concrete inputs *)

(** C10, counterexample. Sixty keys, then key 65 held for exactly 1000 ms:
    the key-up handler retains the event and files its interval of 520 ms
    in the digraph table.  Extraction leaves the event out of the buffer
    statistics (they equal those after a hold of 1001 ms, which the handler
    discards), but not out of [digVar]: it is 0 after the discarded key-up
    and positive after the retained one. *)
Lemma extractKS_dwell_1000_enters_digVar :
  ksEvents (RAW st_held_1000)
  = ksEvents (RAW st_held_1001)
    ++ [{| k_kc := 65; k_dwell := 1000; k_flight := Some 510; k_ts := 3700;
           k_nonce := "a1" |}]
  /\ (exists f, extractKS sqrt_6 (RAW st_held_1001) = Some f /\ (digVar f == 0)%Q)
  /\ (exists f, extractKS sqrt_6 (RAW st_held_1000) = Some f /\ (0 < digVar f)%Q)
  /\ extractKS sqrt_6 (RAW st_held_1000) <> extractKS sqrt_6 (RAW st_held_1001).
Proof.
  assert (H1 : exists f, extractKS sqrt_6 (RAW st_held_1001) = Some f
                         /\ (digVar f == 0)%Q).
  { unfold extractKS.
    assert (El : (length (List.filter qualifying (ksEvents (RAW st_held_1001))) <? 50)%nat
                 = false) by (vm_compute; reflexivity).
    rewrite El. eexists. split; [reflexivity|]. cbn [digVar]. vm_compute. reflexivity. }
  assert (H2 : exists f, extractKS sqrt_6 (RAW st_held_1000) = Some f
                         /\ (0 < digVar f)%Q).
  { unfold extractKS.
    assert (El : (length (List.filter qualifying (ksEvents (RAW st_held_1000))) <? 50)%nat
                 = false) by (vm_compute; reflexivity).
    rewrite El. eexists. split; [reflexivity|]. cbn [digVar]. vm_compute. reflexivity. }
  split; [vm_compute; reflexivity|]. split; [exact H1|]. split; [exact H2|].
  destruct H1 as [f1 [E1 Hz]], H2 as [f2 [E2 Hp]]. rewrite E1, E2.
  intros E. injection E as E. rewrite E in Hp. rewrite Hz in Hp. discriminate Hp.
Qed.

Lemma extractKS_qualifying_events_witness :
  length (ksEvents (RAW st_49_and_1000)) = 50%nat
  /\ extractKS sqrt_6 (RAW st_49_and_1000) = None
  /\ (exists f, extractKS sqrt_6 (RAW st_typed) = Some f /\ ks_n f = 60)
  /\ option_map without_digVar (extractKS sqrt_6 (RAW st_held_1000))
     = option_map without_digVar (extractKS sqrt_6 (RAW st_held_1001)).
Proof.
  split; [reflexivity|]. split; [|split].
  - destruct (extractKS_qualifying_events sqrt_6 (RAW st_49_and_1000))
      as [_ [_ [_ [_ [H _]]]]].
    apply H. vm_compute. lia.
  - destruct (extractKS_qualifying_events sqrt_6 (RAW st_typed))
      as [_ [_ [_ [_ [_ H]]]]].
    destruct H as [f [H1 H2]]; [vm_compute; lia|].
    exists f. split; [exact H1|]. rewrite H2. reflexivity.
  - destruct (extractKS_qualifying_events sqrt_6 (RAW st_held_1001))
      as [_ [_ [H _]]].
    apply H. vm_compute. reflexivity.
Defined.

Lemma calcTrustScore_without_inputs_witness :
  calcTrustScore sqrt_6 atan2_approx log2_floor 10 3 st_on = None
  /\ calcTrustScore sqrt_6 atan2_approx log2_floor 10 3 st_scored = None
  /\ calcTrustScore sqrt_6 atan2_approx log2_floor 10 3 st_idle = Some (num 80).
Proof.
  split; [|split].
  - apply (calcTrustScore_without_inputs sqrt_6 atan2_approx log2_floor 10 3 st_on).
    reflexivity.
  - destruct (calcTrustScore_without_inputs sqrt_6 atan2_approx log2_floor 10 3 st_scored)
      as [_ [H _]].
    apply (H doc_empty); reflexivity.
  - destruct (calcTrustScore_without_inputs sqrt_6 atan2_approx log2_floor 10 3 st_idle)
      as [_ [_ H]].
    apply (H p_trained
             (features_doc
                (current_features sqrt_6 atan2_approx log2_floor (RAW st_mouse))));
      reflexivity.
Defined.

Lemma checkTrainingProgress_transitions_witness :
  (activeTime (SESSION (checkTrainingProgress sqrt_6 atan2_approx log2_floor
                          "00ff00ff00ff" 9000 (at_progress 1800000 quick st_on))) = 0
   /\ phase (SESSION (checkTrainingProgress sqrt_6 atan2_approx log2_floor
                        "00ff00ff00ff" 9000 (at_progress 1800000 quick st_on)))
      = intermediate)
  /\ checkTrainingProgress sqrt_6 atan2_approx log2_floor
       "00ff00ff00ff" 9000 (at_progress 7200000 intermediate st_on)
     = at_progress 7200000 intermediate st_on
  /\ exists p,
       profile (SESSION (checkTrainingProgress sqrt_6 atan2_approx log2_floor
                           "00ff00ff00ff" 9000 (at_progress 7200000 intermediate st_mouse)))
         = Some p
       /\ v p = Some "3.0"
       /\ phase (SESSION (checkTrainingProgress sqrt_6 atan2_approx log2_floor
                            "00ff00ff00ff" 9000 (at_progress 7200000 intermediate st_mouse)))
          = complete.
Proof.
  split; [|split].
  - destruct (checkTrainingProgress_transitions sqrt_6 atan2_approx log2_floor
                "00ff00ff00ff" 9000 (at_progress 1800000 quick st_on)) as [H _].
    destruct H as [H1 [H2 _]]; [reflexivity | vm_compute; discriminate |].
    split; [exact H1 | exact H2].
  - destruct (checkTrainingProgress_transitions sqrt_6 atan2_approx log2_floor
                "00ff00ff00ff" 9000 (at_progress 7200000 intermediate st_on))
      as [_ [H _]].
    apply H; [reflexivity | vm_compute; discriminate | reflexivity | reflexivity].
  - destruct (checkTrainingProgress_transitions sqrt_6 atan2_approx log2_floor
                "00ff00ff00ff" 9000 (at_progress 7200000 intermediate st_mouse))
      as [_ [_ H]].
    destruct H as [p [H1 [H2 [_ [_ H5]]]]];
      [reflexivity | vm_compute; discriminate
       | right; apply extractMouse_present; apply Nat.leb_le; reflexivity |].
    exists p. auto.
Defined.

Lemma trust_channel_deviations_witness :
  calcTrustScore sqrt_6 atan2_approx log2_floor 10 3 st_trained
  = Some (js_max (num 0)
            (js_min (num 100)
               (num 100
                - risk_of (score_parts
                             (current_features sqrt_6 atan2_approx log2_floor (RAW st_trained))
                             (features_doc
                                (current_features sqrt_6 atan2_approx log2_floor
                                   (RAW st_mouse))))
                  * num (time_adj 10 3))%js))
  /\ mouse_part cur_mouse (mouse_doc base_mouse)
     = num_part
         (_mean [(Qmin 1 (Qabs (610 - 610) / 610) * 100)%Q;
                 (Qmin 1 (Qabs ((386 # 1000) - (386 # 1000))) * 100)%Q;
                 (Qmin 1 (Qabs ((1 # 2) - 0)) * 100)%Q],
          3 # 10).
Proof.
  destruct (trust_channel_deviations sqrt_6 atan2_approx log2_floor 10 3 st_trained
              (current_features sqrt_6 atan2_approx log2_floor (RAW st_trained))
              (features_doc
                 (current_features sqrt_6 atan2_approx log2_floor (RAW st_mouse))))
    as [_ [Hm [_ [_ [_ [_ H]]]]]].
  split.
  - apply (H p_trained).
    + reflexivity.
    + reflexivity.
    + right. apply extractMouse_present. apply Nat.leb_le. reflexivity.
    + apply score_parts_mouse.
      * apply extractMouse_present. apply Nat.leb_le. reflexivity.
      * cbn [features_doc mouse]. intros E.
        apply (extractMouse_present sqrt_6 atan2_approx log2_floor (RAW st_mouse));
          [apply Nat.leb_le; reflexivity|].
        destruct (extractMouse sqrt_6 atan2_approx log2_floor (RAW st_mouse));
          [discriminate E | reflexivity].
  - exact (Hm cur_mouse (mouse_doc base_mouse) (386 # 1000)%Q 0%Q eq_refl eq_refl).
Defined.


Lemma detectBot_rules_witness :
  isBot (detectBot atan2_approx (Some ks_scripted) (Some mouse_straight) (RAW st_typed))
  = true
  /\ confidence (detectBot atan2_approx (Some ks_scripted) (Some mouse_straight)
                   (RAW st_typed)) = 100.
Proof.
  destruct (detectBot_rules atan2_approx (Some ks_scripted) (Some mouse_straight)
              (RAW st_typed)) as [_ [H1 [H2 _]]].
  split.
  - apply H1. vm_compute. discriminate.
  - rewrite H2. reflexivity.
Defined.

(** * Further properties of the main process *)

(** ** Bounded buffers *)

Lemma push_bounded_length {A} (n : nat) (a : list A) (x : A) :
  (1 <= n)%nat -> (length a <= n)%nat ->
  (length (push_bounded (Z.of_nat n) a x) <= n)%nat.
Proof.
  intros Hn Ha. unfold push_bounded.
  destruct (Z.of_nat n <? Z.of_nat (length (a ++ [x]))) eqn:E.
  - destruct a as [|y a]; simpl in *; [lia|]. rewrite length_app. simpl. lia.
  - apply Z.ltb_ge in E. lia.
Qed.

(** On a full buffer the push evicts the oldest entry and keeps the order. *)
Lemma push_bounded_full {A} (n : nat) (a : list A) (x : A) :
  length a = n -> (1 <= n)%nat ->
  push_bounded (Z.of_nat n) a x = tl a ++ [x].
Proof.
  intros Ha Hn. unfold push_bounded.
  destruct (Z.of_nat n <? Z.of_nat (length (a ++ [x]))) eqn:E.
  - destruct a as [|y a]; [simpl in Ha; lia | reflexivity].
  - apply Z.ltb_ge in E. rewrite length_app in E. simpl in E. lia.
Qed.

(** Below capacity the push only appends. *)
Lemma push_bounded_room {A} (n : nat) (a : list A) (x : A) :
  (length a < n)%nat -> push_bounded (Z.of_nat n) a x = a ++ [x].
Proof.
  intros Ha. unfold push_bounded.
  destruct (Z.of_nat n <? Z.of_nat (length (a ++ [x]))) eqn:E; [|reflexivity].
  apply Z.ltb_lt in E. rewrite length_app in E. simpl in E. lia.
Qed.

Lemma map_get_Forall {V} (P : V -> Prop) (k : string) (m : jsmap V) (x : V) :
  Forall (fun e => P (snd e)) m -> map_get k m = Some x -> P x.
Proof.
  induction 1 as [|[k' y] m' Hy Hm IH]; simpl; [discriminate|].
  destruct (String.eqb k k'); [intros [= <-]; exact Hy | exact IH].
Qed.

Lemma map_set_Forall {V} (P : V -> Prop) (k : string) (x : V) (m : jsmap V) :
  Forall (fun e => P (snd e)) m -> P x ->
  Forall (fun e => P (snd e)) (map_set k x m).
Proof.
  intros Hm Hx. induction Hm as [|[k' y] m' Hy Hm IH]; simpl.
  - constructor; [exact Hx | constructor].
  - destruct (String.eqb k k'); constructor; auto.
Qed.

Lemma record_interval_bounded (h : string) (x : Z) (m : jsmap (list Z)) :
  Forall (fun e => (length (snd e) <= 30)%nat) m ->
  Forall (fun e => (length (snd e) <= 30)%nat) (record_interval h x m).
Proof.
  intros Hm. unfold record_interval.
  apply (map_set_Forall (fun l => (length l <= 30)%nat)); [exact Hm|].
  apply (push_bounded_length 30); [lia|].
  destruct (map_get h m) as [l|] eqn:E; simpl; [|lia].
  exact (map_get_Forall (fun l => (length l <= 30)%nat) h m l Hm E).
Qed.

Lemma digraph_step_bounded (evs : list KeyEvent) (kc dn : Z) (m : jsmap (list Z)) :
  Forall (fun e => (length (snd e) <= 30)%nat) m ->
  Forall (fun e => (length (snd e) <= 30)%nat) (digraph_step evs kc dn m).
Proof.
  intros Hm. unfold digraph_step.
  destruct (2 <=? length evs)%nat; [|exact Hm].
  destruct (nth_error evs (length evs - 2)); [|exact Hm].
  now apply record_interval_bounded.
Qed.

Lemma trigraph_step_bounded (evs : list KeyEvent) (kc dn : Z) (m : jsmap (list Z)) :
  Forall (fun e => (length (snd e) <= 30)%nat) m ->
  Forall (fun e => (length (snd e) <= 30)%nat) (trigraph_step evs kc dn m).
Proof.
  intros Hm. unfold trigraph_step.
  destruct (3 <=? length evs)%nat; [|exact Hm].
  destruct (slice_last 3 evs) as [|a [|b l]]; try exact Hm.
  now apply record_interval_bounded.
Qed.

Lemma onKeyDown_bounded (now t kc : Z) (st : State) :
  buffers_bounded (RAW st) -> buffers_bounded (RAW (onKeyDown now t kc st)).
Proof.
  intros H. unfold onKeyDown. destruct (capturing st); [|exact H].
  cbn [negb]. rewrite markActivity_RAW.
  destruct (keydowns (RAW st) !! kc); exact H.
Qed.

Lemma onKeyUp_bounded (now t kc : Z) (st : State) :
  buffers_bounded (RAW st) -> buffers_bounded (RAW (onKeyUp now t kc st)).
Proof.
  intros H. unfold onKeyUp. destruct (capturing st); [|exact H].
  cbn [negb]. rewrite markActivity_RAW.
  destruct (keydowns (RAW st) !! kc) as [dn|]; [|exact H].
  destruct H as [H1 [H2 [H3 [H4 [H5 [H6 H7]]]]]].
  destruct ((t - dn <? 1) || (1000 <? t - dn)); unfold buffers_bounded; cbn.
  - auto 10.
  - repeat split; auto.
    + apply (push_bounded_length 3000); [lia | exact H1].
    + now apply digraph_step_bounded.
    + now apply trigraph_step_bounded.
Qed.

Lemma onMouseMove_bounded (sqrt : Q -> Q) (now t x y : Z) (st : State) :
  buffers_bounded (RAW st) -> buffers_bounded (RAW (onMouseMove sqrt now t x y st)).
Proof.
  intros H. unfold onMouseMove. destruct (capturing st); [|exact H].
  cbn [negb]. rewrite markActivity_RAW.
  destruct H as [H1 [H2 [H3 [H4 [H5 [H6 H7]]]]]].
  assert (Hm : forall ev, (length (push_bounded 2000 (mouseEvts (RAW st)) ev) <= 2000)%nat)
    by (intros ev; apply (push_bounded_length 2000); [lia | exact H2]).
  assert (Hj : forall j, (length (push_bounded 200 (jitterBuf (RAW st)) j) <= 200)%nat)
    by (intros j; apply (push_bounded_length 200); [lia | exact H5]).
  destruct (last (mouseEvts (RAW st))) as [p|].
  - destruct (Qltb 0 (inject_Z (t - m_t p) / 1000)
              && Qltb (inject_Z (t - m_t p) / 1000) (1 # 2)).
    + destruct (m_v p); unfold buffers_bounded; cbn; repeat split; auto.
    + unfold buffers_bounded; cbn; repeat split; auto.
  - unfold buffers_bounded; cbn; repeat split; auto.
Qed.

Lemma onClick_bounded (now t x y b : Z) (st : State) :
  buffers_bounded (RAW st) -> buffers_bounded (RAW (onClick now t x y b st)).
Proof.
  intros H. unfold onClick. destruct (capturing st); [|exact H].
  cbn [negb]. rewrite markActivity_RAW.
  destruct H as [H1 [H2 [H3 [H4 [H5 [H6 H7]]]]]].
  unfold buffers_bounded; cbn; repeat split; auto.
  apply (push_bounded_length 500); [lia | exact H3].
Qed.

Lemma onWheel_bounded (now t rot : Z) (st : State) :
  buffers_bounded (RAW st) -> buffers_bounded (RAW (onWheel now t rot st)).
Proof.
  intros H. unfold onWheel. destruct (capturing st); [|exact H].
  cbn [negb]. rewrite markActivity_RAW.
  destruct H as [H1 [H2 [H3 [H4 [H5 [H6 H7]]]]]].
  unfold buffers_bounded; cbn; repeat split; auto.
  apply (push_bounded_length 300); [lia | exact H4].
Qed.

Lemma dispatch_keeps_buffers_bounded_one (sqrt : Q -> Q) (e : InputEvent) (st : State) :
  buffers_bounded (RAW st) -> buffers_bounded (RAW (dispatch sqrt st e)).
Proof.
  intros H. destruct e; cbn [dispatch].
  - now apply onKeyDown_bounded.
  - now apply onKeyUp_bounded.
  - now apply onMouseMove_bounded.
  - now apply onClick_bounded.
  - now apply onWheel_bounded.
Qed.

(** X1. Whatever stream of input events is handled, every raw buffer stays
    within its capacity: 3000 key events, 2000 mouse samples, 500 clicks,
    300 scrolls, 200 jitter samples, 30 intervals per digraph and per
    trigraph. *)
Theorem dispatch_keeps_buffers_bounded
    (sqrt : Q -> Q) (events : list InputEvent) (st : State) :
  buffers_bounded (RAW st) ->
  buffers_bounded (RAW (fold_left (dispatch sqrt) events st)).
Proof.
  revert st. induction events as [|e es IH]; intros st H; [exact H|].
  cbn [fold_left]. apply IH. now apply dispatch_keeps_buffers_bounded_one.
Qed.

Lemma dispatch_keeps_buffers_bounded_witness :
  buffers_bounded (RAW st_on)
  /\ buffers_bounded
       (RAW (fold_left (dispatch sqrt_6)
               [EvKeyDown 2000 2000 65; EvKeyUp 2010 2010 65;
                EvMouseMove 2020 2020 10 10; EvMouseMove 2040 2040 13 14;
                EvClick 2050 2050 13 14 1; EvWheel 2060 2060 3] st_on)).
Proof.
  assert (H : buffers_bounded (RAW st_on)).
  { unfold buffers_bounded. cbn. repeat split; try lia; constructor. }
  split; [exact H|].
  apply (dispatch_keeps_buffers_bounded sqrt_6 _ st_on H).
Defined.


(** X2. First in, first out: a retained key-up on a full buffer of 3000 key
    events drops the oldest event and appends the new one, and a click on a
    full buffer of 500 clicks does the same; below capacity nothing is
    dropped. *)
Theorem full_buffers_evict_oldest (now t kc dn x y b : Z) (st : State) :
  capturing st = true ->
  (keydowns (RAW st) !! kc = Some dn -> 1 <= t - dn <= 1000 ->
     (length (ksEvents (RAW st)) = 3000%nat ->
        ksEvents (RAW (onKeyUp now t kc st))
        = tl (ksEvents (RAW st)) ++ [key_event_of (RAW st) kc dn t])
     /\ ((length (ksEvents (RAW st)) < 3000)%nat ->
           ksEvents (RAW (onKeyUp now t kc st))
           = ksEvents (RAW st) ++ [key_event_of (RAW st) kc dn t]))
  /\ (length (clicks (RAW st)) = 500%nat ->
        clicks (RAW (onClick now t x y b st))
        = tl (clicks (RAW st))
          ++ [{| c_x := x; c_y := y; c_t := t; c_btn := b; c_nonce := nonce (RAW st) |}])
  /\ ((length (clicks (RAW st)) < 500)%nat ->
        clicks (RAW (onClick now t x y b st))
        = clicks (RAW st)
          ++ [{| c_x := x; c_y := y; c_t := t; c_btn := b; c_nonce := nonce (RAW st) |}]).
Proof.
  intros Hcap. split; [|split].
  - intros Hdn Hd.
    destruct (onKeyUp_retained now t kc dn st Hcap Hdn Hd) as [E _]. rewrite E.
    split; intros Hlen.
    + apply (push_bounded_full 3000); [exact Hlen | lia].
    + apply (push_bounded_room 3000); exact Hlen.
  - intros Hlen. unfold onClick. rewrite Hcap. cbn.
    apply (push_bounded_full 500); [exact Hlen | lia].
  - intros Hlen. unfold onClick. rewrite Hcap. cbn.
    apply (push_bounded_room 500); exact Hlen.
Qed.

Lemma full_buffers_evict_oldest_witness :
  ksEvents (RAW (onKeyUp 2010 2010 65 st_pending))
  = ksEvents (RAW st_pending) ++ [key_event_of (RAW st_pending) 65 2000 2010]
  /\ clicks (RAW (onClick 60000 60000 7 7 1 st_clicks_full))
     = tl (clicks (RAW st_clicks_full))
       ++ [{| c_x := 7; c_y := 7; c_t := 60000; c_btn := 1;
              c_nonce := nonce (RAW st_clicks_full) |}]
  /\ clicks (RAW (onClick 60000 60000 7 7 1 st_clicks))
     = clicks (RAW st_clicks)
       ++ [{| c_x := 7; c_y := 7; c_t := 60000; c_btn := 1;
              c_nonce := nonce (RAW st_clicks) |}].
Proof.
  split; [|split].
  - destruct (full_buffers_evict_oldest 2010 2010 65 2000 0 0 0 st_pending)
      as [H _]; [reflexivity|].
    destruct H as [_ H]; [reflexivity | lia |].
    apply H. apply Nat.ltb_lt. reflexivity.
  - destruct (full_buffers_evict_oldest 60000 60000 65 2000 7 7 1 st_clicks_full)
      as [_ [H _]]; [vm_compute; reflexivity|].
    exact (H ltac:(vm_compute; reflexivity)).
  - destruct (full_buffers_evict_oldest 60000 60000 65 2000 7 7 1 st_clicks)
      as [_ [_ H]]; [reflexivity|].
    apply H. apply Nat.ltb_lt. reflexivity.
Defined.


(** X3. With monitoring off or the [enabled] setting off, no input event
    changes anything: the whole state after any stream of events is the
    state before. *)
Theorem dispatch_gated (sqrt : Q -> Q) (events : list InputEvent) (st : State) :
  capturing st = false -> fold_left (dispatch sqrt) events st = st.
Proof.
  intros Hcap. induction events as [|e es IH]; [reflexivity|].
  cbn [fold_left].
  assert (E : dispatch sqrt st e = st).
  { destruct e; cbn [dispatch];
      unfold onKeyDown, onKeyUp, onMouseMove, onClick, onWheel;
      rewrite Hcap; reflexivity. }
  rewrite E. exact IH.
Qed.

Lemma dispatch_gated_witness :
  fold_left (dispatch sqrt_6)
    [EvKeyDown 2000 2000 65; EvKeyUp 2010 2010 65; EvMouseMove 2020 2020 10 10;
     EvClick 2050 2050 13 14 1; EvWheel 2060 2060 3] st_off
  = st_off.
Proof. apply (dispatch_gated sqrt_6 _ st_off). reflexivity. Defined.


Lemma onKeyDown_pending (now t kc dn : Z) (st : State) :
  keydowns (RAW st) !! kc = Some dn ->
  RAW (onKeyDown now t kc st) = RAW st.
Proof.
  intros H. unfold onKeyDown. destruct (capturing st); [|reflexivity].
  cbn [negb]. rewrite markActivity_RAW, H. reflexivity.
Qed.

Lemma onKeyDown_records (now t kc : Z) (st : State) :
  capturing st = true -> keydowns (RAW st) !! kc = None ->
  keydowns (RAW (onKeyDown now t kc st)) = <[kc := t]> (keydowns (RAW st))
  /\ ksEvents (RAW (onKeyDown now t kc st)) = ksEvents (RAW st)
  /\ lastRelease (RAW (onKeyDown now t kc st)) = lastRelease (RAW st)
  /\ nonce (RAW (onKeyDown now t kc st)) = nonce (RAW st).
Proof.
  intros Hcap H. unfold onKeyDown. rewrite Hcap. cbn [negb].
  rewrite markActivity_RAW, H. cbn. auto.
Qed.

(** X4. Only the first press of a key counts: once a press of [kc] is
    pending since [t0], any run of further key-downs of [kc] (key repeat)
    leaves the raw state unchanged, so the dwell of the key-up is measured
    from [t0]. *)
Theorem key_repeat_keeps_first_press
    (now0 t0 kc : Z) (repeats : list (Z * Z)) (st : State) :
  capturing st = true -> keydowns (RAW st) !! kc = None ->
  RAW (press_keys (map (fun p => (fst p, snd p, kc)) repeats)
         (onKeyDown now0 t0 kc st))
  = RAW (onKeyDown now0 t0 kc st)
  /\ keydowns (RAW (press_keys (map (fun p => (fst p, snd p, kc)) repeats)
                      (onKeyDown now0 t0 kc st))) !! kc = Some t0.
Proof.
  intros Hcap Hnone.
  destruct (onKeyDown_records now0 t0 kc st Hcap Hnone) as [Hk _].
  assert (H0 : keydowns (RAW (onKeyDown now0 t0 kc st)) !! kc = Some t0)
    by (rewrite Hk; apply lookup_insert_eq).
  assert (Hrun : forall st1, keydowns (RAW st1) !! kc = Some t0 ->
            RAW (press_keys (map (fun p => (fst p, snd p, kc)) repeats) st1) = RAW st1).
  { induction repeats as [|p ps IH]; intros st1 H1; [reflexivity|].
    unfold press_keys in *. cbn [map fold_left fst snd].
    rewrite IH; rewrite (onKeyDown_pending _ _ kc t0 st1 H1); auto. }
  split; [apply Hrun; exact H0|]. rewrite (Hrun _ H0). exact H0.
Qed.

Lemma key_repeat_keeps_first_press_witness :
  keydowns (RAW (press_keys [(2030, 2030, 65); (2060, 2060, 65)]
                   (onKeyDown 2000 2000 65 st_on))) !! 65
  = Some 2000.
Proof.
  apply (key_repeat_keeps_first_press 2000 2000 65 [(2030, 2030); (2060, 2060)] st_on);
    reflexivity.
Defined.


(** X5. A press and release of a key that was not pending leave the
    pending-press map as it was and set the last-release time; when the
    dwell [t' - t] is within [1,1000] the event appended has that dwell and
    the press time as its time stamp. *)
Theorem press_release_round_trip (now t now' t' kc : Z) (st : State) :
  capturing st = true -> keydowns (RAW st) !! kc = None ->
  keydowns (RAW (onKeyUp now' t' kc (onKeyDown now t kc st))) = keydowns (RAW st)
  /\ lastRelease (RAW (onKeyUp now' t' kc (onKeyDown now t kc st))) = Some t'
  /\ (1 <= t' - t <= 1000 ->
      exists ev,
        last (ksEvents (RAW (onKeyUp now' t' kc (onKeyDown now t kc st)))) = Some ev
        /\ k_kc ev = kc /\ k_dwell ev = t' - t /\ k_ts ev = t
        /\ k_nonce ev = nonce (RAW st)).
Proof.
  intros Hcap Hnone.
  destruct (onKeyDown_records now t kc st Hcap Hnone) as [Hk [_ [_ Hn]]].
  assert (Hcap' : capturing (onKeyDown now t kc st) = true)
    by (rewrite onKeyDown_capturing; exact Hcap).
  assert (Hdn : keydowns (RAW (onKeyDown now t kc st)) !! kc = Some t)
    by (rewrite Hk; apply lookup_insert_eq).
  destruct (onKeyUp_resolves now' t' kc t _ Hcap' Hdn) as [Hk' [Hl _]].
  split.
  - rewrite Hk', Hk. rewrite delete_insert_eq. now apply delete_id.
  - split; [exact Hl|]. intros Hd.
    destruct (onKeyUp_retained now' t' kc t _ Hcap' Hdn Hd) as [_ Hlast].
    eexists. split; [exact Hlast|]. cbn. rewrite Hn. auto.
Qed.

Lemma press_release_round_trip_witness :
  keydowns (RAW (onKeyUp 2010 2010 65 (onKeyDown 2000 2000 65 st_on)))
  = keydowns (RAW st_on)
  /\ exists ev,
       last (ksEvents (RAW (onKeyUp 2010 2010 65 (onKeyDown 2000 2000 65 st_on))))
       = Some ev
       /\ k_dwell ev = 10.
Proof.
  destruct (press_release_round_trip 2000 2000 2010 2010 65 st_on)
    as [H1 [_ H2]]; [reflexivity | reflexivity |].
  split; [exact H1|].
  destruct H2 as [ev [He [_ [Hd _]]]]; [lia|].
  exists ev. split; [exact He|]. rewrite Hd. reflexivity.
Defined.


(** ** Digraph and trigraph tables *)

Lemma map_get_set_eq {V} (k : string) (x : V) (m : jsmap V) :
  map_get k (map_set k x m) = Some x.
Proof.
  induction m as [|[k' y] m IH]; simpl.
  - rewrite String.eqb_refl. reflexivity.
  - destruct (String.eqb k k') eqn:E; simpl; rewrite E; [reflexivity | exact IH].
Qed.

Lemma map_get_set_ne {V} (k k' : string) (x : V) (m : jsmap V) :
  k <> k' -> map_get k' (map_set k x m) = map_get k' m.
Proof.
  intros Hne. induction m as [|[k0 y] m IH]; simpl.
  - destruct (String.eqb k' k) eqn:E; [|reflexivity].
    apply String.eqb_eq in E. congruence.
  - destruct (String.eqb k k0) eqn:E; simpl.
    + apply String.eqb_eq in E. subst k0.
      destruct (String.eqb k' k) eqn:E'; [|reflexivity].
      apply String.eqb_eq in E'. congruence.
    + rewrite IH. reflexivity.
Qed.

(** [Map.prototype.set] adds a key at most once: the size grows by one for
    a new key and not at all for a known one. *)
Lemma map_set_size {V} (k : string) (x : V) (m : jsmap V) :
  length (map_set k x m)
  = match map_get k m with Some _ => length m | None => S (length m) end.
Proof.
  induction m as [|[k' y] m IH]; simpl; [reflexivity|].
  destruct (String.eqb k k'); simpl; [reflexivity|].
  rewrite IH. destruct (map_get k m); reflexivity.
Qed.

Lemma push_bounded_previous {A} (n : nat) (a : list A) (prev x : A) :
  (2 <= n)%nat -> last a = Some prev ->
  nth_error (push_bounded (Z.of_nat n) a x)
            (length (push_bounded (Z.of_nat n) a x) - 2) = Some prev
  /\ (2 <= length (push_bounded (Z.of_nat n) a x))%nat.
Proof.
  intros Hn Hlast.
  apply last_Some in Hlast. destruct Hlast as [init ->].
  unfold push_bounded.
  destruct (Z.of_nat n <? Z.of_nat (length ((init ++ [prev]) ++ [x]))) eqn:E.
  - apply Z.ltb_lt in E. rewrite !length_app in E. simpl in E.
    destruct init as [|y init]; [simpl in E; lia|].
    cbn [app tl]. rewrite <- app_assoc. cbn [app].
    rewrite length_app. cbn [length].
    replace (length init + 2 - 2)%nat with (length init + 0)%nat by lia.
    split; [|lia]. rewrite nth_error_app2 by lia.
    replace (length init + 0 - length init)%nat with 0%nat by lia. reflexivity.
  - rewrite <- app_assoc. cbn [app]. rewrite length_app. cbn [length].
    replace (length init + 2 - 2)%nat with (length init + 0)%nat by lia.
    split; [|lia]. rewrite nth_error_app2 by lia.
    replace (length init + 0 - length init)%nat with 0%nat by lia. reflexivity.
Qed.

(** X6. A retained key-up of [kc] that follows a buffered event of key
    [prev] files the interval between the two press times under the key
    ["prev_kc"] of the digraph table, as the newest of at most 30 entries,
    and leaves the history of every other digraph as it was. *)
Theorem onKeyUp_files_digraph (now t kc dn : Z) (prev : KeyEvent) (st : State) :
  capturing st = true ->
  keydowns (RAW st) !! kc = Some dn -> 1 <= t - dn <= 1000 ->
  last (ksEvents (RAW st)) = Some prev ->
  (exists l,
     map_get (_hashPair (num_str (k_kc prev)) (num_str kc))
             (digraphs (RAW (onKeyUp now t kc st))) = Some l
     /\ last l = Some (dn - k_ts prev)
     /\ l = push_bounded 30
              (default [] (map_get (_hashPair (num_str (k_kc prev)) (num_str kc))
                                   (digraphs (RAW st))))
              (dn - k_ts prev))
  /\ (forall h, h <> _hashPair (num_str (k_kc prev)) (num_str kc) ->
        map_get h (digraphs (RAW (onKeyUp now t kc st)))
        = map_get h (digraphs (RAW st))).
Proof.
  intros Hcap Hdn Hd Hlast.
  assert (E : digraphs (RAW (onKeyUp now t kc st))
              = record_interval (_hashPair (num_str (k_kc prev)) (num_str kc))
                  (dn - k_ts prev) (digraphs (RAW st))).
  { unfold onKeyUp. rewrite Hcap. cbn [negb]. rewrite markActivity_RAW, Hdn.
    destruct ((t - dn <? 1) || (1000 <? t - dn)) eqn:Ef.
    - apply orb_true_iff in Ef. destruct Ef as [Ef|Ef]; apply Z.ltb_lt in Ef; lia.
    - cbn [RAW with_RAW digraphs]. unfold digraph_step.
      destruct (push_bounded_previous 3000 (ksEvents (RAW st)) prev
                  {| k_kc := kc; k_dwell := t - dn;
                     k_flight := (if truthyZ (lastRelease (RAW st))
                                  then Some (dn - default 0 (lastRelease (RAW st)))
                                  else None);
                     k_ts := dn; k_nonce := nonce (RAW st) |})
        as [Hnth Hlen]; [lia | exact Hlast |].
      change (Z.of_nat 3000) with 3000 in Hnth, Hlen.
      rewrite Hnth.
      apply Nat.leb_le in Hlen. rewrite Hlen. reflexivity. }
  rewrite E. unfold record_interval. split.
  - eexists. split; [apply map_get_set_eq|]. split; [|reflexivity].
    apply last_push_bounded. lia.
  - intros h Hne. apply map_get_set_ne. congruence.
Qed.

Lemma onKeyUp_files_digraph_witness :
  map_get "65_66" (digraphs (RAW (onKeyUp 2030 2030 66 st_second_down))) = Some [20]
  /\ map_get "66_65" (digraphs (RAW (onKeyUp 2030 2030 66 st_second_down)))
     = map_get "66_65" (digraphs (RAW st_second_down)).
Proof.
  destruct (onKeyUp_files_digraph 2030 2030 66 2020
              {| k_kc := 65; k_dwell := 10; k_flight := None; k_ts := 2000;
                 k_nonce := "a1" |} st_second_down)
    as [[l [H1 [_ H2]]] H3]; [reflexivity | reflexivity | lia | reflexivity |].
  split.
  - rewrite H2 in H1. exact H1.
  - apply H3. discriminate.
Defined.


Lemma pretty_N_go_no_sep (x : N) (s : string) :
  has_sep s = false -> has_sep (pretty_N_go x s) = false.
Proof.
  revert s. induction (N.lt_wf_0 x) as [x _ IH]; intros s Hs.
  assert (x = 0 \/ 0 < x)%N as [->|Hx] by lia.
  - rewrite pretty_N_go_0. exact Hs.
  - rewrite pretty_N_go_step by exact Hx. apply IH.
    + apply N.div_lt; [exact Hx | reflexivity].
    + cbn [has_sep]. rewrite Hs. unfold pretty_N_char.
      repeat case_match; reflexivity.
Qed.

Lemma num_str_no_sep (n : Z) : has_sep (num_str n) = false.
Proof.
  unfold num_str, pretty, pretty_Z. destruct n as [|p|p]; [reflexivity| |].
  - unfold pretty, pretty_positive, pretty, pretty_N.
    case_decide; [reflexivity|]. now apply pretty_N_go_no_sep.
  - cbn [String.append has_sep]. cbn.
    unfold pretty, pretty_positive, pretty, pretty_N.
    case_decide; [reflexivity|]. now apply pretty_N_go_no_sep.
Qed.

Lemma hashPair_split (a a' b b' : string) :
  has_sep a = false -> has_sep a' = false ->
  _hashPair a b = _hashPair a' b' -> a = a' /\ b = b'.
Proof.
  unfold _hashPair. revert a'.
  induction a as [|c a IH]; intros [|c' a'] Ha Ha' E; cbn in *.
  - injection E as E. auto.
  - injection E as Ec E. subst c'. cbn in Ha'. discriminate.
  - injection E as Ec E. subst c. cbn in Ha. discriminate.
  - injection E as Ec E. subst c'.
    apply orb_false_iff in Ha, Ha'.
    destruct (IH a' (proj2 Ha) (proj2 Ha') E) as [-> ->]. auto.
Qed.

Lemma string_append_assoc (a b c : string) :
  (a +:+ b) +:+ c = a +:+ (b +:+ c).
Proof.
  induction a as [|x a IH]; [reflexivity|].
  change (String x ((a +:+ b) +:+ c) = String x (a +:+ (b +:+ c))).
  now rewrite IH.
Qed.

Lemma num_str_inj (a b : Z) : num_str a = num_str b -> a = b.
Proof. unfold num_str. apply pretty_Z_inj. Qed.

(** X7. The keys of the digraph and trigraph tables never collide: two
    different pairs of key codes have different digraph keys, and two
    different triples have different trigraph keys. *)
Theorem hash_keys_distinct (a b c a' b' c' : Z) :
  ((a, b) <> (a', b') ->
   _hashPair (num_str a) (num_str b) <> _hashPair (num_str a') (num_str b'))
  /\ ((a, b, c) <> (a', b', c') ->
      _hashPair (_hashPair (num_str a) (num_str b)) (num_str c)
      <> _hashPair (_hashPair (num_str a') (num_str b')) (num_str c')).
Proof.
  split.
  - intros Hne E. apply hashPair_split in E; auto using num_str_no_sep.
    destruct E as [Ea Eb]. apply num_str_inj in Ea, Eb. congruence.
  - intros Hne E.
    assert (E' : _hashPair (num_str a) (_hashPair (num_str b) (num_str c))
                 = _hashPair (num_str a') (_hashPair (num_str b') (num_str c'))).
    { unfold _hashPair in *. rewrite !string_append_assoc in E.
      cbn [String.append] in E. exact E. }
    apply hashPair_split in E'; auto using num_str_no_sep.
    destruct E' as [Ea E'].
    apply hashPair_split in E'; auto using num_str_no_sep.
    destruct E' as [Eb Ec]. apply num_str_inj in Ea, Eb, Ec. congruence.
Qed.

Lemma hash_keys_distinct_witness :
  _hashPair (num_str 6) (num_str 566) <> _hashPair (num_str 65) (num_str 66)
  /\ _hashPair (_hashPair (num_str 1) (num_str 23)) (num_str 4)
     <> _hashPair (_hashPair (num_str 12) (num_str 3)) (num_str 4).
Proof.
  destruct (hash_keys_distinct 6 566 0 65 66 0) as [H1 _].
  destruct (hash_keys_distinct 1 23 4 12 3 4) as [_ H2].
  split; [apply H1 | apply H2]; discriminate.
Defined.


(** ** Invariants of a run *)

Lemma Forall_push_bounded {A} (P : A -> Prop) (cap : Z) (a : list A) (x : A) :
  Forall P a -> P x -> Forall P (push_bounded cap a x).
Proof.
  intros Ha Hx. unfold push_bounded.
  assert (H : Forall P (a ++ [x])) by (apply Forall_app; auto).
  destruct (cap <? Z.of_nat (length (a ++ [x]))); [|exact H].
  destruct (a ++ [x]); [constructor|]. now inversion H.
Qed.

Lemma markActivity_same (now : Z) (s : Session) : same_verdict s (markActivity now s).
Proof. unfold markActivity, same_verdict. destruct (isTraining s) eqn:E; cbn; auto. Qed.

Lemma dispatch_frame (sqrt : Q -> Q) (e : InputEvent) (st : State) :
  same_verdict (SESSION st) (SESSION (dispatch sqrt st e))
  /\ ALERTS (dispatch sqrt st e) = ALERTS st
  /\ store (dispatch sqrt st e) = store st
  /\ SETTINGS (dispatch sqrt st e) = SETTINGS st
  /\ isMonitoring (dispatch sqrt st e) = isMonitoring st
  /\ nonce (RAW (dispatch sqrt st e)) = nonce (RAW st).
Proof.
  assert (Hid : same_verdict (SESSION st) (SESSION st))
    by (unfold same_verdict; auto).
  destruct e; cbn [dispatch];
    unfold onKeyDown, onKeyUp, onMouseMove, onClick, onWheel;
    destruct (capturing st); cbn [negb]; auto 10;
    rewrite ?markActivity_RAW; repeat case_match;
    cbn; auto 10 using markActivity_same.
Qed.

Lemma dispatch_clean (sqrt : Q -> Q) (e : InputEvent) (st : State) :
  key_events_clean (RAW st) -> key_events_clean (RAW (dispatch sqrt st e)).
Proof.
  intros H. unfold key_events_clean in *.
  destruct e; cbn [dispatch];
    unfold onKeyDown, onKeyUp, onMouseMove, onClick, onWheel;
    destruct (capturing st); cbn [negb]; auto;
    rewrite ?markActivity_RAW; repeat case_match; cbn; auto.
  all: apply Forall_push_bounded; [exact H|]; cbn.
  all: match goal with E : _ || _ = false |- _ =>
         apply orb_false_iff in E; destruct E as [E1 E2]; apply Z.ltb_ge in E1, E2
       end.
  all: split; [lia | reflexivity].
Qed.

Lemma dispatch_healthy (sqrt : Q -> Q) (e : InputEvent) (st : State) :
  healthy st -> healthy (dispatch sqrt st e).
Proof.
  intros [H2 H5 H6].
  destruct (dispatch_frame sqrt e st) as [[E1 [E2 [E3 [E4 E5]]]] [Ea [Es _]]].
  constructor.
  - rewrite E2. exact H2.
  - rewrite Ea, Es. exact H5.
  - rewrite E3, E4, Es. exact H6.
Qed.


Lemma dispatch_tidy (sqrt : Q -> Q) (e : InputEvent) (st : State) :
  tidy (RAW st) -> tidy (RAW (dispatch sqrt st e)).
Proof.
  intros [Hb Hc]. split.
  - now apply dispatch_keeps_buffers_bounded_one.
  - now apply dispatch_clean.
Qed.

Lemma addAlert_frame (ts : Z) (ty : AlertType) (sev : Severity) (msg : string)
    (st : State) :
  RAW (addAlert ts ty sev msg st) = RAW st
  /\ SESSION (addAlert ts ty sev msg st) = SESSION st
  /\ SETTINGS (addAlert ts ty sev msg st) = SETTINGS st
  /\ isMonitoring (addAlert ts ty sev msg st) = isMonitoring st
  /\ store_profile (store (addAlert ts ty sev msg st)) = store_profile (store st)
  /\ store_training (store (addAlert ts ty sev msg st)) = store_training (store st).
Proof. unfold addAlert. cbn. auto 10. Qed.

Lemma addAlert_bounded (ts : Z) (ty : AlertType) (sev : Severity) (msg : string)
    (st : State) :
  (length (ALERTS st) <= 200)%nat ->
  (length (ALERTS (addAlert ts ty sev msg st)) <= 200)%nat
  /\ (length (store_alerts (store (addAlert ts ty sev msg st))) <= 100)%nat.
Proof.
  intros H. unfold addAlert. cbn [ALERTS store store_alerts].
  split; [|rewrite length_firstn; lia].
  destruct (200 <? length _)%nat eqn:E.
  - rewrite removelast_firstn_len, length_firstn. cbn [length]. lia.
  - apply Nat.ltb_ge in E. exact E.
Qed.

Lemma addAlert_healthy (ts : Z) (ty : AlertType) (sev : Severity) (msg : string)
    (st : State) :
  healthy st -> healthy (addAlert ts ty sev msg st).
Proof.
  intros [H2 [H5 H5'] H6].
  destruct (addAlert_frame ts ty sev msg st) as [Er [Es [_ [_ [Ep _]]]]].
  constructor; rewrite ?Er, ?Es, ?Ep; auto.
  now apply addAlert_bounded.
Qed.

Lemma addAlert_scored (ts : Z) (ty : AlertType) (sev : Severity) (msg : string)
    (st : State) :
  scored st -> scored (addAlert ts ty sev msg st).
Proof.
  intros [H1 H2 H3].
  destruct (addAlert_frame ts ty sev msg st) as [_ [Es [_ [_ [Ep _]]]]].
  constructor; rewrite ?Es, ?Ep; auto.
Qed.

Lemma set_score_healthy (q : jsnum) (c : Z) (st : State) :
  0 <= c <= 2 ->
  isTraining (SESSION st) = false ->
  healthy st -> healthy (set_score (Some q) c st).
Proof.
  intros Hc Ht [H2 H5 H6].
  constructor; cbn; auto.
Qed.


Lemma saveTrainingProgress_healthy (now : Z) (st : State) :
  healthy st -> healthy (saveTrainingProgress now st).
Proof.
  intros H. unfold saveTrainingProgress.
  destruct (isTraining (SESSION st)); [|exact H].
  destruct H as [H2 H5 H6]. constructor; cbn; auto.
Qed.


Lemma saveTrainingProgress_RAW (now : Z) (st : State) :
  RAW (saveTrainingProgress now st) = RAW st.
Proof. unfold saveTrainingProgress. destruct (isTraining (SESSION st)); reflexivity. Qed.

Lemma monitoring_healthy (b : bool) (st : State) :
  healthy st -> healthy (with_isMonitoring b st).
Proof. intros [H2 H5 H6]. constructor; cbn; auto. Qed.


Lemma resetProfile_healthy (fresh : string) (st : State) :
  healthy (resetProfile fresh st).
Proof.
  constructor; cbn.
  - lia.
  - split; lia.
  - intros _. split; reflexivity.
Qed.


Lemma resetProfile_tidy (fresh : string) (st : State) :
  tidy (RAW (resetProfile fresh st)).
Proof.
  split.
  - unfold buffers_bounded. cbn. repeat split; try lia; constructor.
  - constructor.
Qed.

Lemma import_profile_healthy (paths : list string)
    (parsed : option (option ProfileDoc)) (st : State) :
  healthy st -> healthy (snd (import_profile paths parsed st)).
Proof.
  intros H. unfold import_profile.
  destruct paths; [exact H|]. destruct parsed as [raw|]; [|exact H].
  destruct H as [H2 H5 H6]. constructor; cbn; auto; discriminate.
Qed.


Lemma import_profile_RAW (paths : list string)
    (parsed : option (option ProfileDoc)) (st : State) :
  RAW (snd (import_profile paths parsed st)) = RAW st.
Proof.
  unfold import_profile. destruct paths; [reflexivity|].
  destruct parsed; reflexivity.
Qed.

Lemma restart_load_healthy (nonce0 : string) (now now' load_now : Z) (st : State) :
  healthy st -> healthy (loadProfile load_now (restart nonce0 now now' st)).
Proof.
  intros [_ [_ Ha] _]. unfold loadProfile, restart.
  cbn [store store_profile store_training].
  destruct (store_profile (store st)) as [p|] eqn:Ep.
  - cbn [store]. destruct (store_training (store st)); cbn [SESSION isTraining];
      constructor; cbn; try lia; try (split; lia); discriminate.
  - cbn [store SESSION SESSION_init isTraining].
    destruct (store_training (store st));
      constructor; cbn; try lia; try (split; lia); auto.
Qed.


Section RunFacts.

Variable sqrt : Q -> Q.
Variable atan2 : Q -> Q -> Q.
Variable log2 : Q -> Q.

Lemma checkTrainingProgress_RAW (rnd : string) (now : Z) (st : State) :
  RAW (checkTrainingProgress sqrt atan2 log2 rnd now st) = RAW st.
Proof.
  unfold checkTrainingProgress.
  destruct (Qle_bool 100 (training_pct (SESSION st))); [|reflexivity].
  destruct (Phase_eqb (phase (SESSION st)) quick); [reflexivity|].
  unfold completeTraining.
  destruct (ks (current_features sqrt atan2 log2 (RAW st))),
           (mouse (current_features sqrt atan2 log2 (RAW st))); reflexivity.
Qed.

Lemma checkTrainingProgress_healthy (rnd : string) (now : Z) (st : State) :
  healthy st -> healthy (checkTrainingProgress sqrt atan2 log2 rnd now st).
Proof.
  intros H. unfold checkTrainingProgress.
  destruct (Qle_bool 100 (training_pct (SESSION st))); [|exact H].
  destruct (Phase_eqb (phase (SESSION st)) quick).
  - destruct H as [H2 H5 H6]. constructor; cbn; auto.
  - unfold completeTraining.
    destruct (ks (current_features sqrt atan2 log2 (RAW st))),
             (mouse (current_features sqrt atan2 log2 (RAW st)));
      try exact H;
      destruct H as [H2 [H5 H5'] H6]; constructor; cbn; auto; discriminate.
Qed.

Lemma tick_clock_healthy (now : Z) (st : State) :
  healthy st -> healthy (with_SESSION (tick_clock now (SESSION st)) st).
Proof.
  intros [H2 H5 H6]. constructor; cbn; auto.
Qed.

Lemma tick_RAW (i : TickInput) (st : State) (lk : Lock) :
  RAW (fst (tick sqrt atan2 log2 i st lk)) = RAW st.
Proof.
  unfold tick. destruct (isMonitoring st); cbn [negb]; [|reflexivity].
  destruct (isTraining _); [cbn [fst]; now rewrite checkTrainingProgress_RAW|].
  destruct (calcTrustScore _ _ _ _ _ _); [|reflexivity].
  repeat match goal with
         | |- context [if ?c then _ else _] => destruct c
         end; reflexivity.
Qed.



(** The states that a turn of the loop passes through once a score is
    there: the bot and the replay alert leave the session alone. *)
Lemma tick_alerts_frame (i : TickInput) (score : jsnum) (st0 : State) :
  let st1 := set_score (Some score) (consecutive (SESSION st0)) st0 in
  let bv := detectBot atan2 (extractKS sqrt (RAW st1))
              (extractMouse sqrt atan2 log2 (RAW st1)) (RAW st1) in
  let rv := detectReplay (RAW st1) in
  let st2 := if isBot bv
             then addAlert (tk_bot_ts i) bot sev_critical
                    ("Bot activity: " +:+ join_reasons (reason bv)) st1
             else st1 in
  let st3 := if isReplay rv
             then addAlert (tk_replay_ts i) replay sev_high
                    ("Replay attack: " +:+ default "" (replay_reason rv)) st2
             else st2 in
  SESSION st3 = SESSION st1
  /\ (healthy st1 -> healthy st3)
  /\ (scored st1 -> scored st3).
Proof.
  intros st1 bv rv st2 st3.
  assert (E2 : SESSION st2 = SESSION st1)
    by (unfold st2; destruct (isBot bv); [apply addAlert_frame | reflexivity]).
  assert (E3 : SESSION st3 = SESSION st1).
  { unfold st3. destruct (isReplay rv); [|exact E2].
    rewrite <- E2. apply addAlert_frame. }
  split; [exact E3|]. split; intros H1.
  - assert (H2 : healthy st2)
      by (unfold st2; destruct (isBot bv); [apply addAlert_healthy|]; exact H1).
    unfold st3. destruct (isReplay rv); [apply addAlert_healthy|]; exact H2.
  - assert (H2 : scored st2)
      by (unfold st2; destruct (isBot bv); [apply addAlert_scored|]; exact H1).
    unfold st3. destruct (isReplay rv); [apply addAlert_scored|]; exact H2.
Qed.

Lemma tick_healthy (i : TickInput) (st : State) (lk : Lock) :
  healthy st -> healthy (fst (tick sqrt atan2 log2 i st lk)).
Proof.
  intros H. unfold tick.
  destruct (isMonitoring st); cbn [negb]; [|exact H].
  apply (tick_clock_healthy (tk_now i)) in H.
  set (st0 := with_SESSION (tick_clock (tk_now i) (SESSION st)) st) in *.
  destruct (isTraining (SESSION st0)) eqn:Etr.
  - cbn [fst]. now apply checkTrainingProgress_healthy.
  - destruct (calcTrustScore sqrt atan2 log2 (tk_h i) (tk_day i) st0) as [score|];
      [|exact H].
    assert (Hc := h_counter _ H).
    assert (H1 : healthy (set_score (Some score) (consecutive (SESSION st0)) st0))
      by (apply set_score_healthy; auto).
    destruct (tick_alerts_frame i score st0) as [E3 [H3 _]]. cbv zeta in E3, H3.
    specialize (H3 H1). cbv zeta.
    set (st3 := if isReplay _ then addAlert _ _ _ _ _ else _) in *.
    assert (Et3 : isTraining (SESSION st3) = false) by (rewrite E3; exact Etr).
    assert (Ec3 : consecutive (SESSION st3) = consecutive (SESSION st0))
      by (rewrite E3; reflexivity).
    destruct (js_ltb score (num (threshold (sensitivity (SETTINGS st3))))).
    + destruct (3 <=? consecutive (SESSION st3) + 1) eqn:E3c; cbn [fst].
      * apply set_score_healthy; [lia | | now apply addAlert_healthy].
        destruct (addAlert_frame (tk_anomaly_ts i) anomaly
                    (if js_ltb score (num 20) then sev_critical else sev_high)
                    ("Trust score at " +:+ round_text score +:+ "% for 3+ cycles") st3)
          as [_ [Es _]].
        rewrite Es. exact Et3.
      * apply Z.leb_gt in E3c. apply set_score_healthy; auto; lia.
    + cbn [fst]. apply set_score_healthy; auto; lia.
Qed.


Lemma step_healthy (act : Action) (a : State * Lock) :
  healthy (fst a) -> healthy (fst (step sqrt atan2 log2 a act)).
Proof.
  intros H. destruct act; cbn [step fst].
  - now apply dispatch_healthy.
  - now apply tick_healthy.
  - now apply saveTrainingProgress_healthy.
  - unfold startMonitoring. destruct (isMonitoring (fst a)); [exact H|].
    now apply monitoring_healthy.
  - unfold stopMonitoring. destruct (isMonitoring (fst a)); cbn [negb]; [|exact H].
    now apply saveTrainingProgress_healthy, monitoring_healthy.
  - apply resetProfile_healthy.
  - now apply import_profile_healthy.
  - now apply restart_load_healthy.
Qed.

Lemma run_healthy (acts : list Action) (a : State * Lock) :
  healthy (fst a) -> healthy (fst (run sqrt atan2 log2 acts a)).
Proof.
  revert a. induction acts as [|act acts IH]; intros a H; [exact H|].
  unfold run in *. cbn [fold_left]. apply IH. now apply step_healthy.
Qed.



Lemma step_tidy (act : Action) (a : State * Lock) :
  is_restart act = false ->
  tidy (RAW (fst a)) -> tidy (RAW (fst (step sqrt atan2 log2 a act))).
Proof.
  intros Hr H. destruct act; cbn [step fst]; try discriminate.
  - now apply dispatch_tidy.
  - rewrite tick_RAW. exact H.
  - rewrite saveTrainingProgress_RAW. exact H.
  - unfold startMonitoring. destruct (isMonitoring (fst a)); exact H.
  - unfold stopMonitoring. destruct (isMonitoring (fst a)); cbn [negb]; [|exact H].
    rewrite saveTrainingProgress_RAW. exact H.
  - apply resetProfile_tidy.
  - rewrite import_profile_RAW. exact H.
Qed.

Lemma run_tidy (acts : list Action) (a : State * Lock) :
  forallb (fun act => negb (is_restart act)) acts = true ->
  tidy (RAW (fst a)) -> tidy (RAW (fst (run sqrt atan2 log2 acts a))).
Proof.
  revert a. induction acts as [|act acts IH]; intros a Hr H; [exact H|].
  cbn [forallb] in Hr. apply andb_true_iff in Hr. destruct Hr as [Hr1 Hr2].
  unfold run in *. cbn [fold_left]. apply IH; [exact Hr2|].
  apply step_tidy; [now apply negb_true_iff | exact H].
Qed.

End RunFacts.

Lemma cold_start_healthy (nonce0 : string) (now : Z) (mon : bool) :
  healthy (cold_start nonce0 now mon).
Proof.
  constructor; cbn.
  - lia.
  - split; lia.
  - intros _. split; reflexivity.
Qed.


Lemma cold_start_tidy (nonce0 : string) (now : Z) (mon : bool) :
  tidy (RAW (cold_start nonce0 now mon)).
Proof.
  split.
  - unfold buffers_bounded. cbn. repeat split; try lia; constructor.
  - constructor.
Qed.



(** X9. In every state the application reaches from a cold start the
    counter of consecutive low scores is 0, 1 or 2: the third low score in a
    row raises the anomaly alert and sets it back to 0. *)
Theorem run_consecutive_below_three (sqrt : Q -> Q) (atan2 : Q -> Q -> Q) (log2 : Q -> Q)
    (nonce0 : string) (now : Z) (mon : bool) (lk : Lock) (acts : list Action) :
  0 <= consecutive (SESSION (fst (run sqrt atan2 log2 acts
                                    (cold_start nonce0 now mon, lk)))) <= 2.
Proof. apply h_counter, run_healthy, cold_start_healthy. Qed.

(** X10. In every state the application reaches from a cold start the alert
    list holds at most 200 alerts and the persisted alert list at most 100. *)
Theorem run_alerts_bounded (sqrt : Q -> Q) (atan2 : Q -> Q -> Q) (log2 : Q -> Q)
    (nonce0 : string) (now : Z) (mon : bool) (lk : Lock) (acts : list Action) :
  (length (ALERTS (fst (run sqrt atan2 log2 acts (cold_start nonce0 now mon, lk))))
   <= 200)%nat
  /\ (length (store_alerts (store (fst (run sqrt atan2 log2 acts
                                          (cold_start nonce0 now mon, lk)))))
      <= 100)%nat.
Proof. apply h_alerts, run_healthy, cold_start_healthy. Qed.

(** X11. In every state the application reaches from a cold start, training
    and a profile exclude each other: while the training flag is on there is
    no active profile and no persisted one. *)
Theorem run_training_has_no_profile (sqrt : Q -> Q) (atan2 : Q -> Q -> Q) (log2 : Q -> Q)
    (nonce0 : string) (now : Z) (mon : bool) (lk : Lock) (acts : list Action) :
  isTraining (SESSION (fst (run sqrt atan2 log2 acts (cold_start nonce0 now mon, lk))))
  = true ->
  profile (SESSION (fst (run sqrt atan2 log2 acts (cold_start nonce0 now mon, lk))))
  = None
  /\ store_profile (store (fst (run sqrt atan2 log2 acts
                                  (cold_start nonce0 now mon, lk)))) = None.
Proof. apply h_training, run_healthy, cold_start_healthy. Qed.

Lemma run_training_has_no_profile_witness :
  profile (SESSION (fst (run sqrt_6 atan2_approx log2_floor
                           [ActInput (EvKeyDown 2000 2000 65);
                            ActInput (EvKeyUp 2010 2010 65); ActSave 3000;
                            ActTick tick_input; ActStop 4000]
                           (cold_start "a1" 1000 true, unlocked))))
  = None.
Proof.
  apply (run_training_has_no_profile sqrt_6 atan2_approx log2_floor "a1" 1000 true
           unlocked
           [ActInput (EvKeyDown 2000 2000 65); ActInput (EvKeyUp 2010 2010 65);
            ActSave 3000; ActTick tick_input; ActStop 4000]).
  reflexivity.
Defined.

(** ** Replay detection *)

Lemma size_le_one_of_all_equal `{Countable A} (l : list A) (d : A) :
  Forall (fun x => x = d) l -> (base.size (list_to_set l : gset A) <= 1)%nat.
Proof.
  intros Hl.
  assert (Hsub : (list_to_set l : gset A) ⊆ {[ d ]}).
  { intros x Hx. apply elem_of_list_to_set in Hx.
    rewrite Forall_forall in Hl.
    rewrite (Hl x Hx). now apply elem_of_singleton. }
  apply subseteq_size in Hsub. rewrite size_singleton in Hsub. exact Hsub.
Qed.

Lemma size_gt_one_iff `{Countable A} (X : gset A) :
  (1 < base.size X)%nat <-> exists x y, x ∈ X /\ y ∈ X /\ x <> y.
Proof.
  split.
  - intros Hs. destruct (size_pos_elem_of X) as [x Hx]; [lia|].
    assert (Hd : (0 < base.size (X ∖ {[ x ]}))%nat).
    { rewrite size_difference by (now apply singleton_subseteq_l).
      rewrite size_singleton. lia. }
    destruct (size_pos_elem_of _ Hd) as [y Hy].
    apply elem_of_difference in Hy. destruct Hy as [Hy Hne].
    exists x, y. repeat split; auto. intros ->. apply Hne. now apply elem_of_singleton.
  - intros [x [y [Hx [Hy Hne]]]].
    destruct (base.size X) as [|[|n]] eqn:E; [| |lia].
    + apply size_empty_iff in E. apply E in Hx. now apply elem_of_empty in Hx.
    + exfalso. apply Hne. exact (size_singleton_inv X x y E Hx Hy).
Qed.

Lemma size_one_iff `{Countable A} (l : list A) :
  base.size (list_to_set l : gset A) = 1%nat
  <-> l <> [] /\ exists d, Forall (fun x => x = d) l.
Proof.
  split.
  - intros E. split.
    + intros ->. cbn in E. rewrite size_empty in E. discriminate.
    + destruct (size_1_elem_of _ E) as [d Hd]. exists d.
      apply Forall_forall. intros x Hx.
      apply (elem_of_list_to_set (C:=gset A)) in Hx.
      apply Hd in Hx. now apply elem_of_singleton in Hx.
  - intros [Hne [d Hd]].
    pose proof (size_le_one_of_all_equal l d Hd) as Hle.
    destruct l as [|x l]; [congruence|].
    assert (Hx : x ∈ (list_to_set (x :: l) : gset A))
      by (apply elem_of_list_to_set; left).
    assert (Hpos : base.size (list_to_set (x :: l) : gset A) <> 0%nat).
    { intros E. apply size_empty_iff in E. apply E in Hx.
      now apply elem_of_empty in Hx. }
    lia.
Qed.

Lemma ts_deltas_length (l : list KeyEvent) :
  length (ts_deltas l) = (length l - 1)%nat.
Proof.
  induction l as [|a [|b l] IH]; [reflexivity | reflexivity |].
  change (ts_deltas (a :: b :: l)) with ((k_ts b - k_ts a) :: ts_deltas (b :: l)).
  cbn [length] in *. rewrite IH. lia.
Qed.

Lemma truthy_nonces_two (recent : list KeyEvent) :
  (1 < base.size (list_to_set
         (List.filter (fun n => negb (String.eqb n "")) (map k_nonce recent))
         : gset string))%nat
  <-> exists k1 k2, k1 ∈ recent /\ k2 ∈ recent
        /\ k_nonce k1 <> "" /\ k_nonce k2 <> "" /\ k_nonce k1 <> k_nonce k2.
Proof.
  rewrite size_gt_one_iff. split.
  - intros [x [y [Hx [Hy Hne]]]].
    apply elem_of_list_to_set, list_elem_of_In, filter_In in Hx, Hy.
    destruct Hx as [Hx Hx'], Hy as [Hy Hy'].
    apply in_map_iff in Hx, Hy.
    destruct Hx as [k1 [<- Hk1]], Hy as [k2 [<- Hk2]].
    apply negb_true_iff, String.eqb_neq in Hx', Hy'.
    exists k1, k2. rewrite <- !list_elem_of_In in *. auto 10.
  - intros [k1 [k2 [H1 [H2 [Hn1 [Hn2 Hne]]]]]].
    exists (k_nonce k1), (k_nonce k2).
    repeat split; [| |exact Hne];
      apply elem_of_list_to_set, list_elem_of_In, filter_In;
      (split; [apply in_map, list_elem_of_In; assumption
              | apply negb_true_iff, String.eqb_neq; assumption]).
Qed.

(** X12. The replay detector looks at the last 20 key events.  It answers
    "Multiple session nonces" exactly when two of them carry different
    non-empty nonces; failing that, it answers "Identical intervals" exactly
    when there are at least 7 of them and all intervals between successive
    press times are equal; otherwise it reports no replay. *)
Theorem detectReplay_characterised (r : Raw) :
  (replay_reason (detectReplay r) = Some "Multiple session nonces"
   <-> exists k1 k2, k1 ∈ slice_last 20 (ksEvents r) /\ k2 ∈ slice_last 20 (ksEvents r)
         /\ k_nonce k1 <> "" /\ k_nonce k2 <> "" /\ k_nonce k1 <> k_nonce k2)
  /\ (replay_reason (detectReplay r) = Some "Identical intervals"
      <-> ~ (exists k1 k2, k1 ∈ slice_last 20 (ksEvents r)
               /\ k2 ∈ slice_last 20 (ksEvents r)
               /\ k_nonce k1 <> "" /\ k_nonce k2 <> "" /\ k_nonce k1 <> k_nonce k2)
          /\ (7 <= length (slice_last 20 (ksEvents r)))%nat
          /\ exists d, Forall (fun x => x = d) (ts_deltas (slice_last 20 (ksEvents r))))
  /\ (isReplay (detectReplay r) = true <-> replay_reason (detectReplay r) <> None)
  /\ (isReplay (detectReplay r) = false <-> replay_reason (detectReplay r) = None).
Proof.
  unfold detectReplay.
  set (recent := slice_last 20 (ksEvents r)).
  pose proof (truthy_nonces_two recent) as Hn.
  pose proof (ts_deltas_length recent) as Hlen.
  pose proof (size_one_iff (ts_deltas recent)) as Hone.
  destruct (1 <? base.size _)%nat eqn:E1.
  - apply Nat.ltb_lt in E1. apply Hn in E1. cbn [replay_reason isReplay].
    split; [split; [intros _; exact E1 | reflexivity]|].
    split; [split; [discriminate | intros [Hno _]; contradiction]|].
    split; split; try discriminate; reflexivity.
  - apply Nat.ltb_ge in E1.
    assert (Hno : ~ (exists k1 k2, k1 ∈ recent /\ k2 ∈ recent
               /\ k_nonce k1 <> "" /\ k_nonce k2 <> "" /\ k_nonce k1 <> k_nonce k2))
      by (intros Hx; apply Hn in Hx; lia).
    destruct ((5 <? length (ts_deltas recent))%nat
              && (base.size (list_to_set (ts_deltas recent) : gset Z) =? 1)%nat) eqn:E2.
    + apply andb_true_iff in E2. destruct E2 as [E2 E3].
      apply Nat.ltb_lt in E2. apply Nat.eqb_eq in E3. apply Hone in E3.
      cbn [replay_reason isReplay].
      split; [split; [discriminate | intros Hx; contradiction]|].
      split; [split; [intros _; split; [exact Hno|]; split; [lia | tauto]
                     | reflexivity]|].
      split; split; try discriminate; reflexivity.
    + cbn [replay_reason isReplay].
      split; [split; [discriminate | intros Hx; contradiction]|].
      split; [split; [discriminate|]|].
      * intros [_ [H7 Hd]]. exfalso.
        apply andb_false_iff in E2. destruct E2 as [E2|E2].
        -- apply Nat.ltb_ge in E2. lia.
        -- apply Nat.eqb_neq in E2. apply E2, Hone. split; [|exact Hd].
           intros E0. rewrite E0 in Hlen. cbn in Hlen. lia.
      * split; split; try discriminate; try reflexivity. intros H. now contradiction H.
Qed.

Lemma detectReplay_characterised_witness :
  replay_reason (detectReplay raw_two_nonces) = Some "Multiple session nonces"
  /\ isReplay (detectReplay raw_two_nonces) = true.
Proof.
  destruct (detectReplay_characterised raw_two_nonces) as [[_ H1] [_ [[_ H2] _]]].
  assert (H : replay_reason (detectReplay raw_two_nonces)
              = Some "Multiple session nonces").
  { apply H1.
    exists {| k_kc := 65; k_dwell := 10; k_flight := None; k_ts := 2000;
              k_nonce := "a1" |},
           {| k_kc := 66; k_dwell := 10; k_flight := Some 10; k_ts := 2020;
              k_nonce := "b2" |}.
    split; [left|]. split; [right; left|].
    repeat split; discriminate. }
  split; [exact H|]. apply H2. rewrite H. discriminate.
Defined.


Lemma clean_never_multiple_nonces (r : Raw) :
  key_events_clean r ->
  replay_reason (detectReplay r) <> Some "Multiple session nonces".
Proof.
  intros Hc Hr. unfold detectReplay in Hr.
  destruct (1 <? base.size _)%nat eqn:E1.
  - apply Nat.ltb_lt, truthy_nonces_two in E1.
    destruct E1 as [k1 [k2 [H1 [H2 [_ [_ Hne]]]]]].
    unfold key_events_clean in Hc.
    assert (Hs : Forall (fun k => 1 <= k_dwell k <= 1000 /\ k_nonce k = nonce r)
                   (slice_last 20 (ksEvents r)))
      by (unfold slice_last; now apply Forall_drop).
    rewrite Forall_forall in Hs.
    destruct (Hs k1 H1) as [_ E1], (Hs k2 H2) as [_ E2]. congruence.
  - destruct (_ && _); cbn in Hr; discriminate.
Qed.

(** X13. As long as the process is not restarted, whatever else happens
    from a cold start, every buffered key event has a dwell within [1,1000]
    and carries the current session nonce, all buffers are within capacity,
    and the replay detector never answers "Multiple session nonces". *)
Theorem run_without_restart_is_tidy
    (sqrt : Q -> Q) (atan2 : Q -> Q -> Q) (log2 : Q -> Q)
    (nonce0 : string) (now : Z) (mon : bool) (lk : Lock) (acts : list Action) :
  forallb (fun act => negb (is_restart act)) acts = true ->
  key_events_clean (RAW (fst (run sqrt atan2 log2 acts (cold_start nonce0 now mon, lk))))
  /\ buffers_bounded (RAW (fst (run sqrt atan2 log2 acts (cold_start nonce0 now mon, lk))))
  /\ replay_reason
       (detectReplay (RAW (fst (run sqrt atan2 log2 acts (cold_start nonce0 now mon, lk)))))
     <> Some "Multiple session nonces".
Proof.
  intros Hr.
  destruct (run_tidy sqrt atan2 log2 acts (cold_start nonce0 now mon, lk) Hr
              (cold_start_tidy nonce0 now mon)) as [Hb Hc].
  split; [exact Hc|]. split; [exact Hb|]. now apply clean_never_multiple_nonces.
Qed.

Lemma run_without_restart_is_tidy_witness :
  key_events_clean
    (RAW (fst (run sqrt_6 atan2_approx log2_floor
                 [ActInput (EvKeyDown 2000 2000 65); ActInput (EvKeyUp 2010 2010 65);
                  ActReset "b2"; ActInput (EvKeyDown 2020 2020 66);
                  ActInput (EvKeyUp 2030 2030 66); ActTick tick_input]
                 (cold_start "a1" 1000 true, unlocked)))).
Proof.
  apply (run_without_restart_is_tidy sqrt_6 atan2_approx log2_floor "a1" 1000 true
           unlocked
           [ActInput (EvKeyDown 2000 2000 65); ActInput (EvKeyUp 2010 2010 65);
            ActReset "b2"; ActInput (EvKeyDown 2020 2020 66);
            ActInput (EvKeyUp 2030 2030 66); ActTick tick_input]).
  reflexivity.
Defined.


(** ** The analysis loop *)

Section LoopFacts.

Variable sqrt : Q -> Q.
Variable atan2 : Q -> Q -> Q.
Variable log2 : Q -> Q.

Lemma checkTrainingProgress_frame (rnd : string) (now : Z) (st : State) :
  trustScore (SESSION (checkTrainingProgress sqrt atan2 log2 rnd now st))
  = trustScore (SESSION st)
  /\ consecutive (SESSION (checkTrainingProgress sqrt atan2 log2 rnd now st))
     = consecutive (SESSION st)
  /\ ALERTS (checkTrainingProgress sqrt atan2 log2 rnd now st) = ALERTS st.
Proof.
  unfold checkTrainingProgress.
  destruct (Qle_bool 100 (training_pct (SESSION st))); [|auto].
  destruct (Phase_eqb (phase (SESSION st)) quick); [cbn; auto|].
  unfold completeTraining.
  destruct (ks (current_features sqrt atan2 log2 (RAW st))),
           (mouse (current_features sqrt atan2 log2 (RAW st))); cbn; auto.
Qed.

(** X14. A turn of the analysis loop does nothing at all while monitoring
    is off.  While training is on it only advances the training state
    machine: the trust score, the low-score counter, the alerts and the lock
    screen stay as they are. *)
Theorem tick_idle_and_training (i : TickInput) (st : State) (lk : Lock) :
  (isMonitoring st = false -> tick sqrt atan2 log2 i st lk = (st, lk))
  /\ (isMonitoring st = true -> isTraining (SESSION st) = true ->
      tick sqrt atan2 log2 i st lk
      = (checkTrainingProgress sqrt atan2 log2 (tk_rnd i) (tk_train_now i)
           (with_SESSION (tick_clock (tk_now i) (SESSION st)) st), lk)
      /\ trustScore (SESSION (fst (tick sqrt atan2 log2 i st lk))) = trustScore (SESSION st)
      /\ consecutive (SESSION (fst (tick sqrt atan2 log2 i st lk)))
         = consecutive (SESSION st)
      /\ ALERTS (fst (tick sqrt atan2 log2 i st lk)) = ALERTS st
      /\ snd (tick sqrt atan2 log2 i st lk) = lk).
Proof.
  split.
  - intros E. unfold tick. rewrite E. reflexivity.
  - intros Em Et. unfold tick. rewrite Em. cbn [negb].
    cbn [SESSION with_SESSION tick_clock isTraining]. rewrite Et. cbn [fst snd].
    split; [reflexivity|].
    destruct (checkTrainingProgress_frame (tk_rnd i) (tk_train_now i)
                (with_SESSION (tick_clock (tk_now i) (SESSION st)) st))
      as [E1 [E2 E3]].
    cbn [fst snd]. rewrite E1, E2, E3. cbn. auto.
Qed.

Lemma addAlert_head (ts : Z) (ty : AlertType) (sev : Severity) (msg : string)
    (st : State) :
  head (ALERTS (addAlert ts ty sev msg st))
  = Some {| a_type := ty; a_severity := sev; a_msg := msg; a_ts := ts |}.
Proof.
  unfold addAlert. cbn [ALERTS].
  destruct (200 <? length (_ :: ALERTS st))%nat eqn:E; [|reflexivity].
  destruct (ALERTS st); [cbn in E; discriminate | reflexivity].
Qed.

Lemma alerts_session (b1 b2 : bool) (t1 t2 : Z) (m1 m2 : string) (st : State) :
  SESSION (if b2 then addAlert t2 replay sev_high m2
                       (if b1 then addAlert t1 bot sev_critical m1 st else st)
           else (if b1 then addAlert t1 bot sev_critical m1 st else st))
  = SESSION st
  /\ SETTINGS (if b2 then addAlert t2 replay sev_high m2
                         (if b1 then addAlert t1 bot sev_critical m1 st else st)
               else (if b1 then addAlert t1 bot sev_critical m1 st else st))
     = SETTINGS st.
Proof. destruct b1, b2; cbn; auto. Qed.

(** X15. A turn that computes a score stores it.  A score at or above the
    sensitivity threshold (15, 30 or 50) sets the low-score counter to 0; a
    score below it increments the counter while the result stays below 3;
    the third low score in a row puts an anomaly alert at the head of the
    alert list, critical when the score is below 20 and high otherwise, and
    sets the counter back to 0. *)
Theorem tick_counts_low_scores (i : TickInput) (st : State) (lk : Lock) (score : jsnum) :
  isMonitoring st = true -> isTraining (SESSION st) = false ->
  calcTrustScore sqrt atan2 log2 (tk_h i) (tk_day i)
    (with_SESSION (tick_clock (tk_now i) (SESSION st)) st) = Some score ->
  trustScore (SESSION (fst (tick sqrt atan2 log2 i st lk))) = Some score
  /\ (js_ltb score (num (threshold (sensitivity (SETTINGS st)))) = false ->
      consecutive (SESSION (fst (tick sqrt atan2 log2 i st lk))) = 0)
  /\ (js_ltb score (num (threshold (sensitivity (SETTINGS st)))) = true ->
      consecutive (SESSION st) + 1 < 3 ->
      consecutive (SESSION (fst (tick sqrt atan2 log2 i st lk)))
      = consecutive (SESSION st) + 1)
  /\ (js_ltb score (num (threshold (sensitivity (SETTINGS st)))) = true ->
      3 <= consecutive (SESSION st) + 1 ->
      consecutive (SESSION (fst (tick sqrt atan2 log2 i st lk))) = 0
      /\ exists a, head (ALERTS (fst (tick sqrt atan2 log2 i st lk))) = Some a
           /\ a_type a = anomaly
           /\ a_severity a = (if js_ltb score (num 20) then sev_critical else sev_high)
           /\ a_ts a = tk_anomaly_ts i).
Proof.
  intros Em Et Hs. unfold tick. rewrite Em. cbn [negb].
  set (st0 := with_SESSION (tick_clock (tk_now i) (SESSION st)) st) in *.
  assert (Et0 : isTraining (SESSION st0) = false) by exact Et.
  rewrite Et0, Hs.
  set (st1 := set_score (Some score) (consecutive (SESSION st0)) st0).
  destruct (alerts_session
              (isBot (detectBot atan2 (extractKS sqrt (RAW st1))
                        (extractMouse sqrt atan2 log2 (RAW st1)) (RAW st1)))
              (isReplay (detectReplay (RAW st1)))
              (tk_bot_ts i) (tk_replay_ts i)
              ("Bot activity: " +:+ join_reasons
                 (reason (detectBot atan2 (extractKS sqrt (RAW st1))
                            (extractMouse sqrt atan2 log2 (RAW st1)) (RAW st1))))
              ("Replay attack: " +:+ default "" (replay_reason (detectReplay (RAW st1))))
              st1) as [Es Eset].
  set (st3 := if isReplay _ then _ else _) in *.
  assert (Ec : consecutive (SESSION st3) = consecutive (SESSION st))
    by (rewrite Es; reflexivity).
  assert (Ethr : threshold (sensitivity (SETTINGS st3))
                 = threshold (sensitivity (SETTINGS st)))
    by (rewrite Eset; reflexivity).
  rewrite Ethr, Ec.
  destruct (js_ltb score (num (threshold (sensitivity (SETTINGS st))))).
  - destruct (3 <=? consecutive (SESSION st) + 1) eqn:E3; cbn [fst].
    + apply Z.leb_le in E3. split; [reflexivity|].
      split; [discriminate|]. split; [intros _ H; lia|].
      intros _ _. split; [reflexivity|].
      change (ALERTS (set_score (Some score) 0
                (addAlert (tk_anomaly_ts i) anomaly
                   (if js_ltb score (num 20) then sev_critical else sev_high)
                   ("Trust score at " +:+ round_text score +:+ "% for 3+ cycles")
                   st3)))
        with (ALERTS (addAlert (tk_anomaly_ts i) anomaly
                   (if js_ltb score (num 20) then sev_critical else sev_high)
                   ("Trust score at " +:+ round_text score +:+ "% for 3+ cycles")
                   st3)).
      rewrite addAlert_head. eexists. split; [reflexivity|]. cbn. auto.
    + apply Z.leb_gt in E3. split; [reflexivity|].
      split; [discriminate|]. split; [intros _ _; reflexivity|].
      intros _ H. lia.
  - cbn [fst]. split; [reflexivity|]. split; [intros _; reflexivity|].
    split; discriminate.
Qed.

(** X16. A turn of the analysis loop leaves the lock screen as it is,
    unless auto-block is on, the screen is not locked, and the turn stored a
    score below 20; only then does it lock.  It never unlocks. *)
Theorem tick_locks_only_on_auto_block (i : TickInput) (st : State) (lk : Lock) :
  snd (tick sqrt atan2 log2 i st lk) = lk
  \/ (snd (tick sqrt atan2 log2 i st lk) = {| isLocked := true; lockWindow := true |}
      /\ autoBlock (SETTINGS st) = true
      /\ isLocked lk = false /\ lockWindow lk = false
      /\ exists score,
           trustScore (SESSION (fst (tick sqrt atan2 log2 i st lk))) = Some (num score)
           /\ (score < 20)%Q).
Proof.
  unfold tick. destruct (isMonitoring st); cbn [negb]; [|left; reflexivity].
  set (st0 := with_SESSION (tick_clock (tk_now i) (SESSION st)) st).
  destruct (isTraining (SESSION st0)); [left; reflexivity|].
  destruct (calcTrustScore _ _ _ _ _ st0) as [score|]; [|left; reflexivity].
  set (st1 := set_score (Some score) (consecutive (SESSION st0)) st0).
  destruct (alerts_session
              (isBot (detectBot atan2 (extractKS sqrt (RAW st1))
                        (extractMouse sqrt atan2 log2 (RAW st1)) (RAW st1)))
              (isReplay (detectReplay (RAW st1)))
              (tk_bot_ts i) (tk_replay_ts i)
              ("Bot activity: " +:+ join_reasons
                 (reason (detectBot atan2 (extractKS sqrt (RAW st1))
                            (extractMouse sqrt atan2 log2 (RAW st1)) (RAW st1))))
              ("Replay attack: " +:+ default "" (replay_reason (detectReplay (RAW st1))))
              st1) as [Es Eset].
  set (st3 := if isReplay _ then _ else _) in *.
  destruct (js_ltb score (num (threshold (sensitivity (SETTINGS st3)))));
    [|left; reflexivity].
  destruct (3 <=? consecutive (SESSION st3) + 1); [|left; reflexivity].
  cbn [snd fst SETTINGS addAlert]. rewrite Eset.
  change (SETTINGS st1) with (SETTINGS st).
  destruct (autoBlock (SETTINGS st)) eqn:Ea; cbn [andb]; [|left; reflexivity].
  destruct (js_ltb score (num 20)) eqn:E20; cbn [andb]; [|left; reflexivity].
  destruct (isLocked lk) eqn:El; cbn [negb]; [left; reflexivity|].
  unfold showLockScreen. rewrite El. cbn [orb].
  destruct (lockWindow lk) eqn:Ew; [left; reflexivity|].
  destruct score as [q|]; [|discriminate E20]. cbn [js_ltb] in E20.
  right. repeat split. exists q. split; [reflexivity|]. now apply Qltb_lt.
Qed.

End LoopFacts.

Lemma tick_idle_and_training_witness :
  tick sqrt_6 atan2_approx log2_floor tick_input st_off unlocked = (st_off, unlocked)
  /\ trustScore (SESSION (fst (tick sqrt_6 atan2_approx log2_floor tick_input st_on
                                 unlocked)))
     = trustScore (SESSION st_on)
  /\ snd (tick sqrt_6 atan2_approx log2_floor tick_input st_on unlocked) = unlocked.
Proof.
  destruct (tick_idle_and_training sqrt_6 atan2_approx log2_floor tick_input st_off
              unlocked) as [H1 _].
  destruct (tick_idle_and_training sqrt_6 atan2_approx log2_floor tick_input st_on
              unlocked) as [_ H2].
  split; [apply H1; reflexivity|].
  destruct H2 as [_ [H3 [_ [_ H4]]]]; [reflexivity | reflexivity |].
  split; [exact H3 | exact H4].
Defined.

Lemma tick_counts_low_scores_witness :
  consecutive (SESSION (fst (tick sqrt_6 atan2_approx log2_floor tick_input st_low
                               unlocked))) = 0
  /\ exists a,
       head (ALERTS (fst (tick sqrt_6 atan2_approx log2_floor tick_input st_low
                            unlocked))) = Some a
       /\ a_type a = anomaly /\ a_severity a = sev_critical /\ a_ts a = 20003.
Proof.
  destruct (tick_counts_low_scores sqrt_6 atan2_approx log2_floor tick_input st_low
              unlocked (num 10)) as [_ [_ [_ H]]];
    [reflexivity | reflexivity | reflexivity |].
  destruct H as [H0 [a [Ha [Ht [Hs Hts]]]]];
    [reflexivity | apply Z.leb_le; reflexivity |].
  split; [exact H0|]. exists a.
  split; [exact Ha|]. split; [exact Ht|]. split; [exact Hs | exact Hts].
Defined.

(** ** Storage across restarts *)

Lemma loadProfile_resumes (now : Z) (st : State) (tr : TrainingSnapshot) :
  store_profile (store st) = None -> store_training (store st) = Some tr ->
  isTraining (SESSION st) = true ->
  RAW (loadProfile now st)
  = {| keydowns := keydowns (RAW st); ksEvents := tr_ksEvents tr;
       mouseEvts := mouseEvts (RAW st); clicks := clicks (RAW st);
       scrolls := scrolls (RAW st); digraphs := tr_digs tr;
       trigraphs := trigraphs (RAW st); jitterBuf := jitterBuf (RAW st);
       lastRelease := lastRelease (RAW st); nonce := nonce (RAW st);
       salt := salt (RAW st) |}
  /\ SESSION (loadProfile now st)
     = {| start := start (SESSION st); activeTime := tr_activeTime tr;
          lastActive := Some now; lastTick := lastTick (SESSION st);
          isTraining := true; phase := tr_phase tr;
          trainStart := trainStart (SESSION st);
          profile := profile (SESSION st); trustScore := trustScore (SESSION st);
          consecutive := consecutive (SESSION st);
          lastCalc := lastCalc (SESSION st) |}.
Proof.
  intros Hp Htr Hi. unfold loadProfile. rewrite Hp. cbv zeta. rewrite Htr, Hi.
  split; reflexivity.
Qed.

(** X17. A training snapshot saved while training, followed by a restart
    and [loadProfile], resumes the training: active time, phase, the last 500
    key events and the digraph table are restored and training stays on; the
    trigraph table and the mouse, click and scroll buffers start empty, and
    the restored key events keep their old nonce under the new session
    nonce. *)
Theorem training_snapshot_round_trip
    (t : Z) (nonce0 : string) (now now' load_now : Z) (st : State) :
  isTraining (SESSION st) = true -> store_profile (store st) = None ->
  let st' := loadProfile load_now (restart nonce0 now now' (saveTrainingProgress t st)) in
  isTraining (SESSION st') = true
  /\ activeTime (SESSION st') = activeTime (SESSION st)
  /\ phase (SESSION st') = phase (SESSION st)
  /\ lastActive (SESSION st') = Some load_now
  /\ ksEvents (RAW st') = slice_last 500 (ksEvents (RAW st))
  /\ digraphs (RAW st') = digraphs (RAW st)
  /\ trigraphs (RAW st') = []
  /\ mouseEvts (RAW st') = [] /\ clicks (RAW st') = [] /\ scrolls (RAW st') = []
  /\ nonce (RAW st') = nonce0
  /\ profile (SESSION st') = None.
Proof.
  intros Ht Hp st'.
  destruct (loadProfile_resumes load_now
              (restart nonce0 now now' (saveTrainingProgress t st))
              {| tr_ksEvents := slice_last 500 (ksEvents (RAW st));
                 tr_activeTime := activeTime (SESSION st);
                 tr_phase := phase (SESSION st);
                 tr_digs := digraphs (RAW st); tr_saved := t |})
    as [Hr Hs].
  - unfold saveTrainingProgress. rewrite Ht. exact Hp.
  - unfold saveTrainingProgress. rewrite Ht. reflexivity.
  - reflexivity.
  - fold st' in Hr, Hs. rewrite Hr, Hs. repeat split.
Qed.

Lemma training_snapshot_round_trip_witness :
  activeTime (SESSION (loadProfile 9000 (restart "b2" 8000 8000
                                           (saveTrainingProgress 7000 st_typed))))
  = activeTime (SESSION st_typed)
  /\ ksEvents (RAW (loadProfile 9000 (restart "b2" 8000 8000
                                        (saveTrainingProgress 7000 st_typed))))
     = slice_last 500 (ksEvents (RAW st_typed)).
Proof.
  destruct (training_snapshot_round_trip 7000 "b2" 8000 8000 9000 st_typed)
    as [_ [H1 [_ [_ [H2 _]]]]]; [reflexivity | reflexivity |].
  split; [exact H1 | exact H2].
Defined.


(** X18. A persisted profile survives a restart: [loadProfile] makes it the
    active profile, switches training off and sets the phase to complete,
    ignores any training snapshot, takes the digraph and trigraph tables from
    the profile when it has them, and leaves the trust score empty.  This is
    the state after a completed training is restarted. *)
Theorem profile_survives_restart
    (nonce0 : string) (now now' load_now : Z) (p : ProfileDoc) (st : State) :
  store_profile (store st) = Some p ->
  let st' := loadProfile load_now (restart nonce0 now now' st) in
  profile (SESSION st') = Some p
  /\ isTraining (SESSION st') = false
  /\ phase (SESSION st') = complete
  /\ trustScore (SESSION st') = None
  /\ activeTime (SESSION st') = 0
  /\ ksEvents (RAW st') = []
  /\ digraphs (RAW st') = default [] (p_digraphs p)
  /\ trigraphs (RAW st') = default [] (p_trigraphs p).
Proof.
  intros Hp. unfold loadProfile, restart. cbn [store store_profile store_training].
  rewrite Hp. cbn [store store_training SESSION isTraining].
  destruct (store_training (store st)); cbn;
    destruct (p_digraphs p), (p_trigraphs p); repeat split.
Qed.

Lemma profile_survives_restart_witness :
  profile (SESSION (loadProfile 9000 (restart "b2" 8000 8000 st_scored)))
  = Some doc_empty
  /\ isTraining (SESSION (loadProfile 9000 (restart "b2" 8000 8000 st_scored))) = false.
Proof.
  destruct (profile_survives_restart "b2" 8000 8000 9000 doc_empty st_scored)
    as [H1 [H2 _]]; [reflexivity|].
  split; [exact H1 | exact H2].
Defined.


Lemma completeTraining_persists (sqrt : Q -> Q) (atan2 : Q -> Q -> Q) (log2 : Q -> Q)
    (rnd : string) (now : Z) (st : State) :
  extractKS sqrt (RAW st) <> None \/ extractMouse sqrt atan2 log2 (RAW st) <> None ->
  exists p,
    store_profile (store (completeTraining sqrt atan2 log2 rnd now st)) = Some p
    /\ profile (SESSION (completeTraining sqrt atan2 log2 rnd now st)) = Some p
    /\ store_training (store (completeTraining sqrt atan2 log2 rnd now st)) = None
    /\ p_digraphs p = Some (digraphs (RAW st))
    /\ p_trigraphs p = Some (trigraphs (RAW st))
    /\ features p = Some (features_doc (current_features sqrt atan2 log2 (RAW st))).
Proof.
  intros H. unfold completeTraining. cbn [current_features ks mouse].
  destruct (extractKS sqrt (RAW st)) as [k|] eqn:Hk.
  - eexists. cbn. repeat split.
  - destruct (extractMouse sqrt atan2 log2 (RAW st)) as [m|] eqn:Hm.
    + eexists. cbn. repeat split.
    + destruct H as [H|H]; congruence.
Qed.

(** X19. A reset is persistent: after [resetProfile], a restart followed by
    [loadProfile] finds nothing to restore and yields the cold-start state,
    with empty buffers, no profile, training on in phase quick and no
    alerts. *)
Theorem reset_survives_restart
    (fresh nonce0 : string) (now now' load_now : Z) (st : State) :
  loadProfile load_now (restart nonce0 now now' (resetProfile fresh st))
  = restart nonce0 now now' (resetProfile fresh st)
  /\ RAW (restart nonce0 now now' (resetProfile fresh st)) = RAW_init nonce0
  /\ SESSION (restart nonce0 now now' (resetProfile fresh st)) = SESSION_init now now'
  /\ ALERTS (restart nonce0 now now' (resetProfile fresh st)) = []
  /\ store_alerts (store (restart nonce0 now now' (resetProfile fresh st))) = [].
Proof. repeat split. Qed.

(** ** Scoring right after training and after a reset *)

(** X20. The first score after training: when [completeTraining] has made
    a profile and the buffers have not changed since, the scorer returns
    100 at every hour and week day. *)
Theorem first_score_after_training_is_100
    (sqrt : Q -> Q) (atan2 : Q -> Q -> Q) (log2 : Q -> Q)
    (rnd : string) (now h day : Z) (st : State) :
  extractKS sqrt (RAW st) <> None \/ extractMouse sqrt atan2 log2 (RAW st) <> None ->
  exists s,
    calcTrustScore sqrt atan2 log2 h day (completeTraining sqrt atan2 log2 rnd now st)
    = Some (num s)
    /\ (s == 100)%Q.
Proof.
  intros H.
  destruct (completeTraining_persists sqrt atan2 log2 rnd now st H)
    as [p [_ [Hp [_ [_ [_ Hf]]]]]].
  assert (Hr : RAW (completeTraining sqrt atan2 log2 rnd now st) = RAW st).
  { unfold completeTraining.
    destruct (ks (current_features sqrt atan2 log2 (RAW st))),
             (mouse (current_features sqrt atan2 log2 (RAW st))); reflexivity. }
  apply (calcTrustScore_self sqrt atan2 log2 h day _ p Hp); rewrite Hr; auto.
Qed.

Lemma first_score_after_training_is_100_witness :
  exists s,
    calcTrustScore sqrt_6 atan2_approx log2_floor 10 3
      (completeTraining sqrt_6 atan2_approx log2_floor "00ff00ff00ff" 9000 st_mouse)
    = Some (num s)
    /\ (s == 100)%Q.
Proof.
  apply (first_score_after_training_is_100 sqrt_6 atan2_approx log2_floor
           "00ff00ff00ff" 9000 10 3 st_mouse).
  right. apply extractMouse_present. apply Nat.leb_le. reflexivity.
Defined.


(** X21. After a reset nothing is flagged and nothing is scored: every
    extractor returns null, the scorer returns null, the bot score is 0 and
    the replay detector reports no replay. *)
Theorem reset_state_is_silent
    (sqrt : Q -> Q) (atan2 : Q -> Q -> Q) (log2 : Q -> Q)
    (fresh : string) (h day : Z) (st : State) :
  extractKS sqrt (RAW (resetProfile fresh st)) = None
  /\ extractMouse sqrt atan2 log2 (RAW (resetProfile fresh st)) = None
  /\ extractClick sqrt (RAW (resetProfile fresh st)) = None
  /\ calcTrustScore sqrt atan2 log2 h day (resetProfile fresh st) = None
  /\ detectBot atan2 (extractKS sqrt (RAW (resetProfile fresh st)))
       (extractMouse sqrt atan2 log2 (RAW (resetProfile fresh st)))
       (RAW (resetProfile fresh st))
     = {| isBot := false; confidence := 0; reason := [] |}
  /\ detectReplay (RAW (resetProfile fresh st))
     = {| isReplay := false; replay_reason := None |}.
Proof. repeat split. Qed.

(** ** Statistics payload *)

Lemma Qfloor_upper (y : Q) (hi : Z) : (y < inject_Z (hi + 1))%Q -> Qfloor y <= hi.
Proof.
  intros H. pose proof (Qfloor_le y) as Hf.
  assert (Hlt : (inject_Z (Qfloor y) < inject_Z (hi + 1))%Q) by lra.
  rewrite <- Zlt_Qlt in Hlt. lia.
Qed.

Lemma js_round_bounds (x : Q) (lo hi : Z) :
  (inject_Z lo <= x)%Q -> (x <= inject_Z hi)%Q -> lo <= js_round x <= hi.
Proof.
  intros Hlo Hhi. unfold js_round. split.
  - assert (H : (inject_Z lo <= x + (1 # 2))%Q) by lra.
    apply Qfloor_resp_le in H. rewrite Qfloor_Z in H. exact H.
  - apply Qfloor_upper. rewrite inject_Z_plus. change (inject_Z 1) with 1%Q. lra.
Qed.

Lemma training_pct_range (s : Session) :
  0 <= activeTime s -> (0 <= training_pct s /\ training_pct s <= 100)%Q.
Proof.
  intros Ha. unfold training_pct. split.
  - apply Q.min_glb; [lra|].
    destruct (Phase_eqb (phase s) quick); unfold QUICK_TARGET, FULL_TARGET;
      unfold Qle; simpl; lia.
  - apply Q.le_min_l.
Qed.

Lemma training_pct_nearly_full (s : Session) :
  199 * (if Phase_eqb (phase s) quick then QUICK_TARGET else FULL_TARGET)
  <= 200 * activeTime s ->
  (199 # 2 <= training_pct s)%Q.
Proof.
  intros Ha. unfold training_pct. apply Q.min_glb; [lra|].
  destruct (Phase_eqb (phase s) quick); unfold QUICK_TARGET, FULL_TARGET in *;
    unfold Qle; simpl; lia.
Qed.

(** X22. The statistics payload reports a training percentage between 0
    and 100 whenever the active time is not negative, and 100 when training
    is off.  During training it already reports 100 once the active time
    reaches 99.5 % of the target of the phase, although the phase advances
    only at the full target.  The active time is reported in whole seconds,
    rounded down. *)
Theorem stats_training_percent
    (sqrt : Q -> Q) (atan2 : Q -> Q -> Q) (log2 : Q -> Q)
    (rnd : string) (now : Z) (st : State) :
  (0 <= activeTime (SESSION st) -> 0 <= sp_trainPct (buildStatsPayload st) <= 100)
  /\ (isTraining (SESSION st) = false -> sp_trainPct (buildStatsPayload st) = 100)
  /\ (isTraining (SESSION st) = true ->
      199 * (if Phase_eqb (phase (SESSION st)) quick then QUICK_TARGET else FULL_TARGET)
      <= 200 * activeTime (SESSION st) ->
      sp_trainPct (buildStatsPayload st) = 100)
  /\ (activeTime (SESSION st)
      < (if Phase_eqb (phase (SESSION st)) quick then QUICK_TARGET else FULL_TARGET) ->
      checkTrainingProgress sqrt atan2 log2 rnd now st = st)
  /\ 1000 * sp_activeTime (buildStatsPayload st) <= activeTime (SESSION st)
     < 1000 * sp_activeTime (buildStatsPayload st) + 1000.
Proof.
  unfold buildStatsPayload. cbn [sp_trainPct sp_activeTime].
  split; [|split; [|split; [|split]]].
  - intros Ha. destruct (isTraining (SESSION st)).
    + destruct (training_pct_range _ Ha). now apply js_round_bounds.
    + change (0 <= 100 <= 100). lia.
  - intros ->. reflexivity.
  - intros -> Ha. pose proof (training_pct_nearly_full _ Ha) as Hlo.
    assert (Hhi : (training_pct (SESSION st) <= 100)%Q)
      by (unfold training_pct; apply Q.le_min_l).
    assert (H1 : 100 <= js_round (training_pct (SESSION st))).
    { unfold js_round.
      assert (H : (inject_Z 100 <= training_pct (SESSION st) + (1 # 2))%Q)
        by (change (inject_Z 100) with 100%Q; lra).
      apply Qfloor_resp_le in H. rewrite Qfloor_Z in H. exact H. }
    assert (H2 : js_round (training_pct (SESSION st)) <= 100).
    { unfold js_round. apply Qfloor_upper. change (inject_Z (100 + 1)) with 101%Q. lra. }
    lia.
  - apply checkTrainingProgress_below.
  - pose proof (Z.div_mod (activeTime (SESSION st)) 1000) as Hd.
    pose proof (Z.mod_pos_bound (activeTime (SESSION st)) 1000) as Hm. lia.
Qed.

Lemma stats_training_percent_witness :
  0 <= sp_trainPct (buildStatsPayload st_on) <= 100
  /\ sp_trainPct (buildStatsPayload st_idle) = 100
  /\ checkTrainingProgress sqrt_6 atan2_approx log2_floor "00ff" 5000 st_on = st_on.
Proof.
  destruct (stats_training_percent sqrt_6 atan2_approx log2_floor "00ff" 5000 st_on)
    as [H1 [_ [_ [H4 _]]]].
  destruct (stats_training_percent sqrt_6 atan2_approx log2_floor "00ff" 5000 st_idle)
    as [_ [H2 _]].
  split; [apply H1; apply Z.leb_le; reflexivity|].
  split; [apply H2; reflexivity|].
  apply H4. apply Z.ltb_lt. reflexivity.
Defined.


(** ** Statistics utilities *)

Lemma Qltb_false_le (a b : Q) : Qltb a b = false -> (b <= a)%Q.
Proof.
  unfold Qltb. intros E. apply negb_false_iff in E. now apply Qle_bool_iff.
Qed.

Lemma sort_insert_perm (x : Q) (s : list Q) : Permutation (sort_insert x s) (x :: s).
Proof.
  induction s as [|y s IH]; cbn; [reflexivity|].
  destruct (Qltb x y); [reflexivity|].
  rewrite IH. apply perm_swap.
Qed.

Lemma sort_insert_sorted (x : Q) (s : list Q) :
  StronglySorted Qle s -> StronglySorted Qle (sort_insert x s).
Proof.
  induction 1 as [|y s Hs IH Hy]; cbn.
  - repeat constructor.
  - destruct (Qltb x y) eqn:E.
    + apply Qltb_lt in E. constructor; [constructor; assumption|].
      constructor; [lra|]. eapply Forall_impl; [exact Hy|].
      intros z Hz. cbn in Hz. lra.
    + apply Qltb_false_le in E. constructor; [exact IH|].
      rewrite (sort_insert_perm x s). constructor; assumption.
Qed.

Lemma sort_fold_perm (a acc : list Q) :
  Permutation (fold_left (fun s x => sort_insert x s) a acc) (a ++ acc).
Proof.
  revert acc. induction a as [|x a IH]; intros acc; cbn; [reflexivity|].
  rewrite IH, sort_insert_perm. apply Permutation_sym, Permutation_middle.
Qed.

Lemma sort_fold_sorted (a acc : list Q) :
  StronglySorted Qle acc ->
  StronglySorted Qle (fold_left (fun s x => sort_insert x s) a acc).
Proof.
  revert acc. induction a as [|x a IH]; intros acc H; cbn; [exact H|].
  apply IH. now apply sort_insert_sorted.
Qed.

Lemma sort_num_perm_length (a : list Q) :
  Permutation (sort_num a) a /\ length (sort_num a) = length a.
Proof.
  unfold sort_num.
  assert (Hp : Permutation (fold_left (fun s x => sort_insert x s) a []) a)
    by (rewrite sort_fold_perm, app_nil_r; reflexivity).
  split; [exact Hp | now apply Permutation_length].
Qed.

(** X23. The numeric sort behind the median and the percentiles returns
    the same values, each as often as before, in ascending order. *)
Theorem sort_num_sorts (a : list Q) :
  Permutation (sort_num a) a
  /\ StronglySorted Qle (sort_num a)
  /\ length (sort_num a) = length a.
Proof.
  unfold sort_num.
  assert (Hp : Permutation (fold_left (fun s x => sort_insert x s) a []) a)
    by (rewrite sort_fold_perm, app_nil_r; reflexivity).
  split; [exact Hp|]. split.
  - apply sort_fold_sorted. constructor.
  - now apply Permutation_length.
Qed.

Lemma sum_range (lo hi : Q) (a : list Q) (acc : Q) :
  Forall (fun x => lo <= x /\ x <= hi)%Q a ->
  (acc + inject_Z (Z.of_nat (length a)) * lo <= fold_left Qplus a acc
   /\ fold_left Qplus a acc <= acc + inject_Z (Z.of_nat (length a)) * hi)%Q.
Proof.
  intros H. revert acc. induction H as [|x a [Hx0 Hx1] Ha IH]; intros acc.
  - cbn [fold_left length]. change (inject_Z (Z.of_nat 0)) with 0%Q. split; lra.
  - cbn [fold_left length]. destruct (IH (acc + x)%Q) as [I0 I1].
    rewrite Nat2Z.inj_succ, <- Z.add_1_r, inject_Z_plus.
    change (inject_Z 1) with 1%Q. split; lra.
Qed.

Lemma mean_range (lo hi : Q) (a : list Q) :
  a <> [] -> Forall (fun x => lo <= x /\ x <= hi)%Q a ->
  (lo <= _mean a /\ _mean a <= hi)%Q.
Proof.
  intros Hne H. destruct a as [|x a]; [congruence|].
  unfold _mean. destruct (sum_range lo hi (x :: a) 0 H) as [H0 H1].
  set (n := inject_Z (Z.of_nat (length (x :: a)))) in *.
  assert (Hn : (0 < n)%Q).
  { unfold n. change 0%Q with (inject_Z 0). rewrite <- Zlt_Qlt. cbn [length]. lia. }
  split.
  - apply Qle_shift_div_l; [exact Hn | lra].
  - apply Qle_shift_div_r; [exact Hn | lra].
Qed.

Lemma sorted_nth_range (lo hi : Q) (a : list Q) (i : nat) :
  Forall (fun x => lo <= x /\ x <= hi)%Q a -> (i < length a)%nat ->
  (lo <= nth i (sort_num a) 0 /\ nth i (sort_num a) 0 <= hi)%Q.
Proof.
  intros H Hi. destruct (sort_num_perm_length a) as [Hp Hl].
  assert (Hs : Forall (fun x => lo <= x /\ x <= hi)%Q (sort_num a))
    by (rewrite Hp; exact H).
  rewrite Forall_forall in Hs. apply Hs.
  apply list_elem_of_In, nth_In. rewrite Hl. exact Hi.
Qed.

Lemma med_range (lo hi : Q) (a : list Q) :
  a <> [] -> Forall (fun x => lo <= x /\ x <= hi)%Q a ->
  (lo <= _med a /\ _med a <= hi)%Q.
Proof.
  intros Hne H. destruct a as [|x a]; [congruence|].
  unfold _med. destruct (sort_num_perm_length (x :: a)) as [_ Hl]. rewrite Hl.
  set (n := length (x :: a)).
  assert (Hn : (0 < n)%nat) by (unfold n; cbn; lia).
  assert (Hm : (n / 2 < n)%nat) by (apply Nat.div_lt; lia).
  destruct (Nat.odd n).
  - now apply sorted_nth_range.
  - destruct (sorted_nth_range lo hi (x :: a) (n / 2) H Hm) as [A0 A1].
    destruct (sorted_nth_range lo hi (x :: a) (n / 2 - 1) H) as [B0 B1];
      [fold n; lia|].
    split.
    + apply Qle_shift_div_l; lra.
    + apply Qle_shift_div_r; lra.
Qed.

Lemma frac_range (i : Q) : (0 <= frac i /\ frac i < 1)%Q.
Proof.
  unfold frac. pose proof (Qfloor_le i) as H0. pose proof (Qlt_floor i) as H1.
  rewrite inject_Z_plus in H1. change (inject_Z 1) with 1%Q in H1. split; lra.
Qed.

Lemma pct_index_range (a : list Q) (p : Q) :
  a <> [] -> (0 <= p)%Q -> (p <= 100)%Q ->
  (Z.to_nat (Qfloor (p / 100 * inject_Z (Z.of_nat (length a) - 1))) < length a)%nat
  /\ (Z.to_nat (Qceiling (p / 100 * inject_Z (Z.of_nat (length a) - 1))) < length a)%nat.
Proof.
  intros Hne Hp0 Hp1. destruct a as [|x a]; [congruence|].
  set (m := Z.of_nat (length (x :: a)) - 1).
  assert (Hm : 0 <= m) by (unfold m; cbn [length]; lia).
  assert (Hmq : (0 <= inject_Z m)%Q)
    by (change 0%Q with (inject_Z 0); now rewrite <- Zle_Qle).
  assert (Hq : (0 <= p / 100 /\ p / 100 <= 1)%Q).
  { split; [apply Qle_shift_div_l | apply Qle_shift_div_r]; lra. }
  assert (Hi0 : (0 <= p / 100 * inject_Z m)%Q) by nra.
  assert (Hi1 : (p / 100 * inject_Z m <= inject_Z m)%Q) by nra.
  assert (Hlen : Z.of_nat (length (x :: a)) = m + 1) by (unfold m; lia).
  split.
  - apply Qfloor_resp_le in Hi1. rewrite Qfloor_Z in Hi1.
    change 0%Q with (inject_Z 0) in Hi0.
    apply Qfloor_resp_le in Hi0. rewrite Qfloor_Z in Hi0. lia.
  - apply Qceiling_resp_le in Hi1. rewrite Qceiling_Z in Hi1.
    change 0%Q with (inject_Z 0) in Hi0.
    apply Qceiling_resp_le in Hi0. rewrite Qceiling_Z in Hi0. lia.
Qed.

Lemma pct_range (lo hi : Q) (a : list Q) (p : Q) :
  a <> [] -> Forall (fun x => lo <= x /\ x <= hi)%Q a ->
  (0 <= p)%Q -> (p <= 100)%Q ->
  (lo <= _pct a p /\ _pct a p <= hi)%Q.
Proof.
  intros Hne H Hp0 Hp1. destruct a as [|x a]; [congruence|].
  unfold _pct. destruct (sort_num_perm_length (x :: a)) as [_ Hl]. rewrite Hl.
  destruct (pct_index_range (x :: a) p Hne Hp0 Hp1) as [Hlo Hhi].
  set (i := (p / 100 * inject_Z (Z.of_nat (length (x :: a)) - 1))%Q) in *.
  destruct (sorted_nth_range lo hi (x :: a) _ H Hlo) as [A0 A1].
  destruct (sorted_nth_range lo hi (x :: a) _ H Hhi) as [B0 B1].
  destruct (frac_range i) as [F0 F1].
  destruct (Qeq_bool (nth (Z.to_nat (Qceiling i)) (sort_num (x :: a)) 0%Q) 0%Q);
    split; nra.
Qed.

Lemma statistics_ranges (lo hi : Q) (a : list Q) :
  a <> [] -> Forall (fun x => lo <= x /\ x <= hi)%Q a ->
  (lo <= _mean a /\ _mean a <= hi)%Q
  /\ (lo <= _med a /\ _med a <= hi)%Q
  /\ (forall p, (0 <= p)%Q -> (p <= 100)%Q -> (lo <= _pct a p /\ _pct a p <= hi)%Q)
  /\ (0 <= _mad a)%Q.
Proof.
  intros Hne H.
  split; [now apply mean_range|]. split; [now apply med_range|].
  split; [intros p; now apply pct_range|].
  unfold _mad. destruct (med_range lo hi a Hne H) as [M0 M1].
  assert (Hd : Forall (fun x => 0 <= x /\ x <= hi - lo)%Q
                 (map (fun x => Qabs (x - _med a)) a)).
  { apply Forall_map. eapply Forall_impl; [exact H|].
    intros x [X0 X1]. cbn beta. split; [apply Qabs_nonneg|].
    apply Qabs_case; intros; lra. }
  assert (Hne' : map (fun x => Qabs (x - _med a)) a <> [])
    by (destruct a; [congruence | discriminate]).
  destruct (med_range 0 (hi - lo) _ Hne' Hd) as [D0 _]. nra.
Qed.

(** X24. The statistics stay within the data: for a non-empty list of
    values within [[lo, hi]], the mean, the median and every percentile
    [p] in [0,100] lie within [[lo, hi]], and the MAD is not negative. *)
Theorem statistics_within_data (lo hi : Q) (a : list Q) :
  a <> [] -> Forall (fun x => lo <= x /\ x <= hi)%Q a ->
  (lo <= _mean a /\ _mean a <= hi)%Q
  /\ (lo <= _med a /\ _med a <= hi)%Q
  /\ (forall p, (0 <= p)%Q -> (p <= 100)%Q -> (lo <= _pct a p /\ _pct a p <= hi)%Q)
  /\ (0 <= _mad a)%Q.
Proof. apply statistics_ranges. Qed.

Lemma statistics_within_data_witness :
  (1 <= _med [3; 1; 2; 2] /\ _med [3; 1; 2; 2] <= 3)%Q
  /\ (1 <= _pct [3; 1; 2; 2] 75 /\ _pct [3; 1; 2; 2] 75 <= 3)%Q.
Proof.
  destruct (statistics_within_data 1 3 [3; 1; 2; 2]%Q) as [_ [H1 [H2 _]]].
  - discriminate.
  - repeat constructor; discriminate.
  - split; [exact H1|]. apply H2; discriminate.
Defined.

Lemma Qfloor_unique (z : Z) (x : Q) :
  (inject_Z z <= x)%Q -> (x < inject_Z (z + 1))%Q -> Qfloor x = z.
Proof.
  intros H0 H1. pose proof (Qfloor_upper x z H1) as Hu.
  apply Qfloor_resp_le in H0. rewrite Qfloor_Z in H0. lia.
Qed.

Lemma inject_Z_pred (z : Z) : (inject_Z (z - 1) == inject_Z z - 1)%Q.
Proof. unfold Z.sub. rewrite inject_Z_plus. reflexivity. Qed.

Lemma inject_Z_succ (z : Z) : (inject_Z (z + 1) == inject_Z z + 1)%Q.
Proof. rewrite inject_Z_plus. reflexivity. Qed.

Lemma Qceiling_unique (z : Z) (x : Q) :
  (inject_Z (z - 1) < x)%Q -> (x <= inject_Z z)%Q -> Qceiling x = z.
Proof.
  intros H0 H1. pose proof (Qceiling_lt x) as Hc.
  apply Qceiling_resp_le in H1. rewrite Qceiling_Z in H1.
  assert (Hlt : (inject_Z (z - 1) < inject_Z (Qceiling x))%Q).
  { pose proof (Qle_ceiling x). lra. }
  rewrite <- Zlt_Qlt in Hlt. lia.
Qed.

Lemma positive_no_fallback (a : list Q) (i : nat) :
  Forall (fun x => 0 < x)%Q a -> (i < length a)%nat ->
  Qeq_bool (nth i (sort_num a) 0%Q) 0 = false.
Proof.
  intros H Hi. destruct (sort_num_perm_length a) as [Hp Hl].
  assert (Hs : Forall (fun x => 0 < x)%Q (sort_num a)) by (rewrite Hp; exact H).
  rewrite Forall_forall in Hs.
  assert (Hx : (0 < nth i (sort_num a) 0)%Q)
    by (apply Hs, list_elem_of_In, nth_In; rewrite Hl; exact Hi).
  destruct (Qeq_bool _ 0) eqn:E; [|reflexivity].
  apply Qeq_bool_iff in E. lra.
Qed.

(** X25. On strictly positive data (dwell, flight and interval times are)
    a percentile is the linear interpolation between the two neighbouring
    order statistics, percentile 0 is the smallest value, and the 50th
    percentile is the median. *)
Theorem percentile_of_positive_data (a : list Q) :
  a <> [] -> Forall (fun x => 0 < x)%Q a ->
  (forall p, (0 <= p)%Q -> (p <= 100)%Q ->
     _pct a p
     = (nth (Z.to_nat (Qfloor (p / 100 * inject_Z (Z.of_nat (length a) - 1))))
            (sort_num a) 0
        * (1 - frac (p / 100 * inject_Z (Z.of_nat (length a) - 1)))
        + nth (Z.to_nat (Qceiling (p / 100 * inject_Z (Z.of_nat (length a) - 1))))
              (sort_num a) 0
          * frac (p / 100 * inject_Z (Z.of_nat (length a) - 1)))%Q)
  /\ (_pct a 0 == nth 0 (sort_num a) 0)%Q
  /\ (_pct a 50 == _med a)%Q.
Proof.
  intros Hne Hpos.
  assert (Hgen : forall p, (0 <= p)%Q -> (p <= 100)%Q ->
     _pct a p
     = (nth (Z.to_nat (Qfloor (p / 100 * inject_Z (Z.of_nat (length a) - 1))))
            (sort_num a) 0
        * (1 - frac (p / 100 * inject_Z (Z.of_nat (length a) - 1)))
        + nth (Z.to_nat (Qceiling (p / 100 * inject_Z (Z.of_nat (length a) - 1))))
              (sort_num a) 0
          * frac (p / 100 * inject_Z (Z.of_nat (length a) - 1)))%Q).
  { intros p Hp0 Hp1. destruct a as [|x a]; [congruence|].
    unfold _pct. destruct (sort_num_perm_length (x :: a)) as [_ Hl]. rewrite Hl.
    destruct (pct_index_range (x :: a) p Hne Hp0 Hp1) as [_ Hhi].
    rewrite (positive_no_fallback (x :: a) _ Hpos Hhi). reflexivity. }
  split; [exact Hgen|].
  assert (Hn : (0 < length a)%nat) by (destruct a; [congruence | cbn; lia]).
  remember (length a) as n eqn:En.
  split.
  - rewrite Hgen by lra.
    assert (E : (0 / 100 * inject_Z (Z.of_nat n - 1) == 0)%Q)
      by (unfold Qdiv; ring).
    assert (Ef : Qfloor (0 / 100 * inject_Z (Z.of_nat n - 1)) = 0)
      by (apply Qfloor_unique; rewrite E; [discriminate | reflexivity]).
    assert (Ec : Qceiling (0 / 100 * inject_Z (Z.of_nat n - 1)) = 0)
      by (apply Qceiling_unique; rewrite E; [reflexivity | discriminate]).
    unfold frac. rewrite Ef, Ec. change (Z.to_nat 0) with 0%nat. rewrite E.
    change (inject_Z 0) with 0%Q. ring.
  - rewrite Hgen by lra.
    unfold _med. destruct a as [|x a]; [congruence|].
    destruct (sort_num_perm_length (x :: a)) as [_ Hl]. rewrite Hl, <- En.
    remember (sort_num (x :: a)) as s eqn:Es.
    remember (50 / 100 * inject_Z (Z.of_nat n - 1))%Q as i eqn:Eqi.
    assert (Ei : (i == inject_Z (Z.of_nat n - 1) / 2)%Q)
      by (rewrite Eqi; field).
    destruct (Nat.odd n) eqn:Eo.
    + apply Nat.odd_spec in Eo. destruct Eo as [k Ek].
      assert (Ez : (i == inject_Z (Z.of_nat k))%Q).
      { rewrite Ei, Ek. replace (Z.of_nat (2 * k + 1) - 1) with (2 * Z.of_nat k) by lia.
        rewrite inject_Z_mult. change (inject_Z 2) with 2%Q. field. }
      assert (Ef : Qfloor i = Z.of_nat k).
      { apply Qfloor_unique; rewrite Ez; [lra|]. rewrite inject_Z_succ. lra. }
      assert (Ec : Qceiling i = Z.of_nat k).
      { apply Qceiling_unique; rewrite Ez; [|lra]. rewrite inject_Z_pred. lra. }
      unfold frac. rewrite Ef, Ec, Nat2Z.id, Ez.
      replace (n / 2)%nat with k
        by (rewrite Ek; symmetry; rewrite Nat.add_comm, Nat.mul_comm;
            rewrite Nat.div_add by lia; reflexivity).
      ring.
    + assert (Ev : Nat.even n = true)
        by (rewrite <- Nat.negb_odd, Eo; reflexivity).
      apply Nat.even_spec in Ev. destruct Ev as [k Ek].
      assert (Hk : (1 <= k)%nat) by lia.
      assert (Ez : (i == inject_Z (Z.of_nat k) - (1 # 2))%Q).
      { rewrite Ei, Ek. replace (Z.of_nat (2 * k) - 1) with (2 * Z.of_nat k - 1) by lia.
        rewrite inject_Z_pred, inject_Z_mult. change (inject_Z 2) with 2%Q. field. }
      assert (Ef : Qfloor i = Z.of_nat k - 1).
      { apply Qfloor_unique; rewrite Ez.
        - rewrite inject_Z_pred. lra.
        - replace (Z.of_nat k - 1 + 1) with (Z.of_nat k) by lia. lra. }
      assert (Ec : Qceiling i = Z.of_nat k).
      { apply Qceiling_unique; rewrite Ez; [|lra]. rewrite inject_Z_pred. lra. }
      unfold frac. rewrite Ef, Ec, Nat2Z.id, Ez.
      replace (Z.to_nat (Z.of_nat k - 1)) with (k - 1)%nat by lia.
      replace (n / 2)%nat with k
        by (rewrite Ek, Nat.mul_comm; symmetry; apply Nat.div_mul; lia).
      rewrite inject_Z_pred. field.
Qed.

Lemma percentile_of_positive_data_witness :
  (_pct [3; 1; 2; 2] 50 == _med [3; 1; 2; 2])%Q
  /\ (_pct [3; 1; 2; 2] 0 == nth 0 (sort_num [3; 1; 2; 2]) 0)%Q.
Proof.
  destruct (percentile_of_positive_data [3; 1; 2; 2]%Q) as [_ [H0 H50]].
  - discriminate.
  - repeat constructor.
  - split; [exact H50 | exact H0].
Defined.


(** ** Ranges of the extracted features *)

Lemma inject_Z_range (lo hi z : Z) :
  lo <= z <= hi -> (inject_Z lo <= inject_Z z /\ inject_Z z <= inject_Z hi)%Q.
Proof. intros [H0 H1]. split; now rewrite <- Zle_Qle. Qed.

Lemma Forall_map_filter {A B} (P : B -> Prop) (g : A -> bool) (f : A -> B) (l : list A) :
  (forall x, In x l -> g x = true -> P (f x)) ->
  Forall P (map f (List.filter g l)).
Proof.
  intros H. apply List.Forall_forall. intros y Hy.
  apply in_map_iff in Hy. destruct Hy as [x [<- Hx]].
  apply filter_In in Hx. destruct Hx as [Hx Hg]. now apply H.
Qed.

Lemma guarded_med_range (lo hi : Q) (a : list Q) :
  (0 <= hi)%Q -> Forall (fun x => lo <= x /\ x <= hi)%Q a ->
  (0 <= lo)%Q ->
  (0 <= match a with [] => 0 | _ => _med a end
   /\ match a with [] => 0 | _ => _med a end <= hi)%Q.
Proof.
  intros Hhi H Hlo. destruct a as [|x a]; [split; lra|].
  destruct (med_range lo hi (x :: a)) as [M0 M1]; [discriminate | exact H |].
  split; lra.
Qed.

Lemma mad_nonneg (lo hi : Q) (a : list Q) :
  Forall (fun x => lo <= x /\ x <= hi)%Q a ->
  (0 <= match a with [] => 0 | _ => _mad a end)%Q.
Proof.
  intros H. destruct a as [|x a]; [lra|].
  destruct (statistics_ranges lo hi (x :: a)) as [_ [_ [_ Hm]]];
    [discriminate | exact H | exact Hm].
Qed.

(** X26. For a key buffer as the handlers fill it (every dwell within
    [1,1000], see X13), an extracted keystroke vector has at least 50
    samples, its median, mean, 25th and 75th percentile of dwell lie within
    [1,999], its median flight and median interval lie within [0,1999], and
    its MADs and its WPM are not negative. *)
Theorem extractKS_metric_ranges (sqrt : Q -> Q) (r : Raw) (f : KSFeat) :
  key_events_clean r -> extractKS sqrt r = Some f ->
  50 <= ks_n f
  /\ (1 <= medDwell f /\ medDwell f <= 999)%Q
  /\ (1 <= avgDwell f /\ avgDwell f <= 999)%Q
  /\ (1 <= p25Dwell f /\ p25Dwell f <= 999)%Q
  /\ (1 <= p75Dwell f /\ p75Dwell f <= 999)%Q
  /\ (0 <= medFlight f /\ medFlight f <= 1999)%Q
  /\ (0 <= medIv f /\ medIv f <= 1999)%Q
  /\ (0 <= madDwell f)%Q /\ (0 <= madFlight f)%Q /\ (0 <= madIv f)%Q
  /\ (0 <= wpm f)%Q.
Proof.
  intros Hc He. unfold extractKS in He.
  set (ev := List.filter qualifying (ksEvents r)) in *.
  destruct (length ev <? 50)%nat eqn:El; [discriminate|].
  apply Nat.ltb_ge in El.
  assert (Hne : ev <> []) by (destruct ev; [cbn in El; lia | discriminate]).
  assert (Hdw : Forall (fun x => 1 <= x /\ x <= 999)%Q
                  (map (fun k => inject_Z (k_dwell k)) ev)).
  { unfold ev. apply Forall_map_filter. intros k Hk Hq.
    unfold key_events_clean in Hc. rewrite List.Forall_forall in Hc.
    destruct (Hc k Hk) as [[Hd0 _] _].
    apply qualifying_spec in Hq. destruct Hq as [_ Hd1].
    apply (inject_Z_range 1 999). lia. }
  assert (Hdne : map (fun k => inject_Z (k_dwell k)) ev <> [])
    by (destruct ev; [congruence | discriminate]).
  assert (Hfl : Forall (fun x => 1 <= x /\ x <= 1999)%Q
                  (map (fun k => inject_Z (default 0 (k_flight k)))
                       (List.filter valid_flight ev))).
  { apply Forall_map_filter. intros k _ Hv. unfold valid_flight in Hv.
    destruct (k_flight k) as [fl|]; [|discriminate]. cbn [default].
    apply andb_true_iff in Hv. destruct Hv as [Hv Hv2].
    apply andb_true_iff in Hv. destruct Hv as [_ Hv1].
    apply Z.ltb_lt in Hv1, Hv2. apply (inject_Z_range 1 1999 fl). lia. }
  assert (Hiv : Forall (fun x => 1 <= x /\ x <= 1999)%Q
                  (map inject_Z
                     (List.filter (fun d => (0 <? d) && (d <? 2000)) (ts_deltas ev)))).
  { apply Forall_map_filter. intros d _ Hd.
    apply andb_true_iff in Hd. destruct Hd as [Hd1 Hd2].
    apply Z.ltb_lt in Hd1, Hd2. apply (inject_Z_range 1 1999). lia. }
  destruct (statistics_ranges 1 999 _ Hdne Hdw) as [Hmean [Hmed [Hpct Hmad]]].
  injection He as <-.
  cbn [ks_n medDwell avgDwell p25Dwell p75Dwell medFlight medIv madDwell
       madFlight madIv wpm].
  split; [lia|]. split; [exact Hmed|]. split; [exact Hmean|].
  split; [apply Hpct; lra|]. split; [apply Hpct; lra|].
  split; [apply (guarded_med_range 1 1999); [lra | exact Hfl | lra]|].
  split; [apply (guarded_med_range 1 1999); [lra | exact Hiv | lra]|].
  split; [exact Hmad|].
  split; [apply (mad_nonneg 1 1999); exact Hfl|].
  split; [apply (mad_nonneg 1 1999); exact Hiv|].
  destruct (length ev <? 10)%nat; [apply Qle_refl|].
  destruct ev as [|first rest]; [apply Qle_refl|].
  cbv zeta. destruct (Qltb 0 _) eqn:Ed; [|apply Qle_refl].
  apply Qltb_lt in Ed. apply quotient_nonneg; [|exact Ed].
  apply quotient_nonneg; [|lra].
  change 0%Q with (inject_Z 0). rewrite <- Zle_Qle. lia.
Qed.

Lemma extractKS_metric_ranges_witness :
  exists f,
    extractKS sqrt_6 (RAW st_typed) = Some f
    /\ (1 <= medDwell f /\ medDwell f <= 999)%Q
    /\ (0 <= medIv f /\ medIv f <= 1999)%Q.
Proof.
  assert (Hc : key_events_clean (RAW st_typed)).
  { unfold key_events_clean. apply List.Forall_forall. intros k Hk.
    assert (Hb : forallb (fun k => (1 <=? k_dwell k) && (k_dwell k <=? 1000)
                                   && String.eqb (k_nonce k) (nonce (RAW st_typed)))
                   (ksEvents (RAW st_typed)) = true)
      by (vm_compute; reflexivity).
    rewrite forallb_forall in Hb. specialize (Hb k Hk).
    apply andb_true_iff in Hb. destruct Hb as [Hb Hn].
    apply andb_true_iff in Hb. destruct Hb as [H0 H1].
    apply Z.leb_le in H0, H1. apply String.eqb_eq in Hn.
    split; [split; assumption | exact Hn]. }
  assert (Hp : exists f, extractKS sqrt_6 (RAW st_typed) = Some f).
  { unfold extractKS.
    assert (El : (length (List.filter qualifying (ksEvents (RAW st_typed))) <? 50)%nat
                 = false) by (vm_compute; reflexivity).
    rewrite El. eexists. reflexivity. }
  destruct Hp as [f E]. exists f. split; [exact E|].
  destruct (extractKS_metric_ranges sqrt_6 (RAW st_typed) f Hc E)
    as [_ [H1 [_ [_ [_ [_ [H2 _]]]]]]].
  split; [exact H1 | exact H2].
Defined.


(** ** Ranges of the mouse and click features *)

Lemma sum_lower (lo : Q) (a : list Q) (acc : Q) :
  Forall (fun x => lo <= x)%Q a ->
  (acc + inject_Z (Z.of_nat (length a)) * lo <= fold_left Qplus a acc)%Q.
Proof.
  intros H. revert acc. induction H as [|x a Hx Ha IH]; intros acc.
  - cbn [fold_left length]. change (inject_Z (Z.of_nat 0)) with 0%Q. lra.
  - cbn [fold_left length]. specialize (IH (acc + x)%Q).
    rewrite Nat2Z.inj_succ, <- Z.add_1_r, inject_Z_plus.
    change (inject_Z 1) with 1%Q. lra.
Qed.

Lemma mean_nonneg (a : list Q) :
  Forall (fun x => 0 <= x)%Q a -> (0 <= _mean a)%Q.
Proof.
  intros H. destruct a as [|x a]; [cbn; lra|].
  unfold _mean. pose proof (sum_lower 0 (x :: a) 0 H) as H0.
  apply quotient_nonneg; [lra|].
  change 0%Q with (inject_Z 0). rewrite <- Zlt_Qlt. cbn [length]. lia.
Qed.

Lemma zero_crossings_nonneg (m2 : Q) (acc : list Q) : 0 <= zero_crossings m2 acc.
Proof.
  induction acc as [|a acc IH]; [cbn; lia|].
  destruct acc as [|b acc]; [cbn; lia|].
  change (zero_crossings m2 (a :: b :: acc))
    with ((if Qltb ((b - m2) * (a - m2)) 0 then 1 else 0)
          + zero_crossings m2 (b :: acc)).
  destruct (Qltb _ 0); lia.
Qed.

Lemma jitter_freq_nonneg (sqrt : Q -> Q) (jb : list JitterSample) :
  (0 <= fst (jitter_stats sqrt jb))%Q.
Proof.
  unfold jitter_stats.
  destruct (20 <=? length jb)%nat; [|cbn; lra].
  destruct (10 <=? length (map j_acc jb))%nat; [|cbn; lra].
  destruct jb as [|first rest]; [cbn; lra|].
  cbv zeta. cbn [fst]. destruct (Qltb 0 _) eqn:Ed; [|lra].
  apply Qltb_lt in Ed. apply quotient_nonneg; [|exact Ed].
  apply quotient_nonneg; [|lra].
  change 0%Q with (inject_Z 0). rewrite <- Zle_Qle. apply zero_crossings_nonneg.
Qed.

Lemma mouse_angles_nonneg (sqrt : Q -> Q) (atan2 : Q -> Q -> Q) (m : list MouseSample) :
  Forall (fun x => 0 <= x)%Q (omap snd (mouse_steps sqrt atan2 m)).
Proof.
  apply Forall_forall. intros a Ha.
  apply list_elem_of_omap in Ha. destruct Ha as [[v o] [Hs Ho]].
  cbn in Ho. subst o. unfold mouse_steps in Hs.
  apply list_elem_of_omap in Hs. destruct Hs as [i [_ Hi]].
  unfold mouse_step in Hi.
  destruct (nth_error m (i - 1)) as [p|]; [|discriminate].
  destruct (nth_error m i) as [q|]; [|discriminate].
  cbv zeta in Hi. destruct (Qltb 0 _ && Qltb _ (1 # 2)); [|discriminate].
  destruct (1 <? i)%nat; [|discriminate].
  destruct (nth_error m (i - 2)) as [c|]; [|discriminate].
  apply (f_equal (fun o => match o with Some (_, Some x) => x | _ => 0%Q end)) in Hi.
  cbv beta iota in Hi. rewrite <- Hi. apply Qabs_nonneg.
Qed.

Lemma PI_pos : (0 < PI)%Q.
Proof. reflexivity. Qed.

Lemma angle_entropy_range (log2 : Q -> Q) (angles : list Q) :
  (0 <= angle_entropy log2 angles /\ angle_entropy log2 angles <= 1)%Q.
Proof.
  unfold angle_entropy. destruct (length angles <? 10)%nat; [split; lra|].
  cbv zeta. set (e := fold_left _ _ _).
  split; [|apply Q.le_min_l].
  apply Q.min_glb; [lra|]. apply quotient_nonneg; [apply Qabs_nonneg | reflexivity].
Qed.

(** X27. [extractMouse] returns null exactly below 30 buffered samples.
    Whatever [Math.sqrt], [Math.atan2] and [Math.log2] return, a returned
    vector has n >= 30, an entropy within [0,1] and a curvature and a jitter
    frequency that are not negative. *)
Theorem extractMouse_ranges (sqrt : Q -> Q) (atan2 : Q -> Q -> Q) (log2 : Q -> Q)
    (r : Raw) :
  (extractMouse sqrt atan2 log2 r = None <-> (length (mouseEvts r) < 30)%nat)
  /\ (forall f, extractMouse sqrt atan2 log2 r = Some f ->
        mouse_n f = Z.of_nat (length (mouseEvts r))
        /\ 30 <= mouse_n f
        /\ (0 <= entropy f /\ entropy f <= 1)%Q
        /\ (0 <= curvature f)%Q
        /\ (0 <= jitterFreq f)%Q).
Proof.
  unfold extractMouse.
  destruct (length (mouseEvts r) <? 30)%nat eqn:El.
  - apply Nat.ltb_lt in El. split; [tauto | discriminate].
  - apply Nat.ltb_ge in El. split; [split; [discriminate | lia]|].
    intros f Hf. injection Hf as <-.
    cbn [mouse_n entropy curvature jitterFreq].
    split; [reflexivity|]. split; [lia|].
    split; [apply angle_entropy_range|].
    split; [|apply jitter_freq_nonneg].
    pose proof (mouse_angles_nonneg sqrt atan2 (mouseEvts r)) as Ha.
    destruct (omap snd (mouse_steps sqrt atan2 (mouseEvts r))) as [|a l] eqn:Ea;
      [lra|].
    apply quotient_nonneg; [now apply mean_nonneg | exact PI_pos].
Qed.

Lemma extractMouse_ranges_witness :
  extractMouse sqrt_6 atan2_approx log2_floor (RAW st_on) = None
  /\ exists f,
       extractMouse sqrt_6 atan2_approx log2_floor (RAW st_mouse) = Some f
       /\ mouse_n f = 30
       /\ (0 <= entropy f /\ entropy f <= 1)%Q.
Proof.
  split.
  - apply (extractMouse_ranges sqrt_6 atan2_approx log2_floor (RAW st_on)).
    apply Nat.ltb_lt. reflexivity.
  - assert (Hp : exists f,
               extractMouse sqrt_6 atan2_approx log2_floor (RAW st_mouse) = Some f).
    { destruct (extractMouse sqrt_6 atan2_approx log2_floor (RAW st_mouse))
        as [f|] eqn:E; [exists f; reflexivity|].
      exfalso. revert E. apply extractMouse_present. apply Nat.leb_le. reflexivity. }
    destruct Hp as [f E]. exists f. split; [exact E|].
    destruct (extractMouse_ranges sqrt_6 atan2_approx log2_floor (RAW st_mouse))
      as [_ H].
    destruct (H f E) as [H1 [_ [H2 _]]].
    split; [rewrite H1; reflexivity | exact H2].
Defined.


Lemma click_intervals_nonneg (sqrt : Q -> Q) (c : list ClickSample) :
  Sorted (fun a b => c_t a <= c_t b) c ->
  Forall (fun x => 0 <= x)%Q (map fst (click_pairs sqrt c)).
Proof.
  intros Hs. induction Hs as [|a c Hs IH Hd]; [constructor|].
  destruct c as [|b c]; [constructor|].
  change (click_pairs sqrt (a :: b :: c))
    with ((inject_Z (c_t b - c_t a),
           sqrt (inject_Z ((c_x b - c_x a) * (c_x b - c_x a)
                           + (c_y b - c_y a) * (c_y b - c_y a))))
          :: click_pairs sqrt (b :: c)).
  cbn [map fst]. constructor; [|exact IH].
  inversion Hd as [|? ? Hab]; subst.
  change 0%Q with (inject_Z 0). rewrite <- Zle_Qle. lia.
Qed.

(** X28. [extractClick] returns null exactly below 5 buffered clicks; a
    returned vector has n >= 5 and a cadence that is not negative, and when
    the clicks are in time order its average interval is not negative. *)
Theorem extractClick_ranges (sqrt : Q -> Q) (r : Raw) :
  (extractClick sqrt r = None <-> (length (clicks r) < 5)%nat)
  /\ (forall f, extractClick sqrt r = Some f ->
        click_n f = Z.of_nat (length (clicks r))
        /\ 5 <= click_n f
        /\ (0 <= cpm f)%Q
        /\ (Sorted (fun a b => c_t a <= c_t b) (clicks r) -> (0 <= avgIv f)%Q)).
Proof.
  unfold extractClick.
  destruct (length (clicks r) <? 5)%nat eqn:El.
  - apply Nat.ltb_lt in El. split; [tauto | discriminate].
  - apply Nat.ltb_ge in El.
    destruct (clicks r) as [|first rest] eqn:Ec; [cbn in El; lia|].
    split; [split; [discriminate | lia]|].
    intros f Hf. cbv zeta in Hf. injection Hf as Hf. rewrite <- Hf.
    unfold click_n, cpm, avgIv.
    cbn [length] in El |- *.
    split; [reflexivity|]. split; [lia|]. split.
    + destruct (Qltb 0 _) eqn:Ed; [|lra].
      apply Qltb_lt in Ed. apply quotient_nonneg; [|exact Ed].
      change 0%Q with (inject_Z 0). rewrite <- Zle_Qle. lia.
    + intros Hs. apply mean_nonneg.
      exact (click_intervals_nonneg sqrt (first :: rest) Hs).
Qed.

Lemma extractClick_ranges_witness :
  extractClick sqrt_6 (RAW st_on) = None
  /\ exists f,
       extractClick sqrt_6 (RAW st_clicks) = Some f
       /\ click_n f = 5 /\ (0 <= cpm f)%Q /\ (0 <= avgIv f)%Q.
Proof.
  split.
  - apply (extractClick_ranges sqrt_6 (RAW st_on)). apply Nat.ltb_lt. reflexivity.
  - assert (Hp : exists f, extractClick sqrt_6 (RAW st_clicks) = Some f).
    { destruct (extractClick sqrt_6 (RAW st_clicks)) as [f|] eqn:E;
        [exists f; reflexivity|].
      apply (extractClick_ranges sqrt_6 (RAW st_clicks)) in E.
      exfalso. revert E. apply Nat.le_ngt. apply Nat.leb_le. vm_compute. reflexivity. }
    destruct Hp as [f E]. exists f. split; [exact E|].
    destruct (extractClick_ranges sqrt_6 (RAW st_clicks)) as [_ H].
    destruct (H f E) as [H1 [_ [H2 H3]]].
    split; [rewrite H1; vm_compute; reflexivity|]. split; [exact H2|].
    apply H3. vm_compute. repeat constructor; discriminate.
Defined.


(** ** Password helpers *)

(** X29. Whatever the hash function: after [save-password] the saved
    password is accepted and the setup is reported as done; after a later
    [reset-password] the new password is accepted, an attempt is accepted
    exactly when its salted hash equals that of the new password, and the
    recovery data and the creation time are those of the save.  With nothing
    stored every attempt is refused, and [reset-password] alone creates an
    entry (without recovery data) that reports the setup as done. *)
Theorem password_round_trip (sha256_hex : string -> string) (Recovery : Type)
    (now now' : Z) (pw pw' attempt : string) (rec : option Recovery)
    (stored : option (PasswordData Recovery)) :
  let s1 := save_password sha256_hex now pw rec stored in
  let s2 := reset_password sha256_hex now' pw' s1 in
  checkPassword sha256_hex pw s1 = true
  /\ hasSetup s1 = true
  /\ checkPassword sha256_hex pw' s2 = true
  /\ (checkPassword sha256_hex attempt s2 = true <->
      sha256_hex (attempt +:+ "bg-salt-2024") = sha256_hex (pw' +:+ "bg-salt-2024"))
  /\ s2 ≫= recovery = rec
  /\ s2 ≫= pw_createdAt = Some now
  /\ s2 ≫= pw_updatedAt = Some now'
  /\ checkPassword sha256_hex attempt (@None (PasswordData Recovery)) = false
  /\ hasSetup (reset_password sha256_hex now' pw' (@None (PasswordData Recovery))) = true
  /\ reset_password sha256_hex now' pw' (@None (PasswordData Recovery)) ≫= recovery = None.
Proof.
  cbv zeta. unfold save_password, reset_password, checkPassword, hasSetup.
  cbn [passwordHash recovery pw_createdAt pw_updatedAt mbind option_bind].
  rewrite !String.eqb_refl.
  repeat split; try reflexivity.
  - apply String.eqb_eq.
  - apply String.eqb_eq.
Qed.

Lemma password_round_trip_witness :
  checkPassword (fun s => s) "first"
    (reset_password (fun s => s) 2000 "second"
       (save_password (fun s => s) 1000 "first" (Some "pet") None))
  <> true.
Proof.
  destruct (password_round_trip (fun s => s) string 1000 2000 "first" "second"
              "first" (Some "pet") None)
    as [_ [_ [_ [[H _] _]]]].
  intros Hc. apply H in Hc. discriminate Hc.
Defined.

